(** * Shopping-List backend: recipe scraper and inventory reconciliation

    A shallow embedding of [backend/app/services/recipe_scraper.py] and of the
    request handlers of [backend/app/main.py] over the tables of
    [backend/app/models.py], with the properties of the specification stated
    over it.

    Conventions of the embedding.
    - A Python [str] is a [string]; its characters are the code points
      U+0000..U+00FF, with CPython's tables for white space and lower-casing
      on that range.
    - A Python [float] is a primitive binary64 [float]; [+], [-], [*] and the
      comparisons are the IEEE operations, as in CPython.  Conversions from
      integers and decimals are computed on [spec_float], correctly rounded.
    - An exception is a value of [exn]; code that can raise returns a
      [result].
    - A Python [int] is a [Z]; [int(str)] and [fractions.Fraction(str)] read
      strings as CPython 3.11 does: digits may be grouped by underscores, and
      a run of more than 4300 digits is a [ValueError].
    - A table is the list of its rows in storage order; a query without
      [order_by] returns the matching rows in that order, except the entries
      of a plan, which SQLite reads through the index of their unique
      constraint, in (day, meal) order.
    - A request handler is a function of the session ([App.M]); [App.run_request]
      is [get_db]: it opens the session on the stored database, runs the
      handler and keeps what was committed.
    - [uuid.uuid4()] is not a function of the state: the identifier of a new
      row is an argument of the handler that writes it.

    Left out: the HTTP fetch and the parsing of the page ([httpx],
    [BeautifulSoup]; the extractor is modelled from the parsed page on), the
    scrape handler, and the validation of request bodies. *)

From Stdlib Require Import ZArith List String Ascii Bool Lia Floats Permutation Sorted.
Import ListNotations.
Local Open Scope string_scope.
Local Open Scope Z_scope.

(** ** Exceptions and results *)

Inductive exn : Type :=
| ValueError
| ZeroDivisionError
| OverflowError
| TypeError
| AttributeError
| MultipleResultsFound
| IntegrityError
| HTTPException (status_code : Z) (detail : string).

Inductive result (A : Type) : Type :=
| Ok (a : A)
| Raise (e : exn).
Arguments Ok {A} a.
Arguments Raise {A} e.

Definition bind {A B : Type} (m : result A) (k : A -> result B) : result B :=
  match m with
  | Ok a => k a
  | Raise e => Raise e
  end.

Notation "'do' x <- m ; k" := (bind m (fun x => k))
  (at level 10, x pattern, m at level 100, k at level 200).

(** ** Python strings *)

Module PyStr.

Definition code (c : ascii) : N := N_of_ascii c.

(** [str.isspace] on one character (Py_UNICODE_ISSPACE): the white space
    [str.split()] and [str.strip()] use, and [\s] of [re]. *)
Definition isspace (c : ascii) : bool :=
  let n := code c in
  (((9 <=? n) && (n <=? 13)) || ((28 <=? n) && (n <=? 32))
   || (n =? 133) || (n =? 160))%N.

(** [\d] of [re] (decimal digits; on this range, ['0'..'9']). *)
Definition isdigit (c : ascii) : bool :=
  let n := code c in ((48 <=? n) && (n <=? 57))%N.

(** [str.lower] on one character. *)
Definition lower_char (c : ascii) : ascii :=
  let n := code c in
  if (((65 <=? n) && (n <=? 90))
      || ((192 <=? n) && (n <=? 222) && negb (n =? 215)))%N
  then ascii_of_N (n + 32) else c.

Fixpoint lower (s : string) : string :=
  match s with
  | EmptyString => EmptyString
  | String c s' => String (lower_char c) (lower s')
  end.

Definition is_empty (s : string) : bool :=
  match s with EmptyString => true | _ => false end.

(** [s.lstrip(chars)], [s.rstrip(chars)] for a set of characters given by
    its membership test. *)
Fixpoint lstrip_by (p : ascii -> bool) (s : string) : string :=
  match s with
  | EmptyString => EmptyString
  | String c s' => if p c then lstrip_by p s' else s
  end.

Fixpoint rstrip_by (p : ascii -> bool) (s : string) : string :=
  match s with
  | EmptyString => EmptyString
  | String c s' =>
      let r := rstrip_by p s' in
      if is_empty r && p c then EmptyString else String c r
  end.

(** [s.strip()] *)
Definition strip (s : string) : string :=
  rstrip_by isspace (lstrip_by isspace s).

Definition mem_char (chars : string) (c : ascii) : bool :=
  existsb (Ascii.eqb c) (list_ascii_of_string chars).

(** [s.rstrip(chars)] *)
Definition rstrip (chars : string) (s : string) : string :=
  rstrip_by (mem_char chars) s.

(** [s.split()]: the maximal runs of non-white-space characters. *)
Fixpoint split (s : string) : list string :=
  match s with
  | EmptyString => []
  | String c s' =>
      if isspace c then split s'
      else
        match s' with
        | EmptyString => [String c EmptyString]
        | String c' _ =>
            if isspace c' then String c EmptyString :: split s'
            else
              match split s' with
              | t :: ts => String c t :: ts
              | [] => [String c EmptyString]
              end
        end
  end.

(** [sep.join(parts)] *)
Fixpoint join (sep : string) (parts : list string) : string :=
  match parts with
  | [] => EmptyString
  | [p] => p
  | p :: ps => p ++ sep ++ join sep ps
  end.

(** [a or b] on strings: the empty string is falsy. *)
Definition or_else (a b : string) : string :=
  if is_empty a then b else a.

(** The longest prefix of decimal digits, and the rest. *)
Fixpoint span_digits (s : string) : string * string :=
  match s with
  | EmptyString => (EmptyString, EmptyString)
  | String c s' =>
      if isdigit c
      then let '(d, r) := span_digits s' in (String c d, r)
      else (EmptyString, s)
  end.

(** [int(digits)] for a string of decimal digits. *)
Definition int_of_digits (s : string) : Z :=
  fold_left (fun acc c => 10 * acc + (Z.of_N (code c) - 48))
            (list_ascii_of_string s) 0.

Definition len (s : string) : Z := Z.of_nat (String.length s).

End PyStr.

(** ** Python floats *)

Module PyFloat.

(** The [spec_float] of a non-zero integer quotient rounds to nearest, ties
    to even; it is [S754_infinity] exactly when the rounded quotient is
    beyond the largest finite double. *)
Definition quotient (n d : positive) : spec_float :=
  SFdiv prec emax (S754_finite false n 0) (S754_finite false d 0).

Definition with_sign (neg : bool) (f : float) : float :=
  if neg then (- f)%float else f.

(** [n / d] on Python ints ([long_true_divide]): the correctly rounded
    quotient, [ZeroDivisionError] for [d = 0], [OverflowError] when the
    quotient is too large for a float. *)
Definition int_true_divide (n d : Z) : result float :=
  match d, n with
  | Z0, _ => Raise ZeroDivisionError
  | _, Z0 => Ok (if d <? 0 then neg_zero else zero)
  | _, _ =>
      match quotient (Z.to_pos (Z.abs n)) (Z.to_pos (Z.abs d)) with
      | S754_infinity _ => Raise OverflowError
      | q => Ok (with_sign (xorb (n <? 0) (d <? 0)) (SF2Prim q))
      end
  end.

(** [float(digits)] for a string of decimal digits: the nearest double,
    [inf] when out of range (no exception). *)
Definition of_digits (s : string) : float :=
  SF2Prim (binary_normalize prec emax (PyStr.int_of_digits s) 0 false).

(** [round(x, ndigits)] for [ndigits >= 0] ([float.__round__] with the
    correctly rounded decimal conversions): the exact value of [x] is
    rounded to the nearest multiple of [10^-ndigits], ties to even, and the
    double nearest to that decimal is returned; [nan], the infinities and
    the zeros are returned as they are. *)
Definition round_half_even (a b : Z) : Z :=
  let q := a / b in
  let r := a mod b in
  match 2 * r ?= b with
  | Lt => q
  | Gt => q + 1
  | Eq => if Z.even q then q else q + 1
  end.

Definition round (x : float) (ndigits : Z) : float :=
  match Prim2SF x with
  | S754_finite sg m e =>
      if 0 <=? e then x
      else
        let scaled := round_half_even (Z.pos m * 10 ^ ndigits) (2 ^ (- e)) in
        match int_true_divide scaled (10 ^ ndigits) with
        | Ok r => with_sign sg r
        | Raise _ => x
        end
  | _ => x
  end.

End PyFloat.

(** ** The quantity/unit parser ([services/recipe_scraper.py]) *)

Module Scraper.
Import PyStr.

Definition COMMON_UNITS : list string :=
  [ "g"; "gram"; "grams"; "kg"; "ml"; "l"; "litre"; "litres"; "liter";
    "liters"; "cup"; "cups"; "tsp"; "teaspoon"; "teaspoons"; "tbsp";
    "tablespoon"; "tablespoons"; "ounce"; "ounces"; "oz"; "lb"; "lbs";
    "pound"; "pounds"; "clove"; "cloves"; "count"; "piece"; "pieces";
    "pinch" ].

(** [x in COMMON_UNITS] *)
Definition in_units (x : string) : bool :=
  existsb (String.eqb x) COMMON_UNITS.

(** *** [fractions.Fraction(str)]

    The groups of [_RATIONAL_FORMAT] (CPython 3.11): an optional sign, the
    numerator, then either [/denominator] or an optional [.decimal] and an
    optional [E exponent]; white space is allowed at both ends only.  Each
    run of digits may be grouped by single underscores, [\d+(_\d+)*].  (The
    pattern of 3.11 also lets a run of the letter [d] stand for the decimal
    part; [int] rejects it, with the [ValueError] of a text that does not
    match.) *)
Record rational_match : Type := {
  g_neg : bool;
  g_num : string;
  g_denom : option string;
  g_decimal : option string;
  g_exp : option string
}.

Definition take_sign (s : string) : bool * string :=
  match s with
  | String "-" r => (true, r)
  | String "+" r => (false, r)
  | _ => (false, s)
  end.

(** The lookahead [(?=\d|\.\d)]. *)
Definition starts_number (s : string) : bool :=
  match s with
  | String c r =>
      isdigit c
      || (Ascii.eqb c "." && match r with String c' _ => isdigit c' | _ => false end)
  | EmptyString => false
  end.

(** The longest prefix [\d+(_\d+)*] (empty when the text does not start
    with a digit), and the rest. *)
Fixpoint span_grouped (s : string) : string * string :=
  match s with
  | EmptyString => (EmptyString, EmptyString)
  | String c r =>
      if isdigit c then
        match r with
        | String "_" r2 =>
            let '(d2, r3) := span_grouped r2 in
            if is_empty d2 then (String c EmptyString, r)
            else (String c (String "_" d2), r3)
        | _ => let '(d, r1) := span_grouped r in (String c d, r1)
        end
      else (EmptyString, s)
  end.

(** [sys.get_int_max_str_digits()] *)
Definition int_max_str_digits : Z := 4300.

(** [s.replace("_", "")] *)
Fixpoint without_underscores (s : string) : string :=
  match s with
  | EmptyString => EmptyString
  | String c r =>
      if Ascii.eqb c "_" then without_underscores r else String c (without_underscores r)
  end.

(** [int(s)] for an optional sign and grouped decimal digits: [ValueError]
    on any other text, and on more than [int_max_str_digits] digits. *)
Definition int (s : string) : result Z :=
  let '(neg, body) := take_sign s in
  let '(grouped, rest) := span_grouped body in
  let digits := without_underscores grouped in
  if is_empty grouped || negb (is_empty rest) then Raise ValueError
  else if int_max_str_digits <? len digits then Raise ValueError
  else Ok (if neg then - int_of_digits digits else int_of_digits digits).

(** The optional exponent, [E], an optional sign and grouped digits, followed
    by the end of the text. *)
Definition match_exp_end (s : string) : option (option string) :=
  match s with
  | EmptyString => Some None
  | String c r =>
      if Ascii.eqb c "e" || Ascii.eqb c "E" then
        let '(_, r1) := take_sign r in
        let '(ds, r2) := span_grouped r1 in
        if negb (is_empty ds) && is_empty r2 then Some (Some r) else None
      else None
  end.

Definition rational_format (text : string) : option rational_match :=
  let s := strip text in
  let '(neg, s1) := take_sign s in
  if negb (starts_number s1) then None
  else
    let '(num, r) := span_grouped s1 in
    match r with
    | EmptyString => Some (Build_rational_match neg num None None None)
    | String "/" r1 =>
        let '(den, r2) := span_grouped r1 in
        if negb (is_empty den) && is_empty r2
        then Some (Build_rational_match neg num (Some den) None None)
        else None
    | String "." r1 =>
        let '(dec, r2) := span_grouped r1 in
        match match_exp_end r2 with
        | Some e => Some (Build_rational_match neg num None (Some dec) e)
        | None => None
        end
    | _ =>
        match match_exp_end r with
        | Some e => Some (Build_rational_match neg num None None e)
        | None => None
        end
    end.

(** [Fraction(text)] as the pair (numerator, denominator) in lowest terms. *)
Definition Fraction (text : string) : result (Z * Z) :=
  match rational_format text with
  | None => Raise ValueError
  | Some m =>
      do numerator <- int (or_else (g_num m) "0");
      do (numerator, denominator) <-
        match g_denom m with
        | Some denom => do denominator <- int denom; Ok (numerator, denominator)
        | None =>
            do (numerator, denominator) <-
              match g_decimal m with
              | Some decimal =>
                  if is_empty decimal then Ok (numerator, 1)
                  else
                    let decimal := without_underscores decimal in
                    let scale := 10 ^ len decimal in
                    do fractional <- int decimal;
                    Ok (numerator * scale + fractional, scale)
              | None => Ok (numerator, 1)
              end;
            match g_exp m with
            | Some exp =>
                do exp <- int exp;
                if 0 <=? exp then Ok (numerator * 10 ^ exp, denominator)
                else Ok (numerator, denominator * 10 ^ (- exp))
            | None => Ok (numerator, denominator)
            end
        end;
      let numerator := if g_neg m then - numerator else numerator in
      if denominator =? 0 then Raise ZeroDivisionError
      else
        let g := Z.gcd numerator denominator in
        Ok (numerator / g, denominator / g)
  end.

(** [float(Fraction(text))]: [numerator / denominator] on ints. *)
Definition float_of_Fraction (text : string) : result float :=
  do (n, d) <- Fraction text;
  PyFloat.int_true_divide n d.

(** [re.match(r"^(\d+)\s+(\d+/\d+)$", value)]: the two groups.  [value]
    has been stripped, so [$] is the end of the text. *)
Definition match_mixed (value : string) : option (string * string) :=
  let '(whole, r) := span_digits value in
  if is_empty whole then None
  else
    let r1 := lstrip_by isspace r in
    if (String.length r1 =? String.length r)%nat then None
    else
      let '(n, r2) := span_digits r1 in
      match r2 with
      | String "/" r3 =>
          let '(d, r4) := span_digits r3 in
          if negb (is_empty n) && negb (is_empty d) && is_empty r4
          then Some (whole, n ++ "/" ++ d)
          else None
      | _ => None
      end.

(** [_parse_numeric]: [Ok None] is the [None] return; [Raise] an exception
    that leaves the function. *)
Definition _parse_numeric (value : string) : result (option float) :=
  let value := strip value in
  match float_of_Fraction value with
  | Ok f => Ok (Some f)
  | Raise ValueError | Raise ZeroDivisionError =>
      match match_mixed value with
      | Some (whole, fraction) =>
          do f <- float_of_Fraction fraction;
          Ok (Some (PyFloat.of_digits whole + f)%float)
      | None => Ok None
      end
  | Raise e => Raise e
  end.

(** [_split_quantity_unit]: (quantity, unit, name). *)
Definition _split_quantity_unit (text : string)
  : result (float * option string * string) :=
  let tokens := split text in
  match tokens with
  | [] => Ok (1%float, None, EmptyString)
  | first :: _ =>
      do quantity_candidate <- _parse_numeric first;
      let '(quantity, unit, remainder_tokens) :=
        match quantity_candidate with
        | Some q =>
            let remainder_tokens := tl tokens in
            match remainder_tokens with
            | t :: rest =>
                let potential_unit := rstrip ".," (lower t) in
                if in_units potential_unit then (q, Some t, rest)
                else (q, None, remainder_tokens)
            | [] => (q, None, remainder_tokens)
            end
        | None => (1%float, None, tokens)
        end in
      Ok (quantity, unit, or_else (strip (join " " remainder_tokens)) text)
  end.

(** *** JSON values, as [json.loads] returns them *)

#[warnings="-register-all"]
Inductive json : Type :=
| JNull
| JBool (b : bool)
| JInt (n : Z)
| JFloat (f : float)
| JStr (s : string)
| JList (items : list json)
| JDict (fields : list (string * json)).

(** [d.get(key)] as an option, and with Python's default [None]. *)
Fixpoint lookup (key : string) (fields : list (string * json)) : option json :=
  match fields with
  | [] => None
  | (k, v) :: rest => if String.eqb k key then Some v else lookup key rest
  end.

Definition get (fields : list (string * json)) (key : string) : json :=
  match lookup key fields with Some v => v | None => JNull end.

(** Truth value of an object. *)
Definition truthy (v : json) : bool :=
  match v with
  | JNull => false
  | JBool b => b
  | JInt n => negb (n =? 0)
  | JFloat f => negb (f =? 0)%float
  | JStr s => negb (is_empty s)
  | JList l => match l with [] => false | _ => true end
  | JDict d => match d with [] => false | _ => true end
  end.

(** [a or b] *)
Definition por (a b : json) : json := if truthy a then a else b.

(** Lists and dicts are unhashable. *)
Definition hashable (v : json) : bool :=
  match v with
  | JList _ | JDict _ => false
  | _ => true
  end.

(** [n == f] for an int and a float: equality of the exact values. *)
Definition int_eq_float (n : Z) (f : float) : bool :=
  match Prim2SF f with
  | S754_zero _ => n =? 0
  | S754_finite sg m e =>
      let v := if sg then Z.neg m else Z.pos m in
      if 0 <=? e then n =? v * 2 ^ e else n * 2 ^ (- e) =? v
  | _ => false
  end.

Definition int_of_bool (b : bool) : Z := if b then 1 else 0.

(** [a == b] *)
Fixpoint py_eq (a b : json) {struct a} : bool :=
  match a, b with
  | JNull, JNull => true
  | JStr x, JStr y => String.eqb x y
  | JBool x, JBool y => Bool.eqb x y
  | JBool x, JInt y => int_of_bool x =? y
  | JInt x, JBool y => x =? int_of_bool y
  | JInt x, JInt y => x =? y
  | JBool x, JFloat y => int_eq_float (int_of_bool x) y
  | JInt x, JFloat y => int_eq_float x y
  | JFloat x, JBool y => int_eq_float (int_of_bool y) x
  | JFloat x, JInt y => int_eq_float y x
  | JFloat x, JFloat y => (x =? y)%float
  | JList xs, JList ys =>
      (fix all2 (xs ys : list json) {struct xs} : bool :=
         match xs, ys with
         | [], [] => true
         | x :: xs', y :: ys' => py_eq x y && all2 xs' ys'
         | _, _ => false
         end) xs ys
  | JDict xs, JDict ys =>
      (List.length xs =? List.length ys)%nat
      && (fix sub (xs : list (string * json)) {struct xs} : bool :=
            match xs with
            | [] => true
            | (k, v) :: xs' =>
                match lookup k ys with
                | Some w => py_eq v w && sub xs'
                | None => false
                end
            end) xs
  | _, _ => false
  end.

(** A set display [{e1, ..., en}]: every element is hashed. *)
Definition py_set (elts : list json) : result (list json) :=
  if forallb hashable elts then Ok elts else Raise TypeError.

(** [x in s] for a set [s]: [x] is hashed, then compared. *)
Definition set_contains (x : json) (s : list json) : result bool :=
  if hashable x then Ok (existsb (py_eq x) s) else Raise TypeError.

(** *** Structured-data path *)

Fixpoint _locate_recipe_node (data : json) : result (option json) :=
  match data with
  | JDict fields =>
      do tags <- py_set [JStr "Recipe"; JList [JStr "Recipe"]];
      do tagged <- set_contains (get fields "@type") tags;
      if tagged then Ok (Some data)
      else
        (fix graph (fs : list (string * json)) : result (option json) :=
           match fs with
           | [] => Ok None
           | (k, v) :: rest =>
               if String.eqb k "@graph" then
                 match v with
                 | JList nodes =>
                     (fix each (l : list json) : result (option json) :=
                        match l with
                        | [] => Ok None
                        | node :: l' =>
                            do recipe <- _locate_recipe_node node;
                            match recipe with
                            | Some r => if truthy r then Ok (Some r) else each l'
                            | None => each l'
                            end
                        end) nodes
                 | JStr _ | JDict _ => Ok None
                 | _ => Raise TypeError
                 end
               else graph rest
           end) fields
  | JList items =>
      (fix each (l : list json) : result (option json) :=
         match l with
         | [] => Ok None
         | item :: l' =>
             do recipe <- _locate_recipe_node item;
             match recipe with
             | Some r => if truthy r then Ok (Some r) else each l'
             | None => each l'
             end
         end) items
  | _ => Ok None
  end.

(** [_extract_json_ld_recipe]: the argument is the list of
    [application/ld+json] script blocks in document order, each already
    through [json.loads]; [None] is a block on which it raised
    [JSONDecodeError]. *)
Fixpoint _extract_json_ld_recipe (blocks : list (option json))
  : result (option json) :=
  match blocks with
  | [] => Ok None
  | None :: rest => _extract_json_ld_recipe rest
  | Some data :: rest =>
      do recipe <- _locate_recipe_node data;
      match recipe with
      | Some r => if truthy r then Ok (Some r) else _extract_json_ld_recipe rest
      | None => _extract_json_ld_recipe rest
      end
  end.

Record parsed_ingredient : Type := {
  pi_name : string;
  pi_quantity : float;
  pi_unit : option string
}.

Record scraped_recipe : Type := {
  sr_title : json;
  sr_instructions : json;
  sr_ingredients : list parsed_ingredient;
  sr_source_url : string
}.

(** [for x in v]: the elements of a list, the keys of a dict, the
    characters of a str; anything else is not iterable. *)
Definition iterate (v : json) : result (list json) :=
  match v with
  | JList l => Ok l
  | JDict d => Ok (map (fun kv => JStr (fst kv)) d)
  | JStr s => Ok (map (fun c => JStr (String c EmptyString)) (list_ascii_of_string s))
  | _ => Raise TypeError
  end.

(** [v.strip()]: only a str has the method. *)
Definition strip_method (v : json) : result string :=
  match v with
  | JStr s => Ok (strip s)
  | _ => Raise AttributeError
  end.

Fixpoint mapM {A B : Type} (f : A -> result B) (l : list A) : result (list B) :=
  match l with
  | [] => Ok []
  | x :: l' => do y <- f x; do ys <- mapM f l'; Ok (y :: ys)
  end.

Section Conversion.
(** The builtin [str()] on a value that is not a str (CPython's [repr]
    of numbers, lists, [None], ...): not code of this repository. *)
Variable py_repr : json -> string.

Definition py_str (v : json) : string :=
  match v with
  | JStr s => s
  | _ => py_repr v
  end.

Definition _parse_ingredient (ingredient : json) : result parsed_ingredient :=
  let name :=
    match ingredient with
    | JDict d => por (por (get d "name") (get d "text")) (JStr EmptyString)
    | _ => JStr (py_str ingredient)
    end in
  do name <- strip_method name;
  do (quantity, unit, item_name) <- _split_quantity_unit name;
  Ok {| pi_name := item_name; pi_quantity := quantity; pi_unit := unit |}.

Definition _extract_instructions (raw_instructions : json) : result json :=
  if negb (truthy raw_instructions) then Ok JNull
  else
    match raw_instructions with
    | JStr s => Ok (JStr (strip s))
    | JList l =>
        do steps <-
          mapM (fun step =>
                  let text :=
                    match step with
                    | JDict d => por (get d "text") (get d "@type")
                    | _ => JStr (py_str step)
                    end in
                  if truthy text
                  then do t <- strip_method text; Ok [t]
                  else Ok []) l;
        let steps := List.concat steps in
        Ok (match steps with
            | [] => JNull
            | _ => JStr (join (String (ascii_of_N 10) EmptyString) steps)
            end)
    | JDict d => Ok (get d "text")
    | _ => Ok JNull
    end.

Definition _convert_recipe (raw : list (string * json)) (url : string)
  : result scraped_recipe :=
  let title := por (get raw "name") (JStr "Untitled Recipe") in
  do instructions <- _extract_instructions (get raw "recipeInstructions");
  let ingredients :=
    por (por (get raw "recipeIngredient") (get raw "ingredients")) (JList []) in
  do items <- iterate ingredients;
  do parsed_ingredients <- mapM _parse_ingredient items;
  Ok {| sr_title := title;
        sr_instructions := instructions;
        sr_ingredients := parsed_ingredients;
        sr_source_url := url |}.
(** *** The fallback path and the entry point *)

(** What the extractor reads of the parsed page:
    - [ld_json_scripts]: the [application/ld+json] scripts in document order,
      each through [json.loads(script.string or "")], [None] where it raised
      [JSONDecodeError];
    - [title_tag]: [get_text(strip=True)] of [soup.find("h1") or
      soup.find("title")], [None] when the page has neither;
    - [ingredient_nodes]: [get_text(" ", strip=True)] of each node of
      [soup.select("li.ingredient, .ingredients li")];
    - [instructions_nodes]: the same for
      [soup.select("li.instruction, .instructions li, .direction")]. *)
Record soup : Type := {
  ld_json_scripts : list (option json);
  title_tag : option string;
  ingredient_nodes : list string;
  instructions_nodes : list string
}.

Definition newline : string := String (ascii_of_N 10) EmptyString.

Definition _fallback_extract (page : soup) (url : string)
  : result (option scraped_recipe) :=
  match title_tag page with
  | None => Ok None
  | Some title =>
      match ingredient_nodes page with
      | [] => Ok None
      | nodes =>
          do parsed_ingredients <- mapM (fun text => _parse_ingredient (JStr text)) nodes;
          let joined := join newline (instructions_nodes page) in
          Ok (Some {| sr_title := JStr title;
                      sr_instructions := if is_empty joined then JNull else JStr joined;
                      sr_ingredients := parsed_ingredients;
                      sr_source_url := url |})
      end
  end.


End Conversion.

End Scraper.

(** ** The application ([app/main.py], [app/models.py], [app/schemas.py]) *)

Module App.
Import PyStr Scraper.

Definition normalize_name (name : string) : string := lower (strip name).

(** *** Tables ([models.py]).  The time stamps, and the surrogate [id] of
    the two child tables, are columns no handler reads; they are left out.
    A [date] is its ordinal. *)
Definition date : Type := Z.

Record Recipe : Type := {
  recipe_id : string;
  recipe_title : string;
  recipe_instructions : option string;
  recipe_source_url : option string
}.

Record RecipeIngredient : Type := {
  ing_recipe_id : string;
  ing_name : string;
  ing_normalized_name : string;
  ing_quantity : float;
  ing_unit : option string
}.

Record InventoryItem : Type := {
  item_id : string;
  item_name : string;
  item_normalized_name : string;
  item_quantity : float;
  item_unit : option string;
  item_expires_on : option date
}.

Record MealPlan : Type := {
  plan_id : string;
  plan_week_start : date
}.

Record MealPlanEntry : Type := {
  entry_meal_plan_id : string;
  entry_recipe_id : string;
  entry_day : string;
  entry_meal : string;
  entry_servings : float
}.

(** The stored rows of each table, in storage order. *)
Record DB : Type := {
  recipes : list Recipe;
  recipe_ingredients : list RecipeIngredient;
  inventory_items : list InventoryItem;
  meal_plans : list MealPlan;
  meal_plan_entries : list MealPlanEntry
}.

(** *** Schemas ([schemas.py]) *)
Record InventoryConsumeResponse : Type := {
  icr_id : string;
  icr_name : string;
  icr_quantity : option float;
  icr_removed : bool
}.

Record MealPlanEntryCreate : Type := {
  mpec_day : string;
  mpec_meal : string;
  mpec_recipe_id : string;
  mpec_servings : float
}.

Record MealPlanCreate : Type := {
  mpc_week_start : date;
  mpc_entries : list MealPlanEntryCreate
}.

Record MealPlanEntryOut : Type := {
  mpeo_day : string;
  mpeo_meal : string;
  mpeo_recipe_id : string;
  mpeo_servings : float;
  mpeo_recipe_title : string
}.

Record MealPlanOut : Type := {
  mpo_id : string;
  mpo_week_start : date;
  mpo_entries : list MealPlanEntryOut
}.

Record ShoppingListItem : Type := {
  sli_name : string;
  sli_quantity : float;
  sli_unit : option string
}.

Record ShoppingListResponse : Type := {
  slr_week_start : date;
  slr_items : list ShoppingListItem
}.

(** *** The session.  [pending] is the state the handler sees and mutates
    (the identity map over the open transaction); [committed] is what a
    later request will read.  [get_db] closes the session when the
    handler is left, by return or by exception, and what was not
    committed is lost. *)
Record Session : Type := {
  committed : DB;
  pending : DB
}.

Definition M (A : Type) : Type := Session -> result A * Session.

Definition ret {A : Type} (a : A) : M A := fun s => (Ok a, s).

Definition raise {A : Type} (e : exn) : M A := fun s => (Raise e, s).

Definition bindM {A B : Type} (m : M A) (k : A -> M B) : M B :=
  fun s =>
    match m s with
    | (Ok a, s') => k a s'
    | (Raise e, s') => (Raise e, s')
    end.

Notation "x <- m ;; k" := (bindM m (fun x => k))
  (at level 61, m at next level, right associativity).
Notation "m ;;; k" := (bindM m (fun _ => k))
  (at level 61, right associativity).

Definition lift {A : Type} (r : result A) : M A := fun s => (r, s).

Definition query {A : Type} (q : DB -> A) : M A :=
  fun s => (Ok (q (pending s)), s).

Definition modify (f : DB -> DB) : M unit :=
  fun s => (Ok tt, {| committed := committed s; pending := f (pending s) |}).

Fixpoint for_each {A : Type} (l : list A) (body : A -> M unit) : M unit :=
  match l with
  | [] => ret tt
  | x :: l' => body x ;;; for_each l' body
  end.

Definition run_request {A : Type} (handler : M A) (db : DB) : result A * DB :=
  let '(r, s) := handler {| committed := db; pending := db |} in
  (r, committed s).

(** *** Constraints of the schema: primary keys, the unique
    [normalized_name] of [inventory_items], the unique
    [(meal_plan_id, day, meal)] of [meal_plan_entries], and the [NOT NULL]
    of the [Float] columns, which rejects [nan] (SQLite stores it as
    [NULL]). *)
Fixpoint distinct {A : Type} (eqb : A -> A -> bool) (l : list A) : bool :=
  match l with
  | [] => true
  | x :: l' => negb (existsb (eqb x) l') && distinct eqb l'
  end.

Definition slot_eqb (a b : string * string * string) : bool :=
  let '(p, d, m) := a in
  let '(p', d', m') := b in
  String.eqb p p' && String.eqb d d' && String.eqb m m'.

Definition entry_slot (e : MealPlanEntry) : string * string * string :=
  (entry_meal_plan_id e, entry_day e, entry_meal e).

Definition unique_ok (db : DB) : bool :=
  distinct String.eqb (map recipe_id (recipes db))
  && distinct String.eqb (map item_id (inventory_items db))
  && distinct String.eqb (map item_normalized_name (inventory_items db))
  && distinct String.eqb (map plan_id (meal_plans db))
  && distinct slot_eqb (map entry_slot (meal_plan_entries db)).

Definition not_null (x : float) : bool := negb (is_nan x).

Definition not_null_ok (db : DB) : bool :=
  forallb (fun i => not_null (ing_quantity i)) (recipe_ingredients db)
  && forallb (fun i => not_null (item_quantity i)) (inventory_items db)
  && forallb (fun e => not_null (entry_servings e)) (meal_plan_entries db).

Definition constraints_ok (db : DB) : bool := unique_ok db && not_null_ok db.

(** [db.flush()]: the pending rows are written; a violated constraint is
    an [IntegrityError]. *)
Definition flush : M unit :=
  fun s => if constraints_ok (pending s) then (Ok tt, s)
           else (Raise IntegrityError, s).

(** [db.commit()] *)
Definition commit : M unit :=
  flush ;;;
  (fun s => (Ok tt, {| committed := pending s; pending := pending s |})).

(** *** Queries *)

(** [Query.one_or_none()] *)
Definition one_or_none {A : Type} (rows : list A) : result (option A) :=
  match rows with
  | [] => Ok None
  | [r] => Ok (Some r)
  | _ => Raise MultipleResultsFound
  end.

(** [Query.first()] *)
Definition first {A : Type} (rows : list A) : option A := hd_error rows.

(** [db.get(Recipe, id)], [db.get(InventoryItem, id)] *)
Definition get_recipe (id : string) (db : DB) : option Recipe :=
  find (fun r => String.eqb (recipe_id r) id) (recipes db).

Definition get_item (id : string) (db : DB) : option InventoryItem :=
  find (fun i => String.eqb (item_id i) id) (inventory_items db).

(** [recipe.ingredients], [plan.entries], [entry.recipe] *)
Definition ingredients_of (db : DB) (r : Recipe) : list RecipeIngredient :=
  filter (fun i => String.eqb (ing_recipe_id i) (recipe_id r)) (recipe_ingredients db).

(** [plan.entries] has no [order_by]: SQLite reads the rows of a plan through
    the index of the unique constraint on (meal_plan_id, day, meal), so they
    come by day, then by meal (strings compared code point by code point),
    whatever the order they were stored in. *)
Definition slot_leb (a b : MealPlanEntry) : bool :=
  match String.compare (entry_day a) (entry_day b) with
  | Lt => true
  | Eq => String.leb (entry_meal a) (entry_meal b)
  | Gt => false
  end.

Fixpoint insert_by_slot (entry : MealPlanEntry) (sorted : list MealPlanEntry)
  : list MealPlanEntry :=
  match sorted with
  | [] => [entry]
  | x :: rest =>
      if slot_leb entry x then entry :: sorted else x :: insert_by_slot entry rest
  end.

Definition order_by_slot (rows : list MealPlanEntry) : list MealPlanEntry :=
  fold_right insert_by_slot [] rows.

Definition entries_of (db : DB) (p : MealPlan) : list MealPlanEntry :=
  order_by_slot
    (filter (fun e => String.eqb (entry_meal_plan_id e) (plan_id p)) (meal_plan_entries db)).

Definition recipe_of (db : DB) (e : MealPlanEntry) : option Recipe :=
  get_recipe (entry_recipe_id e) db.

Definition items_named (normalized_name : string) (db : DB) : list InventoryItem :=
  filter (fun i => String.eqb (item_normalized_name i) normalized_name)
         (inventory_items db).

Definition plans_for_week (week_start : date) (db : DB) : list MealPlan :=
  filter (fun p => plan_week_start p =? week_start) (meal_plans db).

(** *** Mutations of mapped rows *)

Definition with_inventory (f : list InventoryItem -> list InventoryItem) (db : DB) : DB :=
  {| recipes := recipes db;
     recipe_ingredients := recipe_ingredients db;
     inventory_items := f (inventory_items db);
     meal_plans := meal_plans db;
     meal_plan_entries := meal_plan_entries db |}.

Definition with_quantity (q : float) (i : InventoryItem) : InventoryItem :=
  {| item_id := item_id i;
     item_name := item_name i;
     item_normalized_name := item_normalized_name i;
     item_quantity := q;
     item_unit := item_unit i;
     item_expires_on := item_expires_on i |}.

(** [item.quantity = q] for the mapped row [item] *)
Definition set_quantity (item : InventoryItem) (q : float) : M unit :=
  modify (with_inventory
            (map (fun i => if String.eqb (item_id i) (item_id item)
                           then with_quantity q i else i))).

(** [db.delete(item)] *)
Definition delete_item (item : InventoryItem) : M unit :=
  modify (with_inventory
            (filter (fun i => negb (String.eqb (item_id i) (item_id item))))).

Definition with_entries (f : list MealPlanEntry -> list MealPlanEntry) (db : DB) : DB :=
  {| recipes := recipes db;
     recipe_ingredients := recipe_ingredients db;
     inventory_items := inventory_items db;
     meal_plans := meal_plans db;
     meal_plan_entries := f (meal_plan_entries db) |}.

Definition with_plans (f : list MealPlan -> list MealPlan) (db : DB) : DB :=
  {| recipes := recipes db;
     recipe_ingredients := recipe_ingredients db;
     inventory_items := inventory_items db;
     meal_plans := f (meal_plans db);
     meal_plan_entries := meal_plan_entries db |}.

(** [plan.entries.clear()]: the orphaned rows are deleted. *)
Definition clear_entries (plan : MealPlan) : M unit :=
  modify (with_entries
            (filter (fun e => negb (String.eqb (entry_meal_plan_id e) (plan_id plan))))).

(** [db.add(plan)] *)
Definition add_plan (plan : MealPlan) : M unit :=
  modify (with_plans (fun l => (l ++ [plan])%list)).

(** [plan.entries.append(entry)] *)
Definition append_entry (entry : MealPlanEntry) : M unit :=
  modify (with_entries (fun l => (l ++ [entry])%list)).

(** *** [consume_inventory_by_name] *)
Definition consume_inventory_by_name (normalized_name : string) (quantity : float)
  : M unit :=
  rows <- query (items_named normalized_name) ;;
  item <- lift (one_or_none rows) ;;
  match item with
  | None => ret tt
  | Some item =>
      let q := (item_quantity item - quantity)%float in
      set_quantity item q ;;;
      if (q <? 0)%float then set_quantity item 0%float else ret tt
  end.

(** [v.lower()]: only a str has the method. *)
Definition lower_method (v : json) : result string :=
  match v with
  | JStr s => Ok (lower s)
  | _ => Raise AttributeError
  end.

(** *** [POST /meal-plans/{plan_id}/consume] *)
Definition consume_meal (plan_id : string) (payload : list (string * json))
  : M string :=
  let day := get payload "day" in
  let meal := get payload "meal" in
  if negb (truthy day) || negb (truthy meal)
  then raise (HTTPException 400 "day and meal are required")
  else
    day <- lift (lower_method day) ;;
    meal <- lift (lower_method meal) ;;
    rows <- query (fun db =>
                     filter (fun e => String.eqb (entry_meal_plan_id e) plan_id
                                      && String.eqb (entry_day e) day
                                      && String.eqb (entry_meal e) meal)
                            (meal_plan_entries db)) ;;
    entry <- lift (one_or_none rows) ;;
    match entry with
    | None => raise (HTTPException 404 "Meal plan entry not found")
    | Some entry =>
        recipe <- query (fun db => recipe_of db entry) ;;
        match recipe with
        | None => raise AttributeError
        | Some recipe =>
            ingredients <- query (fun db => ingredients_of db recipe) ;;
            for_each ingredients
              (fun ingredient =>
                 consume_inventory_by_name
                   (ing_normalized_name ingredient)
                   (ing_quantity ingredient * entry_servings entry)%float) ;;;
            commit ;;;
            ret "ok"
        end
    end.

(** *** [POST /inventory/{item_id}/consume].  [db.refresh(item)] reads
    back the row just written. *)
Definition consume_inventory (id : string) (quantity : float)
  : M InventoryConsumeResponse :=
  item <- query (get_item id) ;;
  match item with
  | None => raise (HTTPException 404 "Item not found")
  | Some item =>
      let q := (item_quantity item - quantity)%float in
      set_quantity item q ;;;
      if (q <=? 0)%float then
        delete_item item ;;;
        commit ;;;
        ret {| icr_id := id; icr_name := item_name item;
               icr_quantity := None; icr_removed := true |}
      else
        commit ;;;
        ret {| icr_id := item_id item; icr_name := item_name item;
               icr_quantity := Some q; icr_removed := false |}
  end.

(** *** [POST /meal-plans] *)

(** [serialize_meal_plan], on the plan as [db.refresh] reads it back. *)
Definition serialize_meal_plan (db : DB) (plan : MealPlan) : MealPlanOut :=
  {| mpo_id := plan_id plan;
     mpo_week_start := plan_week_start plan;
     mpo_entries :=
       map (fun entry =>
              {| mpeo_day := entry_day entry;
                 mpeo_meal := entry_meal entry;
                 mpeo_recipe_id := entry_recipe_id entry;
                 mpeo_servings := entry_servings entry;
                 mpeo_recipe_title :=
                   match recipe_of db entry with
                   | Some recipe => recipe_title recipe
                   | None => EmptyString
                   end |})
           (entries_of db plan) |}.

(** [uuid] is the value [generate_uuid] returns when a new plan row is
    written. *)
Definition create_meal_plan (payload : MealPlanCreate) (uuid : string)
  : M MealPlanOut :=
  rows <- query (plans_for_week (mpc_week_start payload)) ;;
  plan <- lift (one_or_none rows) ;;
  plan <- match plan with
          | Some plan => clear_entries plan ;;; ret plan
          | None =>
              let plan := {| plan_id := uuid;
                             plan_week_start := mpc_week_start payload |} in
              add_plan plan ;;; ret plan
          end ;;
  flush ;;;
  for_each (mpc_entries payload)
    (fun entry =>
       recipe <- query (get_recipe (mpec_recipe_id entry)) ;;
       match recipe with
       | None =>
           raise (HTTPException 404
                    ("Recipe " ++ mpec_recipe_id entry ++ " not found"))
       | Some recipe =>
           append_entry {| entry_meal_plan_id := plan_id plan;
                           entry_recipe_id := recipe_id recipe;
                           entry_day := lower (mpec_day entry);
                           entry_meal := lower (mpec_meal entry);
                           entry_servings := mpec_servings entry |}
       end) ;;;
  commit ;;;
  db <- query (fun db => db) ;;
  ret (serialize_meal_plan db plan).

(** *** [GET /shopping-list] *)

(** A dict keyed by (normalized name, unit), in insertion order. *)
Definition key : Type := string * string.

Definition key_eqb (a b : key) : bool :=
  String.eqb (fst a) (fst b) && String.eqb (snd a) (snd b).

Definition dict (V : Type) : Type := list (key * V).

Fixpoint dict_get {V : Type} (d : dict V) (k : key) : option V :=
  match d with
  | [] => None
  | (k', v) :: rest => if key_eqb k' k then Some v else dict_get rest k
  end.

(** [d[k] = v] *)
Fixpoint dict_set {V : Type} (d : dict V) (k : key) (v : V) : dict V :=
  match d with
  | [] => [(k, v)]
  | (k', v') :: rest =>
      if key_eqb k' k then (k', v) :: rest else (k', v') :: dict_set rest k v
  end.

(** [d[k] += x] on a [defaultdict(float)] *)
Definition dict_add (d : dict float) (k : key) (x : float) : dict float :=
  let current := match dict_get d k with Some v => v | None => 0%float end in
  dict_set d k (current + x)%float.

(** [unit or ""] *)
Definition unit_or_empty (unit : option string) : string :=
  match unit with
  | Some u => u
  | None => EmptyString
  end.

Definition ingredient_key (ingredient : RecipeIngredient) : key :=
  (ing_normalized_name ingredient, unit_or_empty (ing_unit ingredient)).

Definition item_key (item : InventoryItem) : key :=
  (item_normalized_name item, unit_or_empty (item_unit item)).

(** The body of the two nested loops over entries and ingredients. *)
Definition add_ingredient (servings : float)
    (acc : dict float * dict (option string)) (ingredient : RecipeIngredient)
  : dict float * dict (option string) :=
  let '(required, units) := acc in
  let key := ingredient_key ingredient in
  let units := dict_set units key (ing_unit ingredient) in
  let required := dict_add required key (ing_quantity ingredient * servings)%float in
  (required, units).

Definition add_entry (db : DB) (acc : dict float * dict (option string))
    (entry : MealPlanEntry) : dict float * dict (option string) :=
  match recipe_of db entry with
  | None => acc
  | Some recipe =>
      fold_left (add_ingredient (entry_servings entry)) (ingredients_of db recipe) acc
  end.

Definition aggregate (db : DB) (entries : list MealPlanEntry)
  : dict float * dict (option string) :=
  fold_left (add_entry db) entries ([], []).

Definition inventory_totals (db : DB) : dict float :=
  fold_left (fun totals item => dict_add totals (item_key item) (item_quantity item))
            (inventory_items db) [].

Definition find_display_name (normalized_name : string) (db : DB) : result string :=
  do item <- one_or_none (items_named normalized_name db);
  match item with
  | Some item => Ok (item_name item)
  | None =>
      match first (filter (fun i => String.eqb (ing_normalized_name i) normalized_name)
                          (recipe_ingredients db)) with
      | Some ingredient => Ok (ing_name ingredient)
      | None => Ok normalized_name
      end
  end.

(** One turn of the loop over [required.items()]: the items it appends. *)
Definition shopping_items_for (db : DB) (totals : dict float)
    (units : dict (option string)) (row : key * float)
  : result (list ShoppingListItem) :=
  let '(key, needed_qty) := row in
  let available := match dict_get totals key with Some v => v | None => 0%float end in
  let deficit := (needed_qty - available)%float in
  if (0 <? deficit)%float then
    do display_name <- find_display_name (fst key) db;
    Ok [ {| sli_name := display_name;
            sli_quantity := PyFloat.round deficit 2;
            sli_unit := match dict_get units key with Some u => u | None => None end |} ]
  else Ok [].

Definition generate_shopping_list (week_start : date) : M ShoppingListResponse :=
  rows <- query (plans_for_week week_start) ;;
  plan <- lift (one_or_none rows) ;;
  match plan with
  | None => raise (HTTPException 404 "Meal plan not found")
  | Some plan =>
      db <- query (fun db => db) ;;
      let '(required, units) := aggregate db (entries_of db plan) in
      let totals := inventory_totals db in
      items <- lift (mapM (shopping_items_for db totals units) required) ;;
      ret {| slr_week_start := week_start; slr_items := List.concat items |}
  end.

(** *** Recipes: [POST /recipes], [GET /recipes] *)

Record IngredientPayload : Type := {
  ip_name : string;
  ip_quantity : float;
  ip_unit : option string
}.

Record RecipeCreate : Type := {
  rc_title : string;
  rc_ingredients : list IngredientPayload;
  rc_instructions : option string;
  rc_source_url : option string
}.

Record RecipeOut : Type := {
  ro_id : string;
  ro_title : string;
  ro_instructions : option string;
  ro_source_url : option string;
  ro_ingredients : list IngredientPayload
}.

Definition with_recipes (f : list Recipe -> list Recipe) (db : DB) : DB :=
  {| recipes := f (recipes db);
     recipe_ingredients := recipe_ingredients db;
     inventory_items := inventory_items db;
     meal_plans := meal_plans db;
     meal_plan_entries := meal_plan_entries db |}.

Definition with_ingredients (f : list RecipeIngredient -> list RecipeIngredient) (db : DB)
  : DB :=
  {| recipes := recipes db;
     recipe_ingredients := f (recipe_ingredients db);
     inventory_items := inventory_items db;
     meal_plans := meal_plans db;
     meal_plan_entries := meal_plan_entries db |}.

Definition serialize_recipe (db : DB) (recipe : Recipe) : RecipeOut :=
  {| ro_id := recipe_id recipe;
     ro_title := recipe_title recipe;
     ro_instructions := recipe_instructions recipe;
     ro_source_url := recipe_source_url recipe;
     ro_ingredients :=
       map (fun i => {| ip_name := ing_name i; ip_quantity := ing_quantity i;
                        ip_unit := ing_unit i |})
           (ingredients_of db recipe) |}.

(** [uuid] is the value [generate_uuid] returns for the recipe row. *)
Definition create_recipe (payload : RecipeCreate) (uuid : string) : M RecipeOut :=
  let recipe := {| recipe_id := uuid;
                   recipe_title := rc_title payload;
                   recipe_instructions := rc_instructions payload;
                   recipe_source_url := rc_source_url payload |} in
  modify (with_recipes (fun l => (l ++ [recipe])%list)) ;;;
  for_each (rc_ingredients payload)
    (fun ingredient =>
       modify (with_ingredients
                 (fun l => (l ++ [ {| ing_recipe_id := uuid;
                                      ing_name := ip_name ingredient;
                                      ing_normalized_name := normalize_name (ip_name ingredient);
                                      ing_quantity := ip_quantity ingredient;
                                      ing_unit := ip_unit ingredient |} ])%list))) ;;;
  commit ;;;
  db <- query (fun db => db) ;;
  ret (serialize_recipe db recipe).

Definition list_recipes : M (list RecipeOut) :=
  db <- query (fun db => db) ;;
  ret (map (serialize_recipe db) (recipes db)).

(** *** Inventory: [POST /inventory], [GET /inventory] *)

Record InventoryCreate : Type := {
  ic_name : string;
  ic_quantity : float;
  ic_unit : option string;
  ic_expires_on : option date
}.

Record InventoryOut : Type := {
  io_id : string;
  io_name : string;
  io_quantity : float;
  io_unit : option string;
  io_expires_on : option date
}.

Definition serialize_inventory (item : InventoryItem) : InventoryOut :=
  {| io_id := item_id item;
     io_name := item_name item;
     io_quantity := item_quantity item;
     io_unit := item_unit item;
     io_expires_on := item_expires_on item |}.

(** [a or b] on optional strings ([None] and the empty string are falsy) and
    on optional dates (only [None] is). *)
Definition unit_or (a b : option string) : option string :=
  match a with
  | Some u => if is_empty u then b else a
  | None => b
  end.

Definition date_or (a b : option date) : option date :=
  match a with
  | Some _ => a
  | None => b
  end.

(** The row [existing] after the three assignments of the merge. *)
Definition merged (payload : InventoryCreate) (existing : InventoryItem) : InventoryItem :=
  {| item_id := item_id existing;
     item_name := item_name existing;
     item_normalized_name := item_normalized_name existing;
     item_quantity := (item_quantity existing + ic_quantity payload)%float;
     item_unit := unit_or (ic_unit payload) (item_unit existing);
     item_expires_on := date_or (ic_expires_on payload) (item_expires_on existing) |}.

(** [uuid] is the value [generate_uuid] returns when a new row is written. *)
Definition add_inventory_item (payload : InventoryCreate) (uuid : string) : M InventoryOut :=
  let normalized := normalize_name (ic_name payload) in
  rows <- query (items_named normalized) ;;
  existing <- lift (one_or_none rows) ;;
  match existing with
  | Some existing =>
      modify (with_inventory
                (map (fun i => if String.eqb (item_id i) (item_id existing)
                               then merged payload i else i))) ;;;
      commit ;;;
      ret (serialize_inventory (merged payload existing))
  | None =>
      let item := {| item_id := uuid;
                     item_name := ic_name payload;
                     item_normalized_name := normalized;
                     item_quantity := ic_quantity payload;
                     item_unit := ic_unit payload;
                     item_expires_on := ic_expires_on payload |} in
      modify (with_inventory (fun l => (l ++ [item])%list)) ;;;
      commit ;;;
      ret (serialize_inventory item)
  end.

(** [ORDER BY name]: insertion into the rows sorted so far, equal names in
    storage order. *)
Fixpoint insert_by_name (item : InventoryItem) (sorted : list InventoryItem)
  : list InventoryItem :=
  match sorted with
  | [] => [item]
  | x :: rest =>
      if String.leb (item_name item) (item_name x)
      then item :: sorted
      else x :: insert_by_name item rest
  end.

Definition order_by_name (rows : list InventoryItem) : list InventoryItem :=
  fold_right insert_by_name [] rows.

Definition list_inventory : M (list InventoryOut) :=
  items <- query (fun db => order_by_name (inventory_items db)) ;;
  ret (map serialize_inventory items).

(** *** [GET /meal-plans] *)
Definition get_meal_plan (week_start : date) : M MealPlanOut :=
  rows <- query (plans_for_week week_start) ;;
  plan <- lift (one_or_none rows) ;;
  match plan with
  | None => raise (HTTPException 404 "Meal plan not found")
  | Some plan =>
      db <- query (fun db => db) ;;
      ret (serialize_meal_plan db plan)
  end.

End App.

(** * Vocabulary of the statements, and the scenarios they are tried on *)

Import PyStr Scraper App.

(** ** Strings *)

(** No character of the set [p] at the front. *)
Definition no_lead (p : ascii -> bool) (s : string) : Prop :=
  match s with
  | EmptyString => True
  | String c _ => p c = false
  end.

(** No white-space character anywhere. *)
Fixpoint no_space (s : string) : bool :=
  match s with
  | EmptyString => true
  | String c s' => negb (isspace c) && no_space s'
  end.

(** ** Floats *)

(** The class of a float with respect to zero. *)
Inductive sign_class : Type := NaN_class | Negative | Zero | Positive.

Definition class_of (x : spec_float) : sign_class :=
  match x with
  | S754_nan => NaN_class
  | S754_zero _ => Zero
  | S754_infinity s | S754_finite s _ _ => if s then Negative else Positive
  end.

Definition class_of_sign (s : bool) : sign_class := if s then Negative else Positive.

(** ** The structured-data block of the specification *)

Definition example_recipe_node : list (string * json) :=
  [ ("@type", JStr "Recipe"); ("name", JStr "X");
    ("recipeIngredient", JList [JStr "200 g pasta"]) ].

Definition example_block : json :=
  JDict [ ("@graph", JList [JDict example_recipe_node]) ].

(** ** Sessions *)

(** [keeps I m]: running [m] from a session in [I] ends in a session in [I],
    whether [m] returns or raises. *)
Definition keeps {A : Type} (I : Session -> Prop) (m : M A) : Prop :=
  forall s, I s -> I (snd (m s)).

(** The constraints of the schema hold of what is stored. *)
Definition stored_ok (s : Session) : Prop := constraints_ok (committed s) = true.

(** ** Consumption *)

(** [new] is [old] with, at most, another quantity that is not negative. *)
Definition floored (old new : InventoryItem) : Prop :=
  exists q, new = with_quantity q old
            /\ (q = item_quantity old \/ (q <? 0)%float = false).

(** Only the inventory differs, row for row, by floored quantities. *)
Definition inventory_floored (db db' : DB) : Prop :=
  recipes db' = recipes db
  /\ recipe_ingredients db' = recipe_ingredients db
  /\ meal_plans db' = meal_plans db
  /\ meal_plan_entries db' = meal_plan_entries db
  /\ Forall2 floored (inventory_items db) (inventory_items db').

(** One depletion, as a whole: the matching row gets [max(q - quantity, 0)]. *)
Definition depleted (quantity : float) (item : InventoryItem) : float :=
  let q := (item_quantity item - quantity)%float in
  if (q <? 0)%float then 0%float else q.

(** The invariant of a consumption request on database [db]. *)
Definition floor_inv (db : DB) (s : Session) : Prop :=
  inventory_floored db (committed s) /\ inventory_floored db (pending s).

(** [item.quantity = q] on the row with identifier [id]. *)
Definition quantity_set (id : string) (q : float) (i : InventoryItem) : InventoryItem :=
  if String.eqb (item_id i) id then with_quantity q i else i.

(** The rows that [db.delete] of the row with identifier [id] leaves. *)
Definition other_than (id : string) (i : InventoryItem) : bool :=
  negb (String.eqb (item_id i) id).

(** ** Meal-plan creation *)

(** The error raised for an entry whose recipe is not stored. *)
Definition not_found (entry : MealPlanEntryCreate) : exn :=
  HTTPException 404 ("Recipe " ++ mpec_recipe_id entry ++ " not found").

Definition recipe_missing (db : DB) (entry : MealPlanEntryCreate) : Prop :=
  get_recipe (mpec_recipe_id entry) db = None.

(** The body of the loop over [payload.entries], for the plan [plan]. *)
Definition plan_entry_step (plan : MealPlan) (entry : MealPlanEntryCreate) : M unit :=
  recipe <- query (get_recipe (mpec_recipe_id entry)) ;;
  match recipe with
  | None =>
      raise (HTTPException 404 ("Recipe " ++ mpec_recipe_id entry ++ " not found"))
  | Some recipe =>
      append_entry {| entry_meal_plan_id := plan_id plan;
                      entry_recipe_id := recipe_id recipe;
                      entry_day := lower (mpec_day entry);
                      entry_meal := lower (mpec_meal entry);
                      entry_servings := mpec_servings entry |}
  end.

(** ** Demand and the shopping list *)

(** The (key, quantity * servings) pairs of the entries, in the order the
    two loops meet them. *)
Definition contributions (db : DB) (entries : list MealPlanEntry) : list (key * float) :=
  flat_map
    (fun entry =>
       match recipe_of db entry with
       | None => []
       | Some recipe =>
           map (fun i => (ingredient_key i, (ing_quantity i * entry_servings entry)%float))
               (ingredients_of db recipe)
       end)
    entries.

(** The contributions to one key, in order. *)
Definition summands (k : key) (cs : list (key * float)) : list float :=
  map snd (filter (fun c => key_eqb (fst c) k) cs).

(** [required.get(k)] after the loops. *)
Definition demand (db : DB) (entries : list MealPlanEntry) (k : key) : option float :=
  dict_get (fst (aggregate db entries)) k.

(** [required[key] += x] for one contribution. *)
Definition add_contribution (d : dict float) (c : key * float) : dict float :=
  dict_add d (fst c) (snd c).

(** The running sum of a [defaultdict(float)] slot. *)
Definition running_sum (start : option float) (xs : list float) : option float :=
  fold_left (fun acc x => Some ((match acc with Some v => v | None => 0 end) + x)%float)
            xs start.

(** [n] is the integer nearest to [a / b], the even one when two are equally
    near. *)
Definition nearest_even (a b n : Z) : Prop :=
  2 * Z.abs (n * b - a) <= b /\ (2 * Z.abs (n * b - a) = b -> Z.even n = true).

(** [r] is [x] rounded to [ndigits] decimal places: for [x = +/- m * 2^e]
    with a fractional part, the double nearest to [+/- n / 10^ndigits], [n]
    the integer nearest to [m * 2^e * 10^ndigits] (ties to even); [x] itself
    when it is an integer, an infinity or [nan]. *)
Definition rounded (ndigits : Z) (x r : float) : Prop :=
  match Prim2SF x with
  | S754_finite sg m e =>
      if 0 <=? e then r = x
      else
        exists n,
          nearest_even (Z.pos m * 10 ^ ndigits) (2 ^ (- e)) n
          /\ match PyFloat.int_true_divide n (10 ^ ndigits) with
             | Ok q => r = PyFloat.with_sign sg q
             | Raise _ => r = x
             end
  | _ => r = x
  end.

(** What one demand key puts on the list. *)
Definition emitted_for (db : DB) (units : dict (option string)) (row : key * float)
    (items : list ShoppingListItem) : Prop :=
  let '(k, needed) := row in
  let available :=
    match dict_get (inventory_totals db) k with Some v => v | None => 0%float end in
  let deficit := (needed - available)%float in
  ((0 <? deficit)%float = true ->
     exists display_name quantity,
       find_display_name (fst k) db = Ok display_name
       /\ rounded 2 deficit quantity
       /\ items = [ {| sli_name := display_name;
                       sli_quantity := quantity;
                       sli_unit := match dict_get units k with
                                   | Some u => u
                                   | None => None
                                   end |} ])
  /\ ((0 <? deficit)%float = false -> items = [])
  /\ ((needed <=? available)%float = true -> items = []).

(** ** Scenarios *)

(** The scenario of the specification: an omelette planned for Monday
    dinner, four eggs in stock, no cheese. *)
Definition omelette_db : DB :=
  {| recipes := [ {| recipe_id := "r1"; recipe_title := "Omelette";
                     recipe_instructions := None; recipe_source_url := None |} ];
     recipe_ingredients :=
       [ {| ing_recipe_id := "r1"; ing_name := "Eggs"; ing_normalized_name := "eggs";
            ing_quantity := 6%float; ing_unit := Some "count" |};
         {| ing_recipe_id := "r1"; ing_name := "Cheese"; ing_normalized_name := "cheese";
            ing_quantity := 100%float; ing_unit := Some "g" |} ];
     inventory_items :=
       [ {| item_id := "i1"; item_name := "Eggs"; item_normalized_name := "eggs";
            item_quantity := 4%float; item_unit := Some "count";
            item_expires_on := None |} ];
     meal_plans := [ {| plan_id := "p1"; plan_week_start := 739000 |} ];
     meal_plan_entries :=
       [ {| entry_meal_plan_id := "p1"; entry_recipe_id := "r1";
            entry_day := "monday"; entry_meal := "dinner";
            entry_servings := 1%float |} ] |}.

(** The body of the request that consumes Monday's dinner. *)
Definition monday_dinner : list (string * json) :=
  [ ("day", JStr "monday"); ("meal", JStr "dinner") ].

(** Its shopping list. *)
Definition omelette_list : ShoppingListResponse :=
  {| slr_week_start := 739000;
     slr_items :=
       [ {| sli_name := "Eggs"; sli_quantity := 2%float; sli_unit := Some "count" |};
         {| sli_name := "Cheese"; sli_quantity := 100%float; sli_unit := Some "g" |} ] |}.

(** A plan for the same week whose second entry names a recipe that is not
    stored. *)
Definition unknown_recipe_payload : MealPlanCreate :=
  {| mpc_week_start := 739000;
     mpc_entries :=
       [ {| mpec_day := "Monday"; mpec_meal := "Dinner"; mpec_recipe_id := "r1";
            mpec_servings := 2%float |};
         {| mpec_day := "Tuesday"; mpec_meal := "Lunch"; mpec_recipe_id := "r2";
            mpec_servings := 1%float |} ] |}.

(** An endless stock: the quantity column holds [inf]. *)
Definition endless_item : InventoryItem :=
  {| item_id := "i1"; item_name := "Salt"; item_normalized_name := "salt";
     item_quantity := infinity; item_unit := None; item_expires_on := None |}.

Definition endless_db : DB :=
  {| recipes := []; recipe_ingredients := []; inventory_items := [endless_item];
     meal_plans := []; meal_plan_entries := [] |}.

(** Three recipes that each take some flour (0.1, 0.2 and 0.3 kg: decimal
    literals stand for the nearest doubles), planned on three days. *)
#[local] Set Warnings "-inexact-float".

Definition flour_recipe (id : string) : Recipe :=
  {| recipe_id := id; recipe_title := id; recipe_instructions := None;
     recipe_source_url := None |}.

Definition flour_of (id : string) (kg : float) : RecipeIngredient :=
  {| ing_recipe_id := id; ing_name := "Flour"; ing_normalized_name := "flour";
     ing_quantity := kg; ing_unit := Some "kg" |}.

Definition planned (day recipe : string) : MealPlanEntry :=
  {| entry_meal_plan_id := "p1"; entry_recipe_id := recipe; entry_day := day;
     entry_meal := "dinner"; entry_servings := 1%float |}.

Definition flour_week : list MealPlanEntry :=
  [planned "monday" "bread"; planned "tuesday" "cake"; planned "wednesday" "pasta"].

Definition flour_week_reversed : list MealPlanEntry :=
  [planned "wednesday" "pasta"; planned "tuesday" "cake"; planned "monday" "bread"].

(** The same three recipes on the same days in the opposite order. *)
Definition flour_week_swapped : list MealPlanEntry :=
  [planned "monday" "pasta"; planned "tuesday" "cake"; planned "wednesday" "bread"].

Definition flour_plan : MealPlan := {| plan_id := "p1"; plan_week_start := 739000 |}.

Definition flour_store (entries : list MealPlanEntry) (stock : list InventoryItem) : DB :=
  {| recipes := [flour_recipe "bread"; flour_recipe "cake"; flour_recipe "pasta"];
     recipe_ingredients :=
       [flour_of "bread" 0.1%float; flour_of "cake" 0.2%float; flour_of "pasta" 0.3%float];
     inventory_items := stock;
     meal_plans := [flour_plan];
     meal_plan_entries := entries |}.

Definition flour_db : DB := flour_store flour_week [].

(** 0.6 kg of flour in stock. *)
Definition flour_stock : list InventoryItem :=
  [ {| item_id := "i1"; item_name := "Flour"; item_normalized_name := "flour";
       item_quantity := 0.6%float; item_unit := Some "kg"; item_expires_on := None |} ].

(** ** The structured-data search *)

(** A dict is met by the search: the value is one, or a list that holds such a
    value. *)
Fixpoint has_dict (data : json) : bool :=
  match data with
  | JDict _ => true
  | JList items =>
      (fix any (l : list json) : bool :=
         match l with
         | [] => false
         | x :: l' => has_dict x || any l'
         end) items
  | _ => false
  end.


(** The ingredient the parser makes of the text of one node. *)
Definition parsed_from (text : string) (ingredient : parsed_ingredient) : Prop :=
  _split_quantity_unit (strip text)
  = Ok (pi_quantity ingredient, pi_unit ingredient, pi_name ingredient).

(** ** Instructions *)

(** The instructions made of a list of step texts: empty steps are left
    out, the others stripped and joined by newlines; [None] when no step is
    left. *)
Definition joined_steps (steps : list string) : json :=
  match filter (fun s => negb (is_empty s)) steps with
  | [] => JNull
  | kept => JStr (join newline (map strip kept))
  end.

(** The parser returns on the stripped line. *)
Definition parses (line : string) : Prop :=
  exists parsed, _split_quantity_unit (strip line) = Ok parsed.

(** ** Commits *)

(** [m] commits nothing: what is stored is the same after it. *)
Definition uncommitting {A : Type} (m : M A) : Prop :=
  forall s, committed (snd (m s)) = committed s.

(** [m] returns, or has committed nothing. *)
Definition atomic {A : Type} (m : M A) : Prop :=
  forall s, (exists a, fst (m s) = Ok a) \/ committed (snd (m s)) = committed s.

(** [m] returns and commits nothing. *)
Definition pure_read {A : Type} (m : M A) : Prop :=
  forall s, (exists a, fst (m s) = Ok a) /\ snd (m s) = s.

(** ** Inventory additions *)

(** The row a first addition writes. *)
Definition new_item (payload : InventoryCreate) (uuid : string) : InventoryItem :=
  {| item_id := uuid;
     item_name := ic_name payload;
     item_normalized_name := normalize_name (ic_name payload);
     item_quantity := ic_quantity payload;
     item_unit := ic_unit payload;
     item_expires_on := ic_expires_on payload |}.

(** The merge, on the row with the identifier of [existing]. *)
Definition merge_into (payload : InventoryCreate) (existing : InventoryItem)
    (i : InventoryItem) : InventoryItem :=
  if String.eqb (item_id i) (item_id existing) then merged payload i else i.

(** A JSON value that is a string. *)
Definition is_str (v : json) : bool :=
  match v with
  | JStr _ => true
  | _ => false
  end.

(** The (key, quantity) pairs of the inventory rows, in storage order. *)
Definition stock (db : DB) : list (key * float) :=
  map (fun item => (item_key item, item_quantity item)) (inventory_items db).

(** ** A stored plan and its replacement *)

(** The row the loop of [create_meal_plan] appends for one payload entry
    whose recipe is stored. *)
Definition new_entry (plan : MealPlan) (entry : MealPlanEntryCreate) : MealPlanEntry :=
  {| entry_meal_plan_id := plan_id plan;
     entry_recipe_id := mpec_recipe_id entry;
     entry_day := lower (mpec_day entry);
     entry_meal := lower (mpec_meal entry);
     entry_servings := mpec_servings entry |}.

Definition recipe_stored (db : DB) (entry : MealPlanEntryCreate) : Prop :=
  get_recipe (mpec_recipe_id entry) db <> None.

(** The (day, meal) slots a payload asks for, as they are stored. *)
Definition pair_eqb (a b : string * string) : bool :=
  String.eqb (fst a) (fst b) && String.eqb (snd a) (snd b).

Definition payload_slots (payload : MealPlanCreate) : list (string * string) :=
  map (fun e => (lower (mpec_day e), lower (mpec_meal e))) (mpc_entries payload).

(** The plan a creation request writes to: the one stored for the week, or a
    new row under the generated identifier. *)
Definition week_plan (db : DB) (payload : MealPlanCreate) (uuid : string) : MealPlan :=
  match plans_for_week (mpc_week_start payload) db with
  | plan :: _ => plan
  | [] => {| plan_id := uuid; plan_week_start := mpc_week_start payload |}
  end.

Definition other_plan (plan : MealPlan) (e : MealPlanEntry) : bool :=
  negb (String.eqb (entry_meal_plan_id e) (plan_id plan)).

(** The database with the week's entries replaced by the payload's. *)
Definition replaced (db : DB) (payload : MealPlanCreate) (uuid : string) : DB :=
  let plan := week_plan db payload uuid in
  with_entries
    (fun l => (filter (other_plan plan) l ++ map (new_entry plan) (mpc_entries payload))%list)
    (match plans_for_week (mpc_week_start payload) db with
     | [] => with_plans (fun l => (l ++ [plan])%list) db
     | _ => db
     end).

(** The identifier is that of no stored plan, and no stored entry refers to
    it. *)
Definition fresh_plan_id (db : DB) (uuid : string) : Prop :=
  existsb (String.eqb uuid) (map plan_id (meal_plans db)) = false
  /\ existsb (String.eqb uuid) (map entry_meal_plan_id (meal_plan_entries db)) = false.


(** The entries of a plan, among the stored ones. *)
Definition in_plan (plan : MealPlan) (e : MealPlanEntry) : bool :=
  String.eqb (entry_meal_plan_id e) (plan_id plan).

(** What the answer shows of a stored entry. *)
Definition entry_out (db : DB) (entry : MealPlanEntry) : MealPlanEntryOut :=
  {| mpeo_day := entry_day entry;
     mpeo_meal := entry_meal entry;
     mpeo_recipe_id := entry_recipe_id entry;
     mpeo_servings := entry_servings entry;
     mpeo_recipe_title :=
       match get_recipe (entry_recipe_id entry) db with
       | Some recipe => recipe_title recipe
       | None => EmptyString
       end |}.

(** The servings of a payload are numbers. *)
Definition servings_ok (payload : MealPlanCreate) : bool :=
  forallb (fun e => not_null (mpec_servings e)) (mpc_entries payload).

(** Tuesday's lunch sent before Monday's dinner, and a payload that books
    Monday's dinner twice under different capitalisations. *)
Definition tuesday_then_monday : MealPlanCreate :=
  {| mpc_week_start := 739000;
     mpc_entries :=
       [ {| mpec_day := "Tuesday"; mpec_meal := "Lunch"; mpec_recipe_id := "r1";
            mpec_servings := 2%float |};
         {| mpec_day := "Monday"; mpec_meal := "Dinner"; mpec_recipe_id := "r1";
            mpec_servings := 1%float |} ] |}.

(** The omelette week stored with Tuesday's lunch before Monday's dinner. *)
Definition tuesday_first_db : DB := replaced omelette_db tuesday_then_monday "p2".

Definition double_booked : MealPlanCreate :=
  {| mpc_week_start := 739000;
     mpc_entries :=
       [ {| mpec_day := "Monday"; mpec_meal := "Dinner"; mpec_recipe_id := "r1";
            mpec_servings := 1%float |};
         {| mpec_day := "monday"; mpec_meal := "DINNER"; mpec_recipe_id := "r1";
            mpec_servings := 2%float |} ] |}.

(** ** A stored recipe *)








(** * Properties *)

(** ** Strings *)

Section Strip.
Variable p : ascii -> bool.

Lemma lstrip_by_no_lead (s : string) : no_lead p (lstrip_by p s).
Proof.
  induction s as [|c s IH]; simpl; [exact I|].
  destruct (p c) eqn:E; [exact IH | exact E].
Qed.

Lemma lstrip_by_fixed (s : string) : no_lead p s -> lstrip_by p s = s.
Proof.
  destruct s as [|c s]; simpl; [reflexivity|].
  intros ->. reflexivity.
Qed.

Lemma rstrip_by_no_lead (s : string) : no_lead p s -> no_lead p (rstrip_by p s).
Proof.
  destruct s as [|c s]; simpl; [trivial|].
  intros E. destruct (is_empty (rstrip_by p s) && p c); simpl; trivial.
Qed.

Lemma rstrip_by_idem (s : string) : rstrip_by p (rstrip_by p s) = rstrip_by p s.
Proof.
  induction s as [|c s IH]; simpl; [reflexivity|].
  destruct (is_empty (rstrip_by p s) && p c) eqn:E; simpl; [reflexivity|].
  rewrite IH, E. reflexivity.
Qed.
End Strip.

Lemma strip_idem (s : string) : strip (strip s) = strip s.
Proof.
  unfold strip.
  rewrite (lstrip_by_fixed isspace (rstrip_by isspace (lstrip_by isspace s))).
  - apply rstrip_by_idem.
  - apply rstrip_by_no_lead, lstrip_by_no_lead.
Qed.

Ltac each_char c :=
  destruct c as [[] [] [] [] [] [] [] []]; reflexivity.

Lemma isspace_lower_char (c : ascii) : isspace (lower_char c) = isspace c.
Proof. each_char c. Qed.

Lemma lower_char_idem (c : ascii) : lower_char (lower_char c) = lower_char c.
Proof. each_char c. Qed.

Lemma lower_idem (s : string) : lower (lower s) = lower s.
Proof.
  induction s as [|c s IH]; simpl; [reflexivity|].
  rewrite lower_char_idem, IH. reflexivity.
Qed.

Lemma is_empty_lower (s : string) : is_empty (lower s) = is_empty s.
Proof. destruct s; reflexivity. Qed.

Lemma lstrip_lower (s : string) :
  lstrip_by isspace (lower s) = lower (lstrip_by isspace s).
Proof.
  induction s as [|c s IH]; simpl; [reflexivity|].
  rewrite isspace_lower_char. destruct (isspace c); [exact IH | reflexivity].
Qed.

Lemma rstrip_lower (s : string) :
  rstrip_by isspace (lower s) = lower (rstrip_by isspace s).
Proof.
  induction s as [|c s IH]; simpl; [reflexivity|].
  rewrite IH, is_empty_lower, isspace_lower_char.
  destruct (is_empty (rstrip_by isspace s) && isspace c); reflexivity.
Qed.

Lemma strip_lower (s : string) : strip (lower s) = lower (strip s).
Proof. unfold strip. rewrite lstrip_lower, rstrip_lower. reflexivity. Qed.

(** C9. The ingredient normalizer is trim-then-lowercase, a total function of
    its argument alone, and idempotent: normalizing a normalized name gives it
    back. *)
Theorem normalize_name_idempotent (x : string) :
  normalize_name x = lower (strip x)
  /\ normalize_name (normalize_name x) = normalize_name x.
Proof.
  split; [reflexivity|].
  unfold normalize_name.
  rewrite strip_lower, strip_idem, lower_idem. reflexivity.
Qed.

(** ** The quantity/unit parser *)

Lemma split_no_space (s : string) : Forall (fun t => no_space t = true) (split s).
Proof.
  induction s as [|c s IH]; simpl; [constructor|].
  destruct (isspace c) eqn:Ec; [exact IH|].
  destruct s as [|c' s']; [repeat constructor; simpl; rewrite Ec; reflexivity|].
  destruct (isspace c') eqn:Ec'.
  - constructor; [simpl; rewrite Ec; reflexivity | exact IH].
  - destruct (split (String c' s')) as [|t ts].
    + constructor; [simpl; rewrite Ec; reflexivity | constructor].
    + inversion IH as [|? ? Ht Hts]; subst.
      constructor; [simpl; rewrite Ec; exact Ht | exact Hts].
Qed.

Lemma no_space_lstrip (s : string) : no_space s = true -> lstrip_by isspace s = s.
Proof.
  destruct s as [|c s]; simpl; [reflexivity|].
  destruct (isspace c); [discriminate | reflexivity].
Qed.

Lemma no_space_rstrip (s : string) : no_space s = true -> rstrip_by isspace s = s.
Proof.
  induction s as [|c s IH]; simpl; [reflexivity|].
  destruct (isspace c); simpl; [discriminate|].
  intros H. rewrite (IH H), andb_false_r. reflexivity.
Qed.

Lemma no_space_strip (s : string) : no_space s = true -> strip s = s.
Proof.
  intros H. unfold strip. rewrite (no_space_lstrip s H). apply no_space_rstrip, H.
Qed.

Lemma span_digits_no_space (s : string) :
  no_space s = true -> no_space (snd (span_digits s)) = true.
Proof.
  induction s as [|c s IH]; simpl; [reflexivity|].
  intros H. destruct (isdigit c).
  - apply andb_true_iff in H as [_ H].
    specialize (IH H). destruct (span_digits s). exact IH.
  - exact H.
Qed.

(** The mixed-number pattern needs white space inside its subject, so it
    matches no token. *)
Lemma match_mixed_token (t : string) : no_space t = true -> match_mixed t = None.
Proof.
  intros H. unfold match_mixed.
  pose proof (span_digits_no_space t H) as Hr.
  destruct (span_digits t) as [whole r]. simpl in Hr.
  destruct (is_empty whole); [reflexivity|].
  rewrite (no_space_lstrip r Hr), Nat.eqb_refl. reflexivity.
Qed.

(** On a token, [_parse_numeric] is [float(Fraction(token))] with the two
    caught exceptions turned into [None]: its second branch is dead. *)
Lemma _parse_numeric_token (text first : string) (rest : list string) :
  split text = first :: rest ->
  _parse_numeric first =
    match float_of_Fraction first with
    | Ok f => Ok (Some f)
    | Raise ValueError | Raise ZeroDivisionError => Ok None
    | Raise e => Raise e
    end.
Proof.
  intros Hs.
  assert (Ht : no_space first = true).
  { pose proof (split_no_space text) as F. rewrite Hs in F. inversion F; assumption. }
  unfold _parse_numeric. rewrite (no_space_strip first Ht).
  destruct (float_of_Fraction first) as [f|e]; [reflexivity|].
  destruct e; try reflexivity; rewrite (match_mixed_token first Ht); reflexivity.
Qed.

(** C1. On ["2 1/2 cups flour"] the parser takes ["2"] alone as the quantity,
    finds no unit in ["1/2"], and leaves ["1/2 cups flour"] as the name; the
    specification asks for 2.5, "cups" and "flour". *)
Theorem mixed_number_line_parsed_as_whole_number :
  _split_quantity_unit "2 1/2 cups flour" = Ok (2%float, None, "1/2 cups flour")
  /\ _parse_numeric "2 1/2" = Ok (Some 2.5%float).
Proof. split; vm_compute; reflexivity. Qed.

(** C7. A leading token whose value is beyond the range of a float makes the
    parser raise [OverflowError], which [_parse_numeric] does not catch; the
    specification asks that the parser never raises. *)
Theorem parser_raises_on_huge_leading_number :
  _split_quantity_unit "1e400 g sugar" = Raise OverflowError.
Proof. vm_compute. reflexivity. Qed.

(** What holds of the failure policy: a leading token that is no number (or a
    fraction over zero) gives quantity 1.0 with every token kept, and a line
    that is all quantity and unit keeps the input as its name. *)
Lemma parser_default_quantity (text first : string) (rest : list string) :
  split text = first :: rest ->
  _parse_numeric first = Ok None ->
  _split_quantity_unit text =
    Ok (1%float, None, or_else (strip (join " " (first :: rest))) text).
Proof.
  intros Hs Hn. unfold _split_quantity_unit. rewrite Hs, Hn. reflexivity.
Qed.

Lemma parser_name_fallback (text : string) (q : float) (u : option string) (name : string) :
  _split_quantity_unit text = Ok (q, u, name) ->
  (exists first, split text = [first] /\ _parse_numeric first = Ok (Some q))
  \/ (exists first t, split text = [first; t] /\ u = Some t) ->
  name = text.
Proof.
  unfold _split_quantity_unit.
  intros H [[first [Hs Hn]] | [first [t [Hs Hu]]]]; rewrite Hs in H.
  - rewrite Hn in H. simpl in H. inversion H; subst. reflexivity.
  - destruct (_parse_numeric first) as [[f|]|e]; simpl in H; try discriminate.
    + destruct (in_units (rstrip ".," (lower t))); inversion H; subst;
        [reflexivity | discriminate].
    + inversion H; subst. discriminate.
Qed.

Lemma parser_examples :
  _split_quantity_unit "salt" = Ok (1%float, None, "salt")
  /\ _split_quantity_unit "3 eggs" = Ok (3%float, None, "eggs")
  /\ _split_quantity_unit "" = Ok (1%float, None, "")
  /\ _split_quantity_unit "1/0 g salt" = Ok (1%float, None, "1/0 g salt")
  /\ _split_quantity_unit "2 cups" = Ok (2%float, Some "cups", "2 cups").
Proof. repeat split; vm_compute; reflexivity. Qed.

(** C10. When the parser returns a unit, it is the second token of the line
    as written: case and trailing punctuation are kept, and only the
    vocabulary test sees the lower-cased, stripped form. *)
Theorem unit_token_verbatim (text : string) (q : float) (u name : string) :
  _split_quantity_unit text = Ok (q, Some u, name) ->
  exists first rest,
    split text = first :: u :: rest
    /\ _parse_numeric first = Ok (Some q)
    /\ in_units (rstrip ".," (lower u)) = true
    /\ name = or_else (strip (join " " rest)) text.
Proof.
  unfold _split_quantity_unit. intros H.
  destruct (split text) as [|first tokens] eqn:Hs; [discriminate|].
  destruct (_parse_numeric first) as [[f|]|e] eqn:Hn; simpl in H; try discriminate.
  destruct tokens as [|t rest]; [discriminate|].
  destruct (in_units (rstrip ".," (lower t))) eqn:Hu; inversion H; subst.
  exists first, rest. repeat split; [exact Hn | exact Hu].
Qed.

Lemma unit_token_verbatim_witness :
  _split_quantity_unit "2 Cups. flour" = Ok (2%float, Some "Cups.", "flour")
  /\ exists first rest,
       split "2 Cups. flour" = first :: "Cups." :: rest
       /\ _parse_numeric first = Ok (Some 2%float)
       /\ in_units (rstrip ".," (lower "Cups.")) = true
       /\ "flour" = or_else (strip (join " " rest)) "2 Cups. flour".
Proof.
  split; [vm_compute; reflexivity|].
  apply (unit_token_verbatim "2 Cups. flour" 2%float "Cups." "flour").
  vm_compute. reflexivity.
Defined.

(** ** The structured-data path *)

(** C2. The set display [{"Recipe", ["Recipe"]}] holds a list, so building it
    raises [TypeError] on every dict the search visits; the exception leaves
    [_extract_json_ld_recipe], which catches [JSONDecodeError] only.  The
    specification asks that the tagged node be returned and converted. *)
Theorem recipe_node_search_raises :
  (forall fields, _locate_recipe_node (JDict fields) = Raise TypeError)
  /\ _extract_json_ld_recipe [Some example_block] = Raise TypeError.
Proof. split; [intros fields|]; reflexivity. Qed.

(** The conversion itself, were the node handed to it, gives the recipe of
    the specification. *)
Lemma convert_example_node (py_repr : json -> string) (url : string) :
  _convert_recipe py_repr example_recipe_node url =
    Ok {| sr_title := JStr "X";
          sr_instructions := JNull;
          sr_ingredients := [ {| pi_name := "pasta"; pi_quantity := 200%float;
                                 pi_unit := Some "g" |} ];
          sr_source_url := url |}.
Proof. vm_compute. reflexivity. Qed.

(** ** Rounding to decimals *)

(** [round_half_even a b] is an integer nearest to [a / b]. *)
Lemma round_half_even_nearest (a b : Z) :
  0 < b -> 2 * Z.abs (PyFloat.round_half_even a b * b - a) <= b.
Proof.
  intros Hb. unfold PyFloat.round_half_even.
  pose proof (Z.div_mod a b ltac:(lia)) as Hd.
  pose proof (Z.mod_pos_bound a b Hb) as Hm.
  destruct (Z.compare_spec (2 * (a mod b)) b) as [E|E|E];
    [destruct (Z.even (a / b))| |]; nia.
Qed.

Lemma round_half_even_spec (a b : Z) :
  0 < b -> nearest_even a b (PyFloat.round_half_even a b).
Proof.
  intros Hb. unfold nearest_even, PyFloat.round_half_even.
  pose proof (Z.div_mod a b ltac:(lia)) as Hd.
  pose proof (Z.mod_pos_bound a b Hb) as Hm.
  destruct (Z.compare_spec (2 * (a mod b)) b) as [E|E|E].
  - destruct (Z.even (a / b)) eqn:Ev.
    + split; [nia | intros _; exact Ev].
    + split; [nia|]. intros _. rewrite Z.add_1_r, Z.even_succ, <- Z.negb_even, Ev. reflexivity.
  - split; [nia | intros H; exfalso; nia].
  - split; [nia | intros H; exfalso; nia].
Qed.

(** [round(x, ndigits)] rounds to [ndigits] decimal places. *)
Lemma round_rounded (ndigits : Z) (x : float) : rounded ndigits x (PyFloat.round x ndigits).
Proof.
  unfold rounded, PyFloat.round.
  destruct (Prim2SF x) as [s|s| |s m e]; try reflexivity.
  destruct (0 <=? e) eqn:E; [reflexivity|]. apply Z.leb_gt in E.
  exists (PyFloat.round_half_even (Z.pos m * 10 ^ ndigits) (2 ^ (- e))).
  split; [apply round_half_even_spec, Z.pow_pos_nonneg; lia|].
  destruct (PyFloat.int_true_divide _ _); reflexivity.
Qed.

Lemma round_examples :
  PyFloat.round 2%float 2 = 2%float
  /\ PyFloat.round 0.125%float 2 = 0.12%float
  /\ PyFloat.round 0.375%float 2 = 0.38%float
  /\ PyFloat.round 2.675%float 2 = 2.67%float
  /\ PyFloat.round infinity 2 = infinity.
Proof. repeat split; vm_compute; reflexivity. Qed.

(** ** Sign of a floating-point difference *)

Lemma digits2_pos_bounds (m : positive) :
  2 ^ (Z.pos (digits2_pos m) - 1) <= Z.pos m < 2 ^ Z.pos (digits2_pos m).
Proof.
  induction m as [m IH|m IH|]; simpl digits2_pos.
  - rewrite Pos2Z.inj_succ.
    replace (Z.succ (Z.pos (digits2_pos m)) - 1) with (Z.succ (Z.pos (digits2_pos m) - 1)) by lia.
    rewrite !Z.pow_succ_r by lia. lia.
  - rewrite Pos2Z.inj_succ.
    replace (Z.succ (Z.pos (digits2_pos m)) - 1) with (Z.succ (Z.pos (digits2_pos m) - 1)) by lia.
    rewrite !Z.pow_succ_r by lia. lia.
  - simpl. lia.
Qed.

Lemma shr_1_m (mrs : shr_record) :
  0 <= shr_m mrs -> shr_m (shr_1 mrs) = shr_m mrs / 2.
Proof.
  destruct mrs as [m r s]. simpl. intros Hm.
  destruct m as [|p|p]; [reflexivity| |lia].
  destruct p as [p|p|]; simpl shr_m.
  - rewrite Pos2Z.inj_xI. apply Z.div_unique with (r := 1); lia.
  - rewrite Pos2Z.inj_xO. apply Z.div_unique with (r := 0); lia.
  - reflexivity.
Qed.

Lemma iter_shr_1_m (p : positive) : forall mrs,
  0 <= shr_m mrs -> shr_m (iter_pos shr_1 p mrs) = shr_m mrs / 2 ^ Z.pos p.
Proof.
  induction p as [p IH|p IH|]; intros mrs Hm; simpl iter_pos.
  - assert (H1 : 0 <= shr_m (shr_1 mrs)) by (rewrite shr_1_m by lia; apply Z.div_pos; lia).
    assert (H2 : 0 <= shr_m (iter_pos shr_1 p (shr_1 mrs)))
      by (rewrite IH by lia; apply Z.div_pos; [lia | apply Z.pow_pos_nonneg; lia]).
    rewrite IH, IH, shr_1_m by lia.
    rewrite !Z.div_div by (try apply Z.pow_pos_nonneg; lia).
    f_equal. rewrite Pos2Z.inj_xI, <- Z.pow_add_r, <- Z.pow_succ_r by lia. f_equal. lia.
  - assert (H2 : 0 <= shr_m (iter_pos shr_1 p mrs))
      by (rewrite IH by lia; apply Z.div_pos; [lia | apply Z.pow_pos_nonneg; lia]).
    rewrite IH, IH by lia.
    rewrite !Z.div_div by (try apply Z.pow_pos_nonneg; lia).
    f_equal. rewrite Pos2Z.inj_xO, <- Z.pow_add_r by lia. f_equal. lia.
  - rewrite shr_1_m by lia. reflexivity.
Qed.

Lemma fexp_binary64 (z : Z) : fexp prec emax z = Z.max (z - 53) (-1074).
Proof. reflexivity. Qed.

Lemma shr_record_of_loc_m (m : Z) (l : location) : shr_m (shr_record_of_loc m l) = m.
Proof. destruct l as [|[]]; reflexivity. Qed.

Lemma shr_fexp_positive (m : positive) (e : Z) (l : location) :
  -1074 <= e ->
  0 < shr_m (fst (shr_fexp prec emax (Z.pos m) e l))
  /\ -1074 <= snd (shr_fexp prec emax (Z.pos m) e l).
Proof.
  intros He. unfold shr_fexp, shr. rewrite fexp_binary64. simpl Zdigits2.
  pose proof (digits2_pos_bounds m) as [Hlo _].
  destruct (Z.max (Z.pos (digits2_pos m) + e - 53) (-1074) - e) as [|p|p] eqn:En;
    simpl fst; simpl snd; try (rewrite shr_record_of_loc_m; lia).
  rewrite iter_shr_1_m by (rewrite shr_record_of_loc_m; lia).
  rewrite shr_record_of_loc_m. split; [|lia].
  assert (Hp : Z.pos p <= Z.pos (digits2_pos m) - 1) by lia.
  assert (H2 : 2 ^ Z.pos p <= Z.pos m).
  { eapply Z.le_trans; [|exact Hlo]. apply Z.pow_le_mono_r; lia. }
  assert (H3 : 0 < 2 ^ Z.pos p) by (apply Z.pow_pos_nonneg; lia).
  apply Z.div_str_pos. lia.
Qed.

Lemma round_nearest_even_positive (m : Z) (l : location) :
  0 < m -> 0 < round_nearest_even m l.
Proof.
  intros Hm. destruct l as [|[]]; simpl; try lia.
  destruct (Z.even m); lia.
Qed.

Lemma binary_round_aux_class (s : bool) (m : positive) (e : Z) (l : location) :
  -1074 <= e ->
  class_of (binary_round_aux prec emax s (Z.pos m) e l) = class_of_sign s.
Proof.
  intros He. unfold binary_round_aux.
  pose proof (shr_fexp_positive m e l He) as [H1 H2].
  destruct (shr_fexp prec emax (Z.pos m) e l) as [mrs' e']. simpl in H1, H2.
  pose proof (round_nearest_even_positive (shr_m mrs') (loc_of_shr_record mrs') H1) as H3.
  destruct (round_nearest_even (shr_m mrs') (loc_of_shr_record mrs')) as [|m1|m1]; try lia.
  pose proof (shr_fexp_positive m1 e' loc_Exact H2) as [H4 _].
  destruct (shr_fexp prec emax (Z.pos m1) e' loc_Exact) as [mrs'' e'']. simpl in H4.
  destruct (shr_m mrs'') as [|m2|m2]; try lia.
  destruct (e'' <=? emax - prec); reflexivity.
Qed.

Lemma binary_round_class (s : bool) (m : positive) (e : Z) :
  -1074 <= e ->
  class_of (binary_round prec emax s m e) = class_of_sign s.
Proof.
  intros He. unfold binary_round, shl_align. rewrite fexp_binary64.
  destruct (Z.max (Z.pos (digits2_pos m) + e - 53) (-1074) - e) eqn:En;
    apply binary_round_aux_class; lia.
Qed.

Lemma binary_normalize_class (d e : Z) :
  -1074 <= e ->
  class_of (binary_normalize prec emax d e false) =
    match d ?= 0 with Lt => Negative | Eq => Zero | Gt => Positive end.
Proof.
  intros He. destruct d as [|p|p]; simpl; [reflexivity| |];
    rewrite binary_round_class by assumption; reflexivity.
Qed.

Lemma pos_iter_xO (d m : positive) : Z.pos (Pos.iter xO m d) = Z.pos m * 2 ^ Z.pos d.
Proof.
  induction d as [|d IH] using Pos.peano_ind.
  - simpl. lia.
  - rewrite Pos.iter_succ, Pos2Z.inj_xO, IH, Pos2Z.inj_succ, Z.pow_succ_r by lia. lia.
Qed.

Lemma shl_align_value (m : positive) (e e' : Z) :
  e' <= e -> Z.pos (fst (shl_align m e e')) = Z.pos m * 2 ^ (e - e').
Proof.
  intros H. unfold shl_align.
  destruct (e' - e) as [|p|p] eqn:E; simpl fst.
  - replace (e - e') with 0 by lia. lia.
  - lia.
  - rewrite pos_iter_xO. f_equal. f_equal. lia.
Qed.

(** What [bounded] says of a binary64 mantissa and exponent. *)
Lemma bounded_binary64 (m : positive) (e : Z) :
  bounded prec emax m e = true ->
  -1074 <= e /\ Z.pos m < 2 ^ 53 /\ (-1074 < e -> 2 ^ 52 <= Z.pos m).
Proof.
  unfold bounded, canonical_mantissa. rewrite fexp_binary64.
  intros H. apply andb_true_iff in H as [H _]. apply Z.eqb_eq in H.
  pose proof (digits2_pos_bounds m) as [Hlo Hhi].
  split; [lia|]. split.
  - eapply Z.lt_le_trans; [exact Hhi|]. apply Z.pow_le_mono_r; lia.
  - intros He. replace (Z.pos (digits2_pos m)) with 53 in Hlo by lia. exact Hlo.
Qed.

(** Aligned mantissas of two binary64 numbers compare as the numbers do. *)
Lemma aligned_compare (mx my : positive) (ex ey : Z) :
  bounded prec emax mx ex = true -> bounded prec emax my ey = true ->
  (Z.pos (fst (shl_align mx ex (Z.min ex ey)))
     ?= Z.pos (fst (shl_align my ey (Z.min ex ey)))) =
  match ex ?= ey with
  | Lt => Lt
  | Gt => Gt
  | Eq => Pos.compare_cont Eq mx my
  end.
Proof.
  intros Bx By.
  apply bounded_binary64 in Bx as [Hex [Hmx Hnx]].
  apply bounded_binary64 in By as [Hey [Hmy Hny]].
  rewrite !shl_align_value by lia.
  destruct (Z.compare_spec ex ey) as [E|E|E].
  - subst. rewrite Z.min_id, Z.sub_diag. simpl Z.pow. rewrite !Z.mul_1_r. reflexivity.
  - rewrite Z.min_l, Z.sub_diag by lia. simpl (2 ^ 0). rewrite Z.mul_1_r.
    apply Z.compare_lt_iff.
    assert (2 ^ 1 <= 2 ^ (ey - ex)) by (apply Z.pow_le_mono_r; lia).
    specialize (Hny ltac:(lia)). change (2 ^ 1) with 2 in *.
    change (2 ^ 53) with 9007199254740992 in *. change (2 ^ 52) with 4503599627370496 in *.
    nia.
  - rewrite Z.min_r, Z.sub_diag by lia. simpl (2 ^ 0). rewrite Z.mul_1_r.
    apply Z.compare_gt_iff.
    assert (2 ^ 1 <= 2 ^ (ex - ey)) by (apply Z.pow_le_mono_r; lia).
    specialize (Hnx ltac:(lia)). change (2 ^ 1) with 2 in *.
    change (2 ^ 53) with 9007199254740992 in *. change (2 ^ 52) with 4503599627370496 in *.
    nia.
Qed.

(** The difference of two binary64 numbers has the sign their comparison
    gives; it is [nan] only for [nan] operands and equal infinities. *)
Lemma SFsub_class (x y : spec_float) :
  valid_binary x = true -> valid_binary y = true ->
  match SFcompare x y with
  | Some Lt => class_of (SF64sub x y) = Negative
  | Some Gt => class_of (SF64sub x y) = Positive
  | Some Eq =>
      class_of (SF64sub x y) = Zero
      \/ (class_of (SF64sub x y) = NaN_class
          /\ exists s, x = S754_infinity s /\ y = S754_infinity s)
  | None => class_of (SF64sub x y) = NaN_class
  end.
Proof.
  intros Vx Vy.
  destruct x as [sx|sx| |sx mx ex], y as [sy|sy| |sy my ey];
    try (simpl; repeat match goal with s : bool |- _ => destruct s end;
         simpl; eauto 6; fail).
  simpl in Vx, Vy.
  pose proof (aligned_compare mx my ex ey Vx Vy) as HC.
  pose proof (bounded_binary64 mx ex Vx) as [Hex _].
  pose proof (bounded_binary64 my ey Vy) as [Hey _].
  unfold SF64sub, SFsub.
  rewrite binary_normalize_class by lia.
  set (X := Z.pos (fst (shl_align mx ex (Z.min ex ey)))) in *.
  set (Y := Z.pos (fst (shl_align my ey (Z.min ex ey)))) in *.
  assert (HX : 0 < X) by (unfold X; lia).
  assert (HY : 0 < Y) by (unfold Y; lia).
  unfold SFcompare. destruct sx, sy; unfold cond_Zopp.
  - replace (- X - - Y ?= 0) with (Y ?= X) by (rewrite (Z.compare_sub Y X); f_equal; lia).
    rewrite (Z.compare_antisym X Y), HC.
    destruct (ex ?= ey); simpl; auto.
    destruct (Pos.compare_cont Eq mx my); simpl; auto.
  - replace (- X - Y ?= 0) with Lt by (symmetry; apply Z.compare_lt_iff; lia).
    reflexivity.
  - replace (X - - Y ?= 0) with Gt by (symmetry; apply Z.compare_gt_iff; lia).
    reflexivity.
  - rewrite <- (Z.compare_sub X Y), HC.
    destruct (ex ?= ey); simpl; auto.
    destruct (Pos.compare_cont Eq mx my); simpl; auto.
Qed.

Lemma SFcompare_antisym (x y : spec_float) :
  SFcompare y x = option_map CompOpp (SFcompare x y).
Proof.
  destruct x as [sx|sx| |sx mx ex], y as [sy|sy| |sy my ey];
    try (simpl; repeat match goal with s : bool |- _ => destruct s end;
         reflexivity).
  simpl. rewrite (Z.compare_antisym ex ey).
  change (Pos.compare_cont Eq my mx) with (my ?= mx)%positive.
  change (Pos.compare_cont Eq mx my) with (mx ?= my)%positive.
  rewrite (Pos.compare_antisym mx my).
  destruct sx, sy; simpl; try reflexivity;
    destruct (ex ?= ey); simpl; try reflexivity;
    destruct (mx ?= my)%positive; reflexivity.
Qed.

Lemma SFleb_zero_class (r : spec_float) :
  SFleb r (S754_zero false) =
    match class_of r with Negative | Zero => true | _ => false end.
Proof. destruct r as [s|s| |s m e]; try destruct s; reflexivity. Qed.

Lemma SFltb_zero_class (r : spec_float) :
  SFltb (S754_zero false) r =
    match class_of r with Positive => true | _ => false end.
Proof. destruct r as [s|s| |s m e]; try destruct s; reflexivity. Qed.

Lemma is_finite_not_infinity (x : float) (s : bool) :
  is_finite x = true -> Prim2SF x <> S754_infinity s.
Proof.
  unfold is_finite, Prim2SF. intros H.
  apply negb_true_iff, orb_false_iff in H as [Hn Hi]. rewrite Hn, Hi.
  destruct (is_zero x); [discriminate|].
  destruct (Z.frexp x) as [r e].
  destruct (shr_fexp prec emax _ _ _) as [mrs e'].
  destruct (shr_m mrs); discriminate.
Qed.

Lemma sub_class (x y : float) :
  match SFcompare (Prim2SF x) (Prim2SF y) with
  | Some Lt => class_of (Prim2SF (x - y)) = Negative
  | Some Gt => class_of (Prim2SF (x - y)) = Positive
  | Some Eq =>
      class_of (Prim2SF (x - y)) = Zero
      \/ (class_of (Prim2SF (x - y)) = NaN_class
          /\ exists s, Prim2SF x = S754_infinity s /\ Prim2SF y = S754_infinity s)
  | None => class_of (Prim2SF (x - y)) = NaN_class
  end.
Proof.
  rewrite sub_spec. apply SFsub_class; apply Prim2SF_valid.
Qed.

(** [x <= y] leaves no positive difference [x - y]. *)
Lemma leb_sub_not_positive (x y : float) :
  (x <=? y)%float = true -> (0 <? x - y)%float = false.
Proof.
  rewrite leb_spec, ltb_spec. change (Prim2SF 0) with (S754_zero false).
  rewrite SFltb_zero_class. unfold SFleb.
  pose proof (sub_class x y) as H.
  destruct (SFcompare (Prim2SF x) (Prim2SF y)) as [[]|]; try discriminate; intros _.
  - destruct H as [H|[H _]]; rewrite H; reflexivity.
  - rewrite H. reflexivity.
Qed.

(** When [x] or [y] is finite, [x <= y] makes the difference [x - y] at most
    zero. *)
Lemma leb_sub_nonpositive (x y : float) :
  is_finite x = true \/ is_finite y = true ->
  (x <=? y)%float = true -> (x - y <=? 0)%float = true.
Proof.
  intros F. rewrite !leb_spec. change (Prim2SF 0) with (S754_zero false).
  rewrite SFleb_zero_class. unfold SFleb.
  pose proof (sub_class x y) as H.
  destruct (SFcompare (Prim2SF x) (Prim2SF y)) as [[]|]; try discriminate; intros _.
  - destruct H as [H|[_ [s [Hx Hy]]]]; [rewrite H; reflexivity|].
    exfalso. destruct F as [F|F];
      [exact (is_finite_not_infinity x s F Hx) | exact (is_finite_not_infinity y s F Hy)].
  - rewrite H. reflexivity.
Qed.

(** [y < x] makes the difference [x - y] positive. *)
Lemma ltb_sub_positive (x y : float) :
  (y <? x)%float = true -> (x - y <=? 0)%float = false.
Proof.
  rewrite ltb_spec, leb_spec. change (Prim2SF 0) with (S754_zero false).
  rewrite SFleb_zero_class. unfold SFltb.
  rewrite (SFcompare_antisym (Prim2SF x) (Prim2SF y)).
  pose proof (sub_class x y) as H.
  destruct (SFcompare (Prim2SF x) (Prim2SF y)) as [[]|]; simpl; try discriminate; intros _.
  rewrite H. reflexivity.
Qed.

(** ** Differences that are not numbers *)

Lemma SFcompare_refl (x : spec_float) : x <> S754_nan -> SFcompare x x = Some Eq.
Proof.
  destruct x as [s|s| |s m e]; try destruct s; simpl; try reflexivity; try congruence;
    intros _; rewrite Z.compare_refl, Pos.compare_cont_refl; reflexivity.
Qed.

Lemma is_nan_class (x : float) :
  is_nan x = match class_of (Prim2SF x) with NaN_class => true | _ => false end.
Proof.
  unfold is_nan. rewrite eqb_spec. unfold SFeqb.
  destruct (Prim2SF x) as [s|s| |s m e] eqn:E.
  - destruct s; reflexivity.
  - destruct s; reflexivity.
  - reflexivity.
  - rewrite SFcompare_refl by discriminate. destruct s; reflexivity.
Qed.

Lemma is_finite_class (x : float) :
  is_finite x = true ->
  exists s, (exists m e, Prim2SF x = S754_finite s m e) \/ Prim2SF x = S754_zero s.
Proof.
  unfold is_finite, Prim2SF. intros H.
  apply negb_true_iff, orb_false_iff in H as [Hn Hi]. rewrite Hn, Hi.
  destruct (is_zero x); [eexists; right; reflexivity|].
  destruct (Z.frexp x) as [r e].
  destruct (shr_fexp prec emax _ _ _) as [mrs e'].
  destruct (shr_m mrs); eexists; eauto.
Qed.

(** A difference is [nan] only when an operand is, or both are the same infinity. *)
Lemma sub_not_nan (x y : float) :
  is_nan x = false -> is_finite y = true -> is_nan (x - y) = false.
Proof.
  intros Hx Hy. rewrite is_nan_class in *.
  pose proof (sub_class x y) as H.
  destruct (is_finite_class y Hy) as [s [[m [e Ey]]|Ey]];
  destruct (Prim2SF x) as [sx|sx| |sx mx ex] eqn:Ex; try discriminate;
  rewrite Ey in H;
  (destruct (SFcompare _ _) as [[]|] eqn:Ec;
   [ destruct H as [H|[_ [s' [H1 H2]]]]; [rewrite H; reflexivity | discriminate]
   | rewrite H; reflexivity | rewrite H; reflexivity
   | exfalso; revert Ec; simpl; repeat match goal with s : bool |- _ => destruct s end;
     simpl; try discriminate; destruct (_ ?= _); discriminate ]).
Qed.

Lemma leb_nan (q : float) : is_nan q = true -> (q <=? 0)%float = false.
Proof.
  rewrite is_nan_class, leb_spec. change (Prim2SF 0) with (S754_zero false).
  rewrite SFleb_zero_class. destruct (class_of (Prim2SF q)); try discriminate. reflexivity.
Qed.

Lemma leb_sub_number (x y : float) :
  is_nan (x - y) = false -> (x <=? y)%float = true -> (x - y <=? 0)%float = true.
Proof.
  intros F. rewrite is_nan_class in F. rewrite !leb_spec.
  change (Prim2SF 0) with (S754_zero false).
  rewrite SFleb_zero_class. unfold SFleb.
  pose proof (sub_class x y) as H.
  destruct (SFcompare (Prim2SF x) (Prim2SF y)) as [[]|]; try discriminate; intros _.
  - destruct H as [H|[H _]]; rewrite H in *; [reflexivity | discriminate].
  - rewrite H. reflexivity.
Qed.

Lemma number_comparable (x y : float) :
  is_nan (x - y) = false -> (x <=? y)%float = true \/ (y <? x)%float = true.
Proof.
  intros F. rewrite is_nan_class in F. rewrite leb_spec, ltb_spec. unfold SFleb, SFltb.
  rewrite (SFcompare_antisym (Prim2SF x) (Prim2SF y)).
  pose proof (sub_class x y) as H.
  destruct (SFcompare (Prim2SF x) (Prim2SF y)) as [[]|]; simpl; auto.
  rewrite H in F. discriminate.
Qed.

Lemma positive_or_nan (q : float) :
  (q <=? 0)%float = false -> (0 <? q)%float = true \/ is_nan q = true.
Proof.
  rewrite is_nan_class, leb_spec, ltb_spec. change (Prim2SF 0) with (S754_zero false).
  rewrite SFleb_zero_class, SFltb_zero_class. destruct (class_of (Prim2SF q)); auto; discriminate.
Qed.

(** ** Sessions: what a handler keeps true *)

Section Keeps.
Variable I : Session -> Prop.

Lemma keeps_ret {A : Type} (a : A) : keeps I (ret a).
Proof. intros s H. exact H. Qed.

Lemma keeps_raise {A : Type} (e : exn) : keeps I (@raise A e).
Proof. intros s H. exact H. Qed.

Lemma keeps_lift {A : Type} (r : result A) : keeps I (lift r).
Proof. intros s H. exact H. Qed.

Lemma keeps_query {A : Type} (q : DB -> A) : keeps I (query q).
Proof. intros s H. exact H. Qed.

Lemma keeps_flush : keeps I flush.
Proof. intros s H. unfold flush. destruct (constraints_ok (pending s)); exact H. Qed.

Lemma keeps_bind {A B : Type} (m : M A) (k : A -> M B) :
  keeps I m -> (forall a, keeps I (k a)) -> keeps I (bindM m k).
Proof.
  intros Hm Hk s H. unfold bindM. specialize (Hm s H).
  destruct (m s) as [[a|e] s']; simpl in Hm; [apply Hk, Hm | exact Hm].
Qed.

Lemma keeps_for_each {A : Type} (l : list A) (body : A -> M unit) :
  (forall x, keeps I (body x)) -> keeps I (for_each l body).
Proof.
  intros Hb. induction l as [|x l IH]; simpl.
  - apply keeps_ret.
  - apply keeps_bind; [apply Hb | intros _; exact IH].
Qed.
End Keeps.

Create HintDb keeps discriminated.
#[local] Hint Resolve keeps_ret keeps_raise keeps_lift keeps_query keeps_flush : keeps.

(** A mutation of the session leaves what is committed as it is. *)
Lemma keeps_modify_stored (f : DB -> DB) : keeps stored_ok (modify f).
Proof. intros s H. exact H. Qed.

(** What is committed has passed the constraints at [flush]. *)
Lemma keeps_commit_stored : keeps stored_ok commit.
Proof.
  intros s H. unfold commit, bindM, flush, stored_ok in *.
  destruct (constraints_ok (pending s)) eqn:E; simpl; [exact E | exact H].
Qed.

#[local] Hint Resolve keeps_modify_stored keeps_commit_stored : keeps.

(** In every handler: the constraints of the schema hold of the stored
    database after the request if they did before. *)
Ltac keeps_step :=
  match goal with
  | |- keeps _ (bindM _ _) => apply keeps_bind; [|intros ?]
  | |- keeps _ (for_each _ _) => apply keeps_for_each; intros ?
  | |- keeps _ (match ?x with _ => _ end) => destruct x
  | |- keeps _ (if ?b then _ else _) => destruct b
  | |- keeps _ (set_quantity _ _) => apply keeps_modify_stored
  | |- keeps _ (delete_item _) => apply keeps_modify_stored
  | |- keeps _ (clear_entries _) => apply keeps_modify_stored
  | |- keeps _ (add_plan _) => apply keeps_modify_stored
  | |- keeps _ (append_entry _) => apply keeps_modify_stored
  | |- keeps _ _ => solve [auto with keeps]
  end.

Lemma stored_constraints_consume_inventory (id : string) (quantity : float) :
  keeps stored_ok (consume_inventory id quantity).
Proof. unfold consume_inventory. repeat keeps_step. Qed.

Lemma stored_constraints_consume_meal (plan_id : string) (payload : list (string * json)) :
  keeps stored_ok (consume_meal plan_id payload).
Proof. unfold consume_meal, consume_inventory_by_name. repeat keeps_step. Qed.

Lemma stored_constraints_create_meal_plan (payload : MealPlanCreate) (uuid : string) :
  keeps stored_ok (create_meal_plan payload uuid).
Proof. unfold create_meal_plan. repeat keeps_step. Qed.

Lemma stored_constraints_generate_shopping_list (week_start : date) :
  keeps stored_ok (generate_shopping_list week_start).
Proof. unfold generate_shopping_list. repeat keeps_step. Qed.

(** ** Planned-meal consumption *)

Lemma with_quantity_same (i : InventoryItem) : with_quantity (item_quantity i) i = i.
Proof. destruct i; reflexivity. Qed.

Lemma floored_refl (i : InventoryItem) : floored i i.
Proof. exists (item_quantity i). split; [symmetry; apply with_quantity_same | left; reflexivity]. Qed.

Lemma floored_trans (a b c : InventoryItem) : floored a b -> floored b c -> floored a c.
Proof.
  intros [q1 [-> H1]] [q2 [-> H2]]. exists q2. split; [reflexivity|].
  simpl in H2. destruct H2 as [->|H2]; [exact H1 | right; exact H2].
Qed.

Lemma Forall2_refl {A : Type} (R : A -> A -> Prop) (l : list A) :
  (forall x, R x x) -> Forall2 R l l.
Proof. intros H. induction l; constructor; auto. Qed.

Lemma Forall2_trans {A : Type} (R : A -> A -> Prop) (l1 l2 l3 : list A) :
  (forall x y z, R x y -> R y z -> R x z) ->
  Forall2 R l1 l2 -> Forall2 R l2 l3 -> Forall2 R l1 l3.
Proof.
  intros HR H12. revert l3. induction H12; intros l3 H23; inversion H23; subst;
    constructor; eauto.
Qed.

Lemma Forall2_map_self {A : Type} (R : A -> A -> Prop) (f : A -> A) (l : list A) :
  (forall x, R x (f x)) -> Forall2 R l (map f l).
Proof. intros H. induction l; simpl; constructor; auto. Qed.

Lemma inventory_floored_refl (db : DB) : inventory_floored db db.
Proof. repeat split. apply Forall2_refl, floored_refl. Qed.

Lemma inventory_floored_trans (a b c : DB) :
  inventory_floored a b -> inventory_floored b c -> inventory_floored a c.
Proof.
  intros (H1 & H2 & H3 & H4 & H5) (K1 & K2 & K3 & K4 & K5).
  repeat split; try congruence.
  exact (Forall2_trans floored _ _ _ floored_trans H5 K5).
Qed.

Lemma depleted_not_negative (quantity : float) (item : InventoryItem) :
  (depleted quantity item <? 0)%float = false.
Proof.
  unfold depleted.
  destruct (item_quantity item - quantity <? 0)%float eqn:E; [reflexivity | exact E].
Qed.

Lemma consume_inventory_by_name_effect (n : string) (quantity : float) (s : Session) :
  consume_inventory_by_name n quantity s =
    match one_or_none (items_named n (pending s)) with
    | Ok None => (Ok tt, s)
    | Ok (Some item) =>
        (Ok tt,
         {| committed := committed s;
            pending :=
              with_inventory
                (map (fun i => if String.eqb (item_id i) (item_id item)
                               then with_quantity (depleted quantity item) i else i))
                (pending s) |})
    | Raise e => (Raise e, s)
    end.
Proof.
  unfold consume_inventory_by_name, bindM, query, lift, set_quantity, modify, ret, depleted.
  simpl.
  destruct (one_or_none (items_named n (pending s))) as [[item|]|e]; try reflexivity.
  simpl. destruct (item_quantity item - quantity <? 0)%float; simpl; [|reflexivity].
  f_equal. f_equal. unfold with_inventory. simpl. f_equal.
  rewrite map_map. apply map_ext. intros i.
  destruct (String.eqb (item_id i) (item_id item)) eqn:E; simpl; rewrite E; reflexivity.
Qed.

Lemma consume_inventory_by_name_floored (n : string) (quantity : float) (s : Session) :
  committed (snd (consume_inventory_by_name n quantity s)) = committed s
  /\ inventory_floored (pending s) (pending (snd (consume_inventory_by_name n quantity s))).
Proof.
  rewrite consume_inventory_by_name_effect.
  destruct (one_or_none (items_named n (pending s))) as [[item|]|e]; simpl;
    split; try reflexivity; try apply inventory_floored_refl.
  repeat split. simpl. apply Forall2_map_self. intros i.
  destruct (String.eqb (item_id i) (item_id item)); [|apply floored_refl].
  exists (depleted quantity item). split; [reflexivity|].
  right. apply depleted_not_negative.
Qed.

Lemma keeps_consume_inventory_by_name (db : DB) (n : string) (quantity : float) :
  keeps (floor_inv db) (consume_inventory_by_name n quantity).
Proof.
  intros s [Hc Hp].
  destruct (consume_inventory_by_name_floored n quantity s) as [E F].
  split; [rewrite E; exact Hc | exact (inventory_floored_trans _ _ _ Hp F)].
Qed.

Lemma keeps_commit (db : DB) : keeps (floor_inv db) commit.
Proof.
  unfold commit. apply keeps_bind; [apply keeps_flush|].
  intros _ s [_ Hp]. split; exact Hp.
Qed.

Lemma keeps_consume_meal (db : DB) (plan_id : string) (payload : list (string * json)) :
  keeps (floor_inv db) (consume_meal plan_id payload).
Proof.
  unfold consume_meal.
  destruct (negb (truthy (get payload "day")) || negb (truthy (get payload "meal")));
    [apply keeps_raise|].
  apply keeps_bind; [apply keeps_lift | intros day].
  apply keeps_bind; [apply keeps_lift | intros meal].
  apply keeps_bind; [apply keeps_query | intros rows].
  apply keeps_bind; [apply keeps_lift | intros [entry|]]; [|apply keeps_raise].
  apply keeps_bind; [apply keeps_query | intros [recipe|]]; [|apply keeps_raise].
  apply keeps_bind; [apply keeps_query | intros ingredients].
  apply keeps_bind;
    [apply keeps_for_each; intros i; apply keeps_consume_inventory_by_name | intros _].
  apply keeps_bind; [apply keeps_commit | intros _; apply keeps_ret].
Qed.

Lemma floored_ids (l l' : list InventoryItem) :
  Forall2 floored l l' ->
  map item_id l' = map item_id l
  /\ map item_normalized_name l' = map item_normalized_name l.
Proof.
  induction 1 as [|a b l l' [q [-> _]] _ [IH1 IH2]]; simpl; [split; reflexivity|].
  rewrite IH1, IH2. split; reflexivity.
Qed.

Lemma run_request_committed {A : Type} (handler : M A) (db : DB) :
  snd (run_request handler db) = committed (snd (handler {| committed := db; pending := db |})).
Proof.
  unfold run_request. destruct (handler _) as [r s]. reflexivity.
Qed.

(** C3. Whatever the request and its outcome, after a planned-meal
    consumption the inventory holds the same records in the same order (none
    deleted, none added, identifiers and names untouched), and each quantity
    is either the one before or a value that is not negative; an ingredient
    whose normalized name matches no inventory row is passed over with no
    error and no change. *)
Theorem consume_meal_floor (db : DB) (plan_id : string) (payload : list (string * json)) :
  let db' := snd (run_request (consume_meal plan_id payload) db) in
  map item_id (inventory_items db') = map item_id (inventory_items db)
  /\ Forall2 floored (inventory_items db) (inventory_items db')
  /\ forall (s : Session) (normalized_name : string) (quantity : float),
       items_named normalized_name (pending s) = [] ->
       consume_inventory_by_name normalized_name quantity s = (Ok tt, s).
Proof.
  cbv zeta. rewrite run_request_committed.
  assert (H : floor_inv db {| committed := db; pending := db |})
    by (split; apply inventory_floored_refl).
  apply (keeps_consume_meal db plan_id payload) in H.
  destruct H as [(_ & _ & _ & _ & F) _].
  split; [apply floored_ids, F|]. split; [exact F|].
  intros s n q Hn. rewrite consume_inventory_by_name_effect, Hn. reflexivity.
Qed.

(** *** The request succeeds when the amounts are finite *)

Lemma filter_none_of {A : Type} (g : A -> string) (n : string) (l : list A) :
  existsb (String.eqb n) (map g l) = false ->
  filter (fun i => String.eqb (g i) n) l = [].
Proof.
  induction l as [|a l IH]; simpl; [reflexivity|].
  intros H. apply orb_false_iff in H as [H1 H2].
  rewrite String.eqb_sym, H1. exact (IH H2).
Qed.

Lemma one_or_none_distinct {A : Type} (g : A -> string) (n : string) (l : list A) :
  distinct String.eqb (map g l) = true ->
  exists o, one_or_none (filter (fun i => String.eqb (g i) n) l) = Ok o.
Proof.
  induction l as [|a l IH]; simpl; [exists None; reflexivity|].
  intros H. apply andb_true_iff in H as [H1 H2].
  destruct (String.eqb (g a) n) eqn:E; [|exact (IH H2)].
  apply String.eqb_eq in E. subst n.
  rewrite filter_none_of by (apply negb_true_iff; exact H1).
  exists (Some a). reflexivity.
Qed.

Ltac split_andb :=
  repeat match goal with
         | H : (_ && _)%bool = true |- _ => apply andb_true_iff in H; destruct H
         end.

Ltac rewrite_true :=
  repeat match goal with E : _ = true |- _ => rewrite E; clear E end.

Lemma constraints_ok_unique (db : DB) : constraints_ok db = true -> unique_ok db = true.
Proof. unfold constraints_ok. intros H. apply andb_true_iff in H as [H _]. exact H. Qed.

Lemma constraints_ok_not_null (db : DB) : constraints_ok db = true -> not_null_ok db = true.
Proof. unfold constraints_ok. intros H. apply andb_true_iff in H as [_ H]. exact H. Qed.

Lemma constraints_ok_inventory (db : DB) :
  constraints_ok db = true ->
  distinct String.eqb (map item_id (inventory_items db)) = true
  /\ distinct String.eqb (map item_normalized_name (inventory_items db)) = true.
Proof.
  intros H. apply constraints_ok_unique in H. unfold unique_ok in H.
  repeat (apply andb_true_iff in H as [H ?]). split; assumption.
Qed.

Lemma constraints_ok_quantities (db : DB) :
  constraints_ok db = true ->
  forallb (fun i => not_null (item_quantity i)) (inventory_items db) = true.
Proof.
  intros H. apply constraints_ok_not_null in H. unfold not_null_ok in H.
  repeat (apply andb_true_iff in H as [H ?]). assumption.
Qed.

Lemma constraints_ok_with_inventory (f : list InventoryItem -> list InventoryItem) (db : DB) :
  constraints_ok db = true ->
  distinct String.eqb (map item_id (f (inventory_items db))) = true ->
  distinct String.eqb (map item_normalized_name (f (inventory_items db))) = true ->
  forallb (fun i => not_null (item_quantity i)) (f (inventory_items db)) = true ->
  constraints_ok (with_inventory f db) = true.
Proof.
  unfold constraints_ok, unique_ok, not_null_ok. intros H H1 H2 H3. simpl.
  split_andb. rewrite_true. reflexivity.
Qed.

Lemma quantity_set_ids (id : string) (q : float) (l : list InventoryItem) :
  map item_id (map (quantity_set id q) l) = map item_id l
  /\ map item_normalized_name (map (quantity_set id q) l) = map item_normalized_name l.
Proof.
  rewrite !map_map. split; apply map_ext; intros i; unfold quantity_set;
    destruct (String.eqb (item_id i) id); reflexivity.
Qed.

Lemma quantity_set_not_null (id : string) (q : float) (l : list InventoryItem) :
  not_null q = true ->
  forallb (fun i => not_null (item_quantity i)) l = true ->
  forallb (fun i => not_null (item_quantity i)) (map (quantity_set id q) l) = true.
Proof.
  intros Hq. induction l as [|i l IH]; simpl; [reflexivity|].
  intros H. apply andb_true_iff in H as [Hi H]. rewrite (IH H), andb_true_r.
  unfold quantity_set. destruct (String.eqb (item_id i) id); [exact Hq | exact Hi].
Qed.

Lemma constraints_ok_quantity_set (db : DB) (id : string) (q : float) :
  constraints_ok db = true -> not_null q = true ->
  constraints_ok (with_inventory (map (quantity_set id q)) db) = true.
Proof.
  intros Hc Hq. destruct (constraints_ok_inventory db Hc) as [D1 D2].
  destruct (quantity_set_ids id q (inventory_items db)) as [E1 E2].
  apply constraints_ok_with_inventory; rewrite ?E1, ?E2; try assumption.
  apply quantity_set_not_null; [exact Hq | apply constraints_ok_quantities, Hc].
Qed.

Lemma depleted_not_null (quantity : float) (item : InventoryItem) :
  not_null (item_quantity item) = true -> is_finite quantity = true ->
  not_null (depleted quantity item) = true.
Proof.
  unfold depleted, not_null. intros Hi Hq.
  destruct (item_quantity item - quantity <? 0)%float; [reflexivity|].
  apply negb_true_iff, sub_not_nan; [apply negb_true_iff, Hi | exact Hq].
Qed.

Lemma named_item_not_null (db : DB) (n : string) (item : InventoryItem)
    (rows : list InventoryItem) :
  constraints_ok db = true -> items_named n db = item :: rows ->
  not_null (item_quantity item) = true.
Proof.
  intros Hc Hn. pose proof (constraints_ok_quantities db Hc) as Hq.
  rewrite forallb_forall in Hq. apply Hq.
  assert (H : In item (items_named n db)) by (rewrite Hn; left; reflexivity).
  unfold items_named in H. apply filter_In in H as [H _]. exact H.
Qed.

(** The loop over the ingredients returns, and leaves the constraints
    satisfied, when the amounts it subtracts are finite. *)
Lemma for_each_consume_ok (servings : float) (ingredients : list RecipeIngredient) :
  Forall (fun i => is_finite (ing_quantity i * servings) = true) ingredients ->
  forall s, constraints_ok (pending s) = true ->
  exists s',
    for_each ingredients
      (fun ingredient =>
         consume_inventory_by_name (ing_normalized_name ingredient)
                                   (ing_quantity ingredient * servings)%float) s
    = (Ok tt, s')
    /\ constraints_ok (pending s') = true.
Proof.
  induction 1 as [|i l Hi _ IH]; intros s Hs; simpl.
  - exists s. split; [reflexivity | exact Hs].
  - unfold bindM. rewrite consume_inventory_by_name_effect.
    destruct (constraints_ok_inventory _ Hs) as [_ D].
    destruct (one_or_none_distinct item_normalized_name (ing_normalized_name i) _ D) as [o Ho].
    fold (items_named (ing_normalized_name i) (pending s)) in Ho. rewrite Ho.
    destruct o as [item|]; [|apply IH, Hs].
    apply IH. simpl pending.
    apply (constraints_ok_quantity_set (pending s) (item_id item)); [exact Hs|].
    apply depleted_not_null; [|exact Hi].
    destruct (items_named (ing_normalized_name i) (pending s)) as [|item' rows] eqn:En;
      [discriminate|].
    assert (item' = item) by (destruct rows; [inversion Ho; reflexivity | discriminate]).
    subst item'. exact (named_item_not_null _ _ _ _ Hs En).
Qed.

Lemma consume_meal_succeeds (db : DB) (plan_id day meal : string)
    (payload : list (string * json)) (entry : MealPlanEntry) (recipe : Recipe) :
  constraints_ok db = true ->
  get payload "day" = JStr day -> get payload "meal" = JStr meal ->
  is_empty day = false -> is_empty meal = false ->
  filter (fun e => String.eqb (entry_meal_plan_id e) plan_id
                   && String.eqb (entry_day e) (lower day)
                   && String.eqb (entry_meal e) (lower meal))
         (meal_plan_entries db) = [entry] ->
  recipe_of db entry = Some recipe ->
  Forall (fun i => is_finite (ing_quantity i * entry_servings entry) = true)
         (ingredients_of db recipe) ->
  fst (run_request (consume_meal plan_id payload) db) = Ok "ok".
Proof.
  intros Hc Hd Hm Ed Em He Hr Hf.
  unfold run_request, consume_meal. rewrite Hd, Hm. unfold truthy. rewrite Ed, Em.
  cbv beta iota zeta delta [bindM lift query lower_method negb orb pending committed].
  rewrite He. cbv beta iota delta [one_or_none]. rewrite Hr.
  destruct (for_each_consume_ok (entry_servings entry) (ingredients_of db recipe) Hf
              {| committed := db; pending := db |} Hc) as [s' [E Hs']].
  rewrite E. unfold commit, flush, bindM, ret. rewrite Hs'. reflexivity.
Qed.

Lemma consume_meal_floor_witness :
  fst (run_request (consume_meal "p1" monday_dinner) omelette_db) = Ok "ok"
  /\ map item_quantity
         (inventory_items (snd (run_request (consume_meal "p1" monday_dinner) omelette_db)))
     = [0%float]
  /\ Forall2 floored
       (inventory_items omelette_db)
       (inventory_items (snd (run_request (consume_meal "p1" monday_dinner) omelette_db)))
  /\ consume_inventory_by_name "cheese" 100%float
       {| committed := omelette_db; pending := omelette_db |}
     = (Ok tt, {| committed := omelette_db; pending := omelette_db |}).
Proof.
  destruct (consume_meal_floor omelette_db "p1" monday_dinner) as (_ & F & K).
  split; [vm_compute; reflexivity|].
  split; [vm_compute; reflexivity|].
  split; [exact F|].
  apply K. reflexivity.
Defined.

(** ** Direct consumption *)

Lemma existsb_filter_sub {A B : Type} (eqb : B -> B -> bool) (g : A -> B)
    (p : A -> bool) (x : B) (l : list A) :
  existsb (eqb x) (map g l) = false ->
  existsb (eqb x) (map g (filter p l)) = false.
Proof.
  induction l as [|a l IH]; simpl; [trivial|].
  intros H. apply orb_false_iff in H as [H1 H2].
  destruct (p a); simpl; [rewrite H1|]; exact (IH H2).
Qed.

Lemma distinct_filter {A B : Type} (eqb : B -> B -> bool) (g : A -> B)
    (p : A -> bool) (l : list A) :
  distinct eqb (map g l) = true ->
  distinct eqb (map g (filter p l)) = true.
Proof.
  induction l as [|a l IH]; simpl; [trivial|].
  intros H. apply andb_true_iff in H as [H1 H2].
  destruct (p a); simpl; [|exact (IH H2)].
  rewrite (IH H2), andb_true_r. apply negb_true_iff.
  apply existsb_filter_sub, negb_true_iff, H1.
Qed.

Lemma filter_quantity_set (id : string) (q : float) (l : list InventoryItem) :
  filter (other_than id) (map (quantity_set id q) l) = filter (other_than id) l.
Proof.
  induction l as [|a l IH]; simpl; [reflexivity|].
  assert (H : other_than id (quantity_set id q a) = other_than id a).
  { unfold other_than, quantity_set.
    destruct (String.eqb (item_id a) id) eqn:E; simpl; rewrite E; reflexivity. }
  rewrite H, IH. destruct (other_than id a) eqn:E; [|reflexivity].
  f_equal. unfold quantity_set. unfold other_than in E.
  destruct (String.eqb (item_id a) id); [discriminate | reflexivity].
Qed.

Lemma get_item_id (id : string) (db : DB) (item : InventoryItem) :
  get_item id db = Some item -> item_id item = id.
Proof.
  unfold get_item. intros H. apply find_some in H as [_ H]. apply String.eqb_eq, H.
Qed.

Lemma find_deleted (id : string) (l : list InventoryItem) :
  find (fun i => String.eqb (item_id i) id) (filter (other_than id) l) = None.
Proof.
  induction l as [|a l IH]; simpl; [reflexivity|].
  unfold other_than at 1. destruct (String.eqb (item_id a) id) eqn:E; simpl; [exact IH|].
  rewrite E. exact IH.
Qed.

Lemma find_quantity_set (id : string) (q : float) (l : list InventoryItem) (item : InventoryItem) :
  find (fun i => String.eqb (item_id i) id) l = Some item ->
  find (fun i => String.eqb (item_id i) id) (map (quantity_set id q) l)
  = Some (with_quantity q item).
Proof.
  induction l as [|a l IH]; simpl; [discriminate|].
  destruct (String.eqb (item_id a) id) eqn:E.
  - intros H. inversion H; subst.
    assert (K : quantity_set id q item = with_quantity q item)
      by (unfold quantity_set; rewrite E; reflexivity).
    rewrite K. simpl. rewrite E. reflexivity.
  - assert (K : quantity_set id q a = a)
      by (unfold quantity_set; rewrite E; reflexivity).
    rewrite K, E. exact IH.
Qed.

Lemma forallb_filter {A : Type} (P p : A -> bool) (l : list A) :
  forallb P l = true -> forallb P (filter p l) = true.
Proof.
  induction l as [|a l IH]; simpl; [trivial|].
  intros H. apply andb_true_iff in H as [Ha H].
  destruct (p a); simpl; [rewrite Ha|]; exact (IH H).
Qed.

Lemma quantity_set_null (id : string) (q : float) (l : list InventoryItem)
    (item : InventoryItem) :
  find (fun i => String.eqb (item_id i) id) l = Some item ->
  not_null q = false ->
  forallb (fun i => not_null (item_quantity i)) (map (quantity_set id q) l) = false.
Proof.
  intros Hf Hq. induction l as [|a l IH]; simpl in *; [discriminate|].
  unfold quantity_set at 1. destruct (String.eqb (item_id a) id).
  - simpl. rewrite Hq. reflexivity.
  - rewrite (IH Hf). apply andb_false_r.
Qed.

(** The handler on an existing item, by the difference it computes: at most
    zero, not a number, or positive. *)
Lemma consume_inventory_run (db : DB) (id : string) (quantity : float) (item : InventoryItem) :
  constraints_ok db = true -> get_item id db = Some item ->
  run_request (consume_inventory id quantity) db =
    let q := (item_quantity item - quantity)%float in
    if (q <=? 0)%float
    then (Ok {| icr_id := id; icr_name := item_name item;
                icr_quantity := None; icr_removed := true |},
          with_inventory (filter (other_than id)) db)
    else if is_nan q
    then (Raise IntegrityError, db)
    else (Ok {| icr_id := id; icr_name := item_name item;
                icr_quantity := Some q; icr_removed := false |},
          with_inventory (map (quantity_set id q)) db).
Proof.
  intros Hc Hg. pose proof (get_item_id id db item Hg) as Hid.
  destruct (constraints_ok_inventory db Hc) as [D1 D2].
  unfold run_request, consume_inventory.
  cbv beta iota zeta delta [bindM query pending committed]. rewrite Hg.
  cbv beta iota zeta delta [set_quantity delete_item modify commit flush bindM ret
                            pending committed].
  rewrite Hid.
  fold (quantity_set id (item_quantity item - quantity)%float). fold (other_than id).
  destruct (item_quantity item - quantity <=? 0)%float.
  - assert (E : with_inventory (filter (other_than id))
                  (with_inventory (map (quantity_set id (item_quantity item - quantity)%float)) db)
                = with_inventory (filter (other_than id)) db).
    { unfold with_inventory. simpl. rewrite filter_quantity_set. reflexivity. }
    rewrite E.
    rewrite (constraints_ok_with_inventory (filter (other_than id)) db Hc)
      by (first [apply distinct_filter; assumption
                | apply forallb_filter, constraints_ok_quantities, Hc]).
    reflexivity.
  - destruct (is_nan (item_quantity item - quantity)) eqn:En.
    + assert (K : constraints_ok
                    (with_inventory
                       (map (quantity_set id (item_quantity item - quantity)%float)) db)
                  = false).
      { unfold constraints_ok, not_null_ok. simpl.
        rewrite (quantity_set_null id _ (inventory_items db) item Hg)
          by (unfold not_null; rewrite En; reflexivity).
        rewrite andb_false_r. simpl. apply andb_false_r. }
      rewrite K. reflexivity.
    + rewrite (constraints_ok_quantity_set db id _ Hc)
        by (unfold not_null; rewrite En; reflexivity).
      reflexivity.
Qed.

(** C4 (amended). Direct consumption of an existing item whose stock less
    the requested quantity is a number: a requested quantity at or above the
    stock deletes the record and answers [removed = true] with the name the
    item had; a smaller one keeps the record with the quantity reduced by the
    request and answers the new quantity with [removed = false]; one of the
    two is the case, and neither is an error.  When the difference is not a
    number (the request is [nan], or stock and request are the same infinity)
    the commit is refused with an integrity error and the record stays as it
    was. *)
Theorem consume_inventory_direct (db : DB) (id : string) (quantity : float)
    (item : InventoryItem) :
  constraints_ok db = true ->
  get_item id db = Some item ->
  let stock := item_quantity item in
  let outcome := run_request (consume_inventory id quantity) db in
  (is_nan (stock - quantity) = false ->
   ((stock <=? quantity)%float = true \/ (quantity <? stock)%float = true)
   /\ ((stock <=? quantity)%float = true ->
       outcome = (Ok {| icr_id := id; icr_name := item_name item;
                        icr_quantity := None; icr_removed := true |},
                  with_inventory (filter (other_than id)) db)
       /\ get_item id (snd outcome) = None)
   /\ ((quantity <? stock)%float = true ->
       outcome = (Ok {| icr_id := id; icr_name := item_name item;
                        icr_quantity := Some (stock - quantity)%float;
                        icr_removed := false |},
                  with_inventory (map (quantity_set id (stock - quantity)%float)) db)
       /\ get_item id (snd outcome) = Some (with_quantity (stock - quantity)%float item)))
  /\ (is_nan (stock - quantity) = true -> outcome = (Raise IntegrityError, db)).
Proof.
  intros Hc Hg stock outcome. subst stock outcome.
  rewrite (consume_inventory_run db id quantity item Hc Hg). cbv zeta.
  split.
  - intros Hn. split; [apply number_comparable, Hn|]. split; intros H.
    + rewrite (leb_sub_number _ _ Hn H). split; [reflexivity|].
      apply find_deleted.
    + rewrite (ltb_sub_positive _ _ H), Hn. split; [reflexivity|].
      apply find_quantity_set, Hg.
  - intros Hn. rewrite (leb_nan _ Hn), Hn. reflexivity.
Qed.

Lemma consume_inventory_direct_witness :
  (run_request (consume_inventory "i1" 4%float) omelette_db
   = (Ok {| icr_id := "i1"; icr_name := "Eggs"; icr_quantity := None; icr_removed := true |},
      with_inventory (filter (other_than "i1")) omelette_db)
   /\ get_item "i1" (snd (run_request (consume_inventory "i1" 4%float) omelette_db)) = None)
  /\ (run_request (consume_inventory "i1" 1%float) omelette_db
      = (Ok {| icr_id := "i1"; icr_name := "Eggs"; icr_quantity := Some (4 - 1)%float;
               icr_removed := false |},
         with_inventory (map (quantity_set "i1" (4 - 1)%float)) omelette_db)
      /\ get_item "i1" (snd (run_request (consume_inventory "i1" 1%float) omelette_db))
         = Some (with_quantity (4 - 1)%float
                   {| item_id := "i1"; item_name := "Eggs"; item_normalized_name := "eggs";
                      item_quantity := 4%float; item_unit := Some "count";
                      item_expires_on := None |}))
  /\ run_request (consume_inventory "i1" nan) omelette_db = (Raise IntegrityError, omelette_db)
  /\ run_request (consume_inventory "i1" infinity)
       (with_inventory (map (quantity_set "i1" neg_infinity)) omelette_db)
     = (Ok {| icr_id := "i1"; icr_name := "Eggs"; icr_quantity := None; icr_removed := true |},
        with_inventory (filter (other_than "i1"))
          (with_inventory (map (quantity_set "i1" neg_infinity)) omelette_db)).
Proof.
  pose (eggs := {| item_id := "i1"; item_name := "Eggs"; item_normalized_name := "eggs";
                   item_quantity := 4%float; item_unit := Some "count";
                   item_expires_on := None |}).
  split; [|split; [|split]].
  - apply (proj1 (consume_inventory_direct omelette_db "i1" 4%float eggs eq_refl eq_refl));
      reflexivity.
  - apply (proj1 (consume_inventory_direct omelette_db "i1" 1%float eggs eq_refl eq_refl));
      reflexivity.
  - apply (proj2 (consume_inventory_direct omelette_db "i1" nan eggs eq_refl eq_refl)).
    reflexivity.
  - apply (proj1 (consume_inventory_direct
                    (with_inventory (map (quantity_set "i1" neg_infinity)) omelette_db)
                    "i1" infinity (with_quantity neg_infinity eggs) eq_refl eq_refl));
      reflexivity.
Defined.

(** C4 as stated fails when stock and request are the same infinity: the
    request is at least the stock, yet [inf - inf] is [nan], which is not
    [<= 0] and which the quantity column refuses: the request ends in an
    integrity error, and the record is still there with its stock. *)
Lemma consume_inventory_infinite_stock_kept :
  get_item "i1" endless_db = Some endless_item
  /\ constraints_ok endless_db = true
  /\ (item_quantity endless_item <=? infinity)%float = true
  /\ run_request (consume_inventory "i1" infinity) endless_db
     = (Raise IntegrityError, endless_db)
  /\ get_item "i1" (snd (run_request (consume_inventory "i1" infinity) endless_db))
     = Some endless_item.
Proof. repeat split; vm_compute; reflexivity. Qed.

(** ** Meal-plan creation *)

Lemma distinct_snoc (x : string) (l : list string) :
  distinct String.eqb l = true ->
  existsb (String.eqb x) l = false ->
  distinct String.eqb (l ++ [x]) = true.
Proof.
  induction l as [|a l IH]; simpl; [reflexivity|].
  intros H Hx. apply andb_true_iff in H as [H1 H2].
  apply orb_false_iff in Hx as [Hx1 Hx2].
  rewrite (IH H2 Hx2), andb_true_r, existsb_app. simpl.
  apply negb_true_iff in H1. rewrite H1, String.eqb_sym, Hx1. reflexivity.
Qed.

Lemma constraints_ok_add_plan (db : DB) (plan : MealPlan) :
  constraints_ok db = true ->
  existsb (String.eqb (plan_id plan)) (map plan_id (meal_plans db)) = false ->
  constraints_ok (with_plans (fun l => (l ++ [plan])%list) db) = true.
Proof.
  unfold constraints_ok, unique_ok, not_null_ok. simpl. intros H Hf. split_andb.
  rewrite map_app. simpl.
  rewrite (distinct_snoc (plan_id plan) (map plan_id (meal_plans db))) by assumption.
  rewrite_true. reflexivity.
Qed.

Lemma constraints_ok_clear_entries (db : DB) (p : MealPlanEntry -> bool) :
  constraints_ok db = true -> constraints_ok (with_entries (filter p) db) = true.
Proof.
  unfold constraints_ok, unique_ok, not_null_ok. simpl. intros H. split_andb.
  rewrite (distinct_filter slot_eqb entry_slot) by assumption.
  rewrite (forallb_filter (fun e => not_null (entry_servings e))) by assumption.
  rewrite_true. reflexivity.
Qed.

(** The loop stops at the first entry whose recipe is missing, before any
    commit. *)
Lemma plan_entries_loop_raises (db : DB) (plan : MealPlan)
    (entries : list MealPlanEntryCreate) :
  Exists (recipe_missing db) entries ->
  forall s, recipes (pending s) = recipes db ->
  exists missing s',
    In missing entries /\ recipe_missing db missing
    /\ for_each entries (plan_entry_step plan) s = (Raise (not_found missing), s')
    /\ committed s' = committed s.
Proof.
  induction entries as [|e entries IH]; intros Hex s Hs; [inversion Hex|].
  simpl. unfold bindM at 1. unfold plan_entry_step at 1.
  unfold bindM at 1, query at 1. cbv beta iota.
  replace (get_recipe (mpec_recipe_id e) (pending s))
    with (get_recipe (mpec_recipe_id e) db)
    by (unfold get_recipe; rewrite Hs; reflexivity).
  destruct (get_recipe (mpec_recipe_id e) db) as [recipe|] eqn:Er.
  - assert (Hrest : Exists (recipe_missing db) entries).
    { inversion Hex as [? ? H|]; subst; [|assumption].
      unfold recipe_missing in H. congruence. }
    unfold append_entry, modify. cbv beta iota.
    match goal with
    | |- context [for_each entries (plan_entry_step plan) ?s1] =>
        destruct (IH Hrest s1 Hs) as (missing & s' & Hin & Hm & Hrun & Hcom)
    end.
    exists missing, s'. rewrite Hrun. repeat split; auto; right; exact Hin.
  - exists e, s. unfold raise, not_found. repeat split; auto; left; reflexivity.
Qed.

(** C6. When some entry of the payload references a recipe that is not
    stored, meal-plan creation returns no plan and the stored state is what
    it was: no plan row, no entry row is written, and the entries of an
    existing plan for that week, cleared in the session, are still stored.
    On a well-formed database (constraints hold, at most one plan per week,
    fresh identifier) the outcome is the not-found error of such an entry. *)
Theorem create_meal_plan_missing_recipe (db : DB) (payload : MealPlanCreate) (uuid : string) :
  Exists (recipe_missing db) (mpc_entries payload) ->
  let outcome := run_request (create_meal_plan payload uuid) db in
  snd outcome = db
  /\ (exists e, fst outcome = Raise e)
  /\ (constraints_ok db = true ->
      (List.length (plans_for_week (mpc_week_start payload) db) <= 1)%nat ->
      existsb (String.eqb uuid) (map plan_id (meal_plans db)) = false ->
      exists missing,
        In missing (mpc_entries payload) /\ recipe_missing db missing
        /\ fst outcome = Raise (not_found missing)).
Proof.
  intros Hex. cbv zeta. unfold run_request, create_meal_plan.
  cbv beta iota zeta delta [bindM query lift pending committed].
  destruct (plans_for_week (mpc_week_start payload) db) as [|plan [|plan' rows]] eqn:Hrows;
    cbv beta iota zeta delta [one_or_none clear_entries add_plan modify ret flush
                              pending committed].
  - (* no plan for the week: a new row *)
    set (plan := {| plan_id := uuid; plan_week_start := mpc_week_start payload |}).
    set (db1 := with_plans (fun l => (l ++ [plan])%list) db).
    destruct (constraints_ok db1) eqn:Hc1.
    + destruct (plan_entries_loop_raises db plan (mpc_entries payload) Hex
                  {| committed := db; pending := db1 |} eq_refl)
        as (missing & s' & Hin & Hm & Hrun & Hcom).
      match goal with
      | |- context [for_each (mpc_entries payload) ?f _] =>
          change f with (plan_entry_step plan)
      end.
      rewrite Hrun. simpl. repeat split; eauto.
    + simpl. repeat split; eauto. intros Hc _ Hfresh. exfalso.
      unfold db1 in Hc1. rewrite (constraints_ok_add_plan db plan Hc Hfresh) in Hc1.
      discriminate.
  - (* one plan for the week: its entries are cleared *)
    set (db1 := with_entries
                  (filter (fun e => negb (String.eqb (entry_meal_plan_id e) (plan_id plan))))
                  db).
    destruct (constraints_ok db1) eqn:Hc1.
    + destruct (plan_entries_loop_raises db plan (mpc_entries payload) Hex
                  {| committed := db; pending := db1 |} eq_refl)
        as (missing & s' & Hin & Hm & Hrun & Hcom).
      match goal with
      | |- context [for_each (mpc_entries payload) ?f _] =>
          change f with (plan_entry_step plan)
      end.
      rewrite Hrun. simpl. repeat split; eauto.
    + simpl. repeat split; eauto. intros Hc _ _. exfalso.
      unfold db1 in Hc1. rewrite (constraints_ok_clear_entries db _ Hc) in Hc1.
      discriminate.
  - (* several plans for the week *)
    simpl. repeat split; eauto. intros _ Hlen. simpl in Hlen. lia.
Qed.

Lemma create_meal_plan_missing_recipe_witness :
  run_request (create_meal_plan unknown_recipe_payload "p2") omelette_db
  = (Raise (HTTPException 404 "Recipe r2 not found"), omelette_db)
  /\ snd (run_request (create_meal_plan unknown_recipe_payload "p2") omelette_db)
     = omelette_db
  /\ exists missing,
       In missing (mpc_entries unknown_recipe_payload)
       /\ recipe_missing omelette_db missing
       /\ fst (run_request (create_meal_plan unknown_recipe_payload "p2") omelette_db)
          = Raise (not_found missing).
Proof.
  split; [vm_compute; reflexivity|].
  assert (Hex : Exists (recipe_missing omelette_db) (mpc_entries unknown_recipe_payload))
    by (apply Exists_cons_tl, Exists_cons_hd; reflexivity).
  destruct (create_meal_plan_missing_recipe omelette_db unknown_recipe_payload "p2" Hex)
    as (Hdb & _ & Hout).
  split; [exact Hdb|].
  apply Hout; [reflexivity | simpl; lia | reflexivity].
Defined.

(** On full success the entries of the week's plan are replaced. *)
Lemma create_meal_plan_replaces_entries :
  meal_plan_entries
    (snd (run_request
            (create_meal_plan
               {| mpc_week_start := 739000;
                  mpc_entries :=
                    [ {| mpec_day := "Tuesday"; mpec_meal := "Lunch";
                         mpec_recipe_id := "r1"; mpec_servings := 2%float |} ] |}
               "p2")
            omelette_db))
  = [ {| entry_meal_plan_id := "p1"; entry_recipe_id := "r1"; entry_day := "tuesday";
         entry_meal := "lunch"; entry_servings := 2%float |} ].
Proof. vm_compute. reflexivity. Qed.

(** ** The order of a plan's entries *)

Lemma ascii_compare_refl (c : ascii) : Ascii.compare c c = Eq.
Proof. unfold Ascii.compare. apply N.compare_refl. Qed.

Lemma ascii_compare_lt_trans (a b c : ascii) :
  Ascii.compare a b = Lt -> Ascii.compare b c = Lt -> Ascii.compare a c = Lt.
Proof.
  unfold Ascii.compare. rewrite !N.compare_lt_iff. apply N.lt_trans.
Qed.

Lemma string_compare_refl (s : string) : String.compare s s = Eq.
Proof.
  induction s as [|c s IH]; simpl; [reflexivity|]. rewrite ascii_compare_refl. exact IH.
Qed.

Lemma string_compare_lt_trans (s1 : string) : forall s2 s3,
  String.compare s1 s2 = Lt -> String.compare s2 s3 = Lt -> String.compare s1 s3 = Lt.
Proof.
  induction s1 as [|c1 s1 IH]; intros [|c2 s2] [|c3 s3]; simpl; try discriminate; auto.
  destruct (Ascii.compare c1 c2) eqn:E12; try discriminate;
    destruct (Ascii.compare c2 c3) eqn:E23; try discriminate; intros H1 H2.
  - apply Ascii.compare_eq_iff in E12, E23. subst. rewrite ascii_compare_refl.
    exact (IH _ _ H1 H2).
  - apply Ascii.compare_eq_iff in E12. subst. rewrite E23. reflexivity.
  - apply Ascii.compare_eq_iff in E23. subst. rewrite E12. reflexivity.
  - rewrite (ascii_compare_lt_trans _ _ _ E12 E23). reflexivity.
Qed.

Lemma string_leb_trans (s1 s2 s3 : string) :
  String.leb s1 s2 = true -> String.leb s2 s3 = true -> String.leb s1 s3 = true.
Proof.
  unfold String.leb.
  destruct (String.compare s1 s2) eqn:E12; try discriminate;
    destruct (String.compare s2 s3) eqn:E23; try discriminate; intros _ _.
  - apply String.compare_eq_iff in E12, E23. subst. rewrite string_compare_refl. reflexivity.
  - apply String.compare_eq_iff in E12. subst. rewrite E23. reflexivity.
  - apply String.compare_eq_iff in E23. subst. rewrite E12. reflexivity.
  - rewrite (string_compare_lt_trans _ _ _ E12 E23). reflexivity.
Qed.

Lemma slot_leb_total (a b : MealPlanEntry) : slot_leb a b = false -> slot_leb b a = true.
Proof.
  unfold slot_leb. rewrite (String.compare_antisym (entry_day b) (entry_day a)).
  destruct (String.compare (entry_day a) (entry_day b)); simpl; try discriminate; auto.
  intros H. destruct (String.leb_total (entry_meal a) (entry_meal b)); congruence.
Qed.

Lemma slot_leb_trans (a b c : MealPlanEntry) :
  slot_leb a b = true -> slot_leb b c = true -> slot_leb a c = true.
Proof.
  unfold slot_leb.
  destruct (String.compare (entry_day a) (entry_day b)) eqn:E12; try discriminate;
    destruct (String.compare (entry_day b) (entry_day c)) eqn:E23; try discriminate;
    intros H1 H2.
  - apply String.compare_eq_iff in E12, E23. rewrite E12, E23, string_compare_refl.
    exact (string_leb_trans _ _ _ H1 H2).
  - apply String.compare_eq_iff in E12. rewrite E12, E23. reflexivity.
  - apply String.compare_eq_iff in E23. rewrite <- E23, E12. reflexivity.
  - rewrite (string_compare_lt_trans _ _ _ E12 E23). reflexivity.
Qed.

Lemma slot_leb_antisym (a b : MealPlanEntry) :
  slot_leb a b = true -> slot_leb b a = true ->
  entry_day a = entry_day b /\ entry_meal a = entry_meal b.
Proof.
  unfold slot_leb. rewrite (String.compare_antisym (entry_day b) (entry_day a)).
  destruct (String.compare (entry_day a) (entry_day b)) eqn:E; simpl; try discriminate.
  intros H1 H2. split; [apply String.compare_eq_iff, E | apply String.leb_antisym; assumption].
Qed.

Lemma insert_by_slot_perm (entry : MealPlanEntry) (l : list MealPlanEntry) :
  Permutation (entry :: l) (insert_by_slot entry l).
Proof.
  induction l as [|x l IH]; simpl; [apply Permutation_refl|].
  destruct (slot_leb entry x); [apply Permutation_refl|].
  eapply Permutation_trans; [apply perm_swap|]. apply perm_skip, IH.
Qed.

Lemma order_by_slot_perm (l : list MealPlanEntry) : Permutation l (order_by_slot l).
Proof.
  induction l as [|x l IH]; simpl; [constructor|].
  eapply Permutation_trans; [apply perm_skip, IH | apply insert_by_slot_perm].
Qed.

Lemma insert_by_slot_sorted (entry : MealPlanEntry) (l : list MealPlanEntry) :
  Sorted (fun a b => slot_leb a b = true) l ->
  Sorted (fun a b => slot_leb a b = true) (insert_by_slot entry l).
Proof.
  induction 1 as [|x l Hs IH Hh]; simpl; [repeat constructor|].
  destruct (slot_leb entry x) eqn:E.
  - constructor; [constructor; assumption | constructor; exact E].
  - constructor; [exact IH|]. apply slot_leb_total in E.
    destruct Hh as [|y l' Hxy]; simpl; [constructor; exact E|].
    destruct (slot_leb entry y); constructor; assumption.
Qed.

Lemma order_by_slot_sorted (l : list MealPlanEntry) :
  Sorted (fun a b => slot_leb a b = true) (order_by_slot l).
Proof.
  induction l as [|x l IH]; simpl; [constructor | apply insert_by_slot_sorted, IH].
Qed.

Lemma order_by_slot_strongly_sorted (l : list MealPlanEntry) :
  StronglySorted (fun a b => slot_leb a b = true) (order_by_slot l).
Proof.
  apply Sorted_StronglySorted; [|apply order_by_slot_sorted].
  intros a b c. apply slot_leb_trans.
Qed.

(** Two sorted arrangements of the same rows are the same list, when no two
    rows share a place in the order. *)
Lemma sorted_arrangement_unique (l1 : list MealPlanEntry) : forall l2,
  StronglySorted (fun a b => slot_leb a b = true) l1 ->
  StronglySorted (fun a b => slot_leb a b = true) l2 ->
  Permutation l1 l2 ->
  (forall a b, In a l1 -> In b l1 -> slot_leb a b = true -> slot_leb b a = true -> a = b) ->
  l1 = l2.
Proof.
  induction l1 as [|x1 t1 IH]; intros l2 S1 S2 P Hanti.
  - apply Permutation_nil in P. subst. reflexivity.
  - destruct l2 as [|x2 t2]; [apply Permutation_sym, Permutation_nil in P; discriminate|].
    inversion S1 as [|? ? S1' F1]; inversion S2 as [|? ? S2' F2]; subst.
    assert (E : x1 = x2).
    { assert (H1 : In x1 (x2 :: t2))
        by (apply (Permutation_in _ P); left; reflexivity).
      assert (H2 : In x2 (x1 :: t1))
        by (apply (Permutation_in _ (Permutation_sym P)); left; reflexivity).
      destruct H1 as [H1|H1]; [symmetry; exact H1|].
      destruct H2 as [H2|H2]; [exact H2|].
      rewrite Forall_forall in F1, F2.
      apply Hanti; [left; reflexivity | right; exact H2 | apply F1, H2 | apply F2, H1]. }
    subst x2. f_equal. apply IH; try assumption.
    + exact (Permutation_cons_inv P).
    + intros a b Ha Hb. apply Hanti; right; assumption.
Qed.

Lemma distinct_slots_inj (l : list MealPlanEntry) :
  distinct slot_eqb (map entry_slot l) = true ->
  forall a b, In a l -> In b l -> entry_slot a = entry_slot b -> a = b.
Proof.
  induction l as [|x l IH]; simpl; [intros _ a b []|].
  intros H a b Ha Hb E. apply andb_true_iff in H as [Hx H].
  apply negb_true_iff in Hx.
  assert (Hrefl : forall s, slot_eqb s s = true)
    by (intros [[p d] m]; simpl; rewrite !String.eqb_refl; reflexivity).
  assert (Hno : forall c, In c l -> entry_slot x = entry_slot c -> False).
  { intros c Hc Ec.
    assert (K : existsb (slot_eqb (entry_slot x)) (map entry_slot l) = true).
    { apply existsb_exists. exists (entry_slot c). split; [apply in_map, Hc|].
      rewrite Ec. apply Hrefl. }
    congruence. }
  destruct Ha as [<-|Ha], Hb as [<-|Hb]; try reflexivity.
  - exfalso. exact (Hno b Hb E).
  - exfalso. exact (Hno a Ha (eq_sym E)).
  - exact (IH H a b Ha Hb E).
Qed.

(** The entries of a plan are read in the same order however they are
    stored. *)
Lemma entries_of_storage_order (db db' : DB) (plan : MealPlan) :
  distinct slot_eqb (map entry_slot (meal_plan_entries db)) = true ->
  Permutation (meal_plan_entries db) (meal_plan_entries db') ->
  entries_of db' plan = entries_of db plan.
Proof.
  intros D P. unfold entries_of.
  set (p := fun e => String.eqb (entry_meal_plan_id e) (plan_id plan)).
  symmetry. apply sorted_arrangement_unique; try apply order_by_slot_strongly_sorted.
  - eapply Permutation_trans; [apply Permutation_sym, order_by_slot_perm|].
    eapply Permutation_trans; [|apply order_by_slot_perm].
    clear D. induction P; simpl; try destruct (p x); try destruct (p y);
      eauto using Permutation.
  - intros a b Ha Hb Hab Hba.
    apply (Permutation_in _ (Permutation_sym (order_by_slot_perm _))) in Ha, Hb.
    apply filter_In in Ha as [Ha Pa], Hb as [Hb Pb].
    apply (distinct_slots_inj _ D a b Ha Hb).
    destruct (slot_leb_antisym a b Hab Hba) as [Ed Em].
    unfold p in Pa, Pb. apply String.eqb_eq in Pa, Pb.
    unfold entry_slot. congruence.
Qed.

(** ** Demand aggregation *)

Lemma key_eqb_eq (a b : key) : key_eqb a b = true <-> a = b.
Proof.
  destruct a as [a1 a2], b as [b1 b2]. unfold key_eqb. simpl.
  rewrite andb_true_iff, !String.eqb_eq. split; [intros [-> ->]; reflexivity|].
  intros H. inversion H. split; reflexivity.
Qed.

Lemma key_eqb_refl (a : key) : key_eqb a a = true.
Proof. apply key_eqb_eq. reflexivity. Qed.

Lemma fold_add_ingredient (servings : float) (ingredients : list RecipeIngredient) :
  forall acc,
    fst (fold_left (add_ingredient servings) ingredients acc)
    = fold_left add_contribution
        (map (fun i => (ingredient_key i, (ing_quantity i * servings)%float)) ingredients)
        (fst acc).
Proof.
  induction ingredients as [|i l IH]; intros [required units]; simpl; [reflexivity|].
  rewrite IH. reflexivity.
Qed.

Lemma aggregate_contributions (db : DB) (entries : list MealPlanEntry) :
  fst (aggregate db entries) = fold_left add_contribution (contributions db entries) [].
Proof.
  unfold aggregate.
  change (@nil (key * float)) with (fst (@nil (key * float), @nil (key * option string))) at 2.
  generalize (@nil (key * float), @nil (key * option string)).
  induction entries as [|e l IH]; intros acc; simpl; [reflexivity|].
  rewrite fold_left_app, IH. f_equal. unfold add_entry.
  destruct (recipe_of db e); [apply fold_add_ingredient | reflexivity].
Qed.

Lemma dict_get_set {V : Type} (d : dict V) (k k' : key) (v : V) :
  dict_get (dict_set d k v) k' = if key_eqb k k' then Some v else dict_get d k'.
Proof.
  induction d as [|[k0 v0] d IH]; simpl; [reflexivity|].
  destruct (key_eqb k0 k) eqn:E0; simpl.
  - apply key_eqb_eq in E0. subst k0. destruct (key_eqb k k'); reflexivity.
  - rewrite IH. destruct (key_eqb k0 k') eqn:E1; [|reflexivity].
    apply key_eqb_eq in E1. subst k'.
    destruct (key_eqb k k0) eqn:E2; [|reflexivity].
    apply key_eqb_eq in E2. subst k0. rewrite key_eqb_refl in E0. discriminate.
Qed.

Lemma running_sum_some (xs : list float) : forall a,
  running_sum (Some a) xs = Some (fold_left PrimFloat.add xs a).
Proof. induction xs as [|x xs IH]; intros a; simpl; [reflexivity | apply IH]. Qed.

Lemma dict_get_contributions (k : key) (cs : list (key * float)) : forall d,
  dict_get (fold_left add_contribution cs d) k = running_sum (dict_get d k) (summands k cs).
Proof.
  induction cs as [|[kc x] cs IH]; intros d; simpl; [reflexivity|].
  rewrite IH. unfold add_contribution, dict_add. simpl. rewrite dict_get_set.
  unfold summands. simpl.
  destruct (key_eqb kc k) eqn:E; [|reflexivity].
  apply key_eqb_eq in E. subst kc. reflexivity.
Qed.

Lemma Permutation_summands (k : key) (cs cs' : list (key * float)) :
  Permutation cs cs' -> Permutation (summands k cs) (summands k cs').
Proof.
  unfold summands. intros H. apply Permutation_map.
  induction H as [|c l l' _ IH|c c' l|l l' l'' _ IH1 _ IH2]; simpl.
  - constructor.
  - destruct (key_eqb (fst c) k); [constructor|]; exact IH.
  - destruct (key_eqb (fst c) k), (key_eqb (fst c') k);
      try apply Permutation_refl. constructor.
  - exact (Permutation_trans IH1 IH2).
Qed.

Lemma demand_summands (db : DB) (entries : list MealPlanEntry) (k : key) :
  demand db entries k =
    match summands k (contributions db entries) with
    | [] => None
    | xs => Some (fold_left PrimFloat.add xs 0%float)
    end.
Proof.
  unfold demand. rewrite aggregate_contributions, dict_get_contributions. simpl.
  destruct (summands k (contributions db entries)) as [|x xs]; [reflexivity|].
  simpl. apply running_sum_some.
Qed.

Lemma add_entry_same_recipes (db db' : DB) :
  recipes db' = recipes db -> recipe_ingredients db' = recipe_ingredients db ->
  forall entries acc,
    fold_left (add_entry db') entries acc = fold_left (add_entry db) entries acc.
Proof.
  intros Hr Hi. induction entries as [|e l IH]; intros acc; simpl; [reflexivity|].
  rewrite IH. f_equal.
  unfold add_entry, recipe_of, get_recipe, ingredients_of. rewrite Hr, Hi. reflexivity.
Qed.

Lemma demand_same_recipes (db db' : DB) (entries : list MealPlanEntry) (k : key) :
  recipes db' = recipes db -> recipe_ingredients db' = recipe_ingredients db ->
  demand db' entries k = demand db entries k.
Proof.
  intros Hr Hi. unfold demand, aggregate.
  rewrite (add_entry_same_recipes db db' Hr Hi). reflexivity.
Qed.

Lemma constraints_ok_entries (db : DB) :
  constraints_ok db = true ->
  distinct slot_eqb (map entry_slot (meal_plan_entries db)) = true.
Proof.
  intros H. apply constraints_ok_unique in H. unfold unique_ok in H.
  apply andb_true_iff in H as [_ H]. exact H.
Qed.

(** C8 (amended). The demand of a key is the floating-point sum, taken from
    0.0 in the order the plan's entries are read (by day, then by meal; the
    ingredients of a recipe in their order), of quantity * servings over the
    contributing pairs.  The order in which the entries are stored does not
    matter; a permutation of the list the loop runs over leaves the keys that
    have a demand, and the summands of each key, the same. *)
Theorem demand_additive (db : DB) (plan : MealPlan) (k : key) :
  let entries := entries_of db plan in
  demand db entries k
  = match summands k (contributions db entries) with
    | [] => None
    | xs => Some (fold_left PrimFloat.add xs 0%float)
    end
  /\ Sorted (fun a b => slot_leb a b = true) entries
  /\ (forall db',
        constraints_ok db = true ->
        recipes db' = recipes db -> recipe_ingredients db' = recipe_ingredients db ->
        Permutation (meal_plan_entries db) (meal_plan_entries db') ->
        demand db' (entries_of db' plan) k = demand db entries k)
  /\ (forall entries',
        Permutation entries entries' ->
        Permutation (summands k (contributions db entries))
                    (summands k (contributions db entries'))
        /\ (demand db entries k = None <-> demand db entries' k = None)).
Proof.
  cbv zeta. split; [apply demand_summands|].
  split; [apply order_by_slot_sorted|]. split.
  - intros db' Hc Hr Hi HP.
    rewrite (entries_of_storage_order db db' plan (constraints_ok_entries db Hc) HP).
    apply demand_same_recipes; assumption.
  - intros entries' HP.
    assert (HS : Permutation (summands k (contributions db (entries_of db plan)))
                             (summands k (contributions db entries'))).
    { apply Permutation_summands. unfold contributions. apply Permutation_flat_map, HP. }
    split; [exact HS|].
    rewrite !demand_summands.
    destruct (summands k (contributions db (entries_of db plan))) as [|x xs] eqn:E1,
             (summands k (contributions db entries')) as [|y ys] eqn:E2;
      try (split; intros; [reflexivity || discriminate ..]).
    + apply Permutation_nil in HS. discriminate.
    + apply Permutation_sym, Permutation_nil in HS. discriminate.
Qed.

(** C8 as stated fails: two weeks with the same three contributions to the
    flour, 0.1, 0.2 and 0.3 kg, planned on the days in opposite orders, have
    the demands 0.6000000000000001 and 0.6; with 0.6 kg in stock the first
    puts flour on the shopping list and the second does not. *)
Lemma demand_depends_on_entry_order :
  constraints_ok (flour_store flour_week flour_stock) = true
  /\ constraints_ok (flour_store flour_week_swapped flour_stock) = true
  /\ Permutation
       (contributions flour_db (entries_of flour_db flour_plan))
       (contributions (flour_store flour_week_swapped [])
                      (entries_of (flour_store flour_week_swapped []) flour_plan))
  /\ demand flour_db (entries_of flour_db flour_plan) ("flour", "kg")
     = Some 0.6000000000000001%float
  /\ demand (flour_store flour_week_swapped [])
            (entries_of (flour_store flour_week_swapped []) flour_plan) ("flour", "kg")
     = Some 0.6%float
  /\ demand flour_db (entries_of flour_db flour_plan) ("flour", "kg")
     <> demand (flour_store flour_week_swapped [])
               (entries_of (flour_store flour_week_swapped []) flour_plan) ("flour", "kg")
  /\ fst (run_request (generate_shopping_list 739000) (flour_store flour_week flour_stock))
     = Ok {| slr_week_start := 739000;
             slr_items := [ {| sli_name := "Flour"; sli_quantity := 0%float;
                               sli_unit := Some "kg" |} ] |}
  /\ fst (run_request (generate_shopping_list 739000)
                      (flour_store flour_week_swapped flour_stock))
     = Ok {| slr_week_start := 739000; slr_items := [] |}.
Proof.
  split; [reflexivity|]. split; [reflexivity|]. split.
  { change (Permutation [(("flour", "kg"), (0.1 * 1)%float); (("flour", "kg"), (0.2 * 1)%float);
                         (("flour", "kg"), (0.3 * 1)%float)]
                        [(("flour", "kg"), (0.3 * 1)%float); (("flour", "kg"), (0.2 * 1)%float);
                         (("flour", "kg"), (0.1 * 1)%float)]).
    apply (Permutation_rev [(("flour", "kg"), (0.1 * 1)%float);
                            (("flour", "kg"), (0.2 * 1)%float);
                            (("flour", "kg"), (0.3 * 1)%float)]). }
  split; [vm_compute; reflexivity|].
  split; [vm_compute; reflexivity|].
  split.
  { intros H.
    apply (f_equal (fun o => match o with
                             | Some x => (x =? 0.6)%float
                             | None => false
                             end)) in H.
    vm_compute in H. discriminate. }
  split; vm_compute; reflexivity.
Qed.

Lemma demand_additive_witness :
  demand flour_db (entries_of flour_db flour_plan) ("flour", "kg")
  = Some (fold_left PrimFloat.add [0.1 * 1; 0.2 * 1; 0.3 * 1]%float 0%float)
  /\ demand (flour_store flour_week_reversed []) 
            (entries_of (flour_store flour_week_reversed []) flour_plan) ("flour", "kg")
     = demand flour_db (entries_of flour_db flour_plan) ("flour", "kg").
Proof.
  destruct (demand_additive flour_db flour_plan ("flour", "kg")) as (E & _ & S & _).
  split; [exact E|].
  apply S; try reflexivity.
  apply (Permutation_rev [planned "monday" "bread"; planned "tuesday" "cake";
                          planned "wednesday" "pasta"]).
Defined.

(** ** The shopping list *)

Lemma mapM_Forall2 {A B : Type} (f : A -> result B) (l : list A) : forall ys,
  mapM f l = Ok ys -> Forall2 (fun x y => f x = Ok y) l ys.
Proof.
  induction l as [|x l IH]; simpl; intros ys H.
  - inversion H. constructor.
  - destruct (f x) as [y|e] eqn:E; simpl in H; [|discriminate].
    destruct (mapM f l) as [ys'|e]; simpl in H; [|discriminate].
    inversion H. constructor; [exact E | apply IH; reflexivity].
Qed.

Lemma mapM_total {A B : Type} (f : A -> result B) (l : list A) :
  (forall x, exists y, f x = Ok y) -> exists ys, mapM f l = Ok ys.
Proof.
  intros H. induction l as [|x l [ys IH]]; simpl; [eexists; reflexivity|].
  destruct (H x) as [y ->]. rewrite IH. simpl. eexists. reflexivity.
Qed.

Lemma dict_set_keys {V : Type} (d : dict V) (k : key) (v : V) (k' : key) :
  In k' (map fst (dict_set d k v)) -> k' = k \/ In k' (map fst d).
Proof.
  induction d as [|[k0 v0] d IH]; simpl.
  - intros [H|[]]. left. symmetry. exact H.
  - destruct (key_eqb k0 k); simpl; intros [H|H]; auto.
    destruct (IH H); auto.
Qed.

Lemma dict_set_NoDup {V : Type} (d : dict V) (k : key) (v : V) :
  NoDup (map fst d) -> NoDup (map fst (dict_set d k v)).
Proof.
  induction d as [|[k0 v0] d IH]; simpl; intros H.
  - constructor; [intros [] | constructor].
  - inversion H as [|? ? Hn Hd]; subst.
    destruct (key_eqb k0 k) eqn:E; simpl; [constructor; assumption|].
    constructor; [|apply IH, Hd].
    intros Hin. apply dict_set_keys in Hin as [Hin|Hin]; [|exact (Hn Hin)].
    subst k0. rewrite key_eqb_refl in E. discriminate.
Qed.

Lemma required_keys_NoDup (db : DB) (entries : list MealPlanEntry) :
  NoDup (map fst (fst (aggregate db entries))).
Proof.
  rewrite aggregate_contributions.
  assert (H : NoDup (map fst (@nil (key * float)))) by constructor.
  revert H. generalize (@nil (key * float)).
  induction (contributions db entries) as [|c cs IH]; intros d H; simpl; [exact H|].
  apply IH. unfold add_contribution, dict_add. apply dict_set_NoDup, H.
Qed.

Lemma shopping_items_for_emitted (db : DB) (units : dict (option string))
    (row : key * float) (items : list ShoppingListItem) :
  shopping_items_for db (inventory_totals db) units row = Ok items ->
  emitted_for db units row items.
Proof.
  destruct row as [k needed]. unfold shopping_items_for, emitted_for.
  set (available := match dict_get (inventory_totals db) k with
                    | Some v => v
                    | None => 0%float
                    end).
  intros H.
  assert (Hpos : (0 <? needed - available)%float = false -> items = []).
  { intros E. rewrite E in H. inversion H. reflexivity. }
  split; [|split].
  - intros E. rewrite E in H.
    destruct (find_display_name (fst k) db) as [name|e]; simpl in H; [|discriminate].
    exists name, (PyFloat.round (needed - available) 2). inversion H.
    split; [reflexivity|]. split; [apply round_rounded | reflexivity].
  - exact Hpos.
  - intros E. apply Hpos, leb_sub_not_positive, E.
Qed.

(** C5. In a generated shopping list each demand key (they are pairwise
    distinct; the demand is that of the plan's entries in the order they are
    read) puts exactly one item on the list when its deficit, demand minus
    available stock (0 for a key with no inventory), is strictly positive,
    and none otherwise; the item's quantity is the deficit rounded to two
    decimal places (the double nearest to the nearest hundredth, ties to the
    even hundredth) and its unit the one recorded for the key.  A key whose
    demand is at most the available stock puts nothing on the list. *)
Theorem shopping_list_deficit (db : DB) (week_start : date) (resp : ShoppingListResponse) :
  fst (run_request (generate_shopping_list week_start) db) = Ok resp ->
  exists plan emitted,
    plans_for_week week_start db = [plan]
    /\ NoDup (map fst (fst (aggregate db (entries_of db plan))))
    /\ slr_items resp = List.concat emitted
    /\ Forall2 (emitted_for db (snd (aggregate db (entries_of db plan))))
               (fst (aggregate db (entries_of db plan))) emitted.
Proof.
  unfold run_request, generate_shopping_list.
  cbv beta iota zeta delta [bindM query lift pending committed].
  destruct (plans_for_week week_start db) as [|plan [|plan' rows]] eqn:Hrows;
    cbv beta iota zeta delta [one_or_none raise]; try (simpl; discriminate).
  destruct (aggregate db (entries_of db plan)) as [required units] eqn:Ha.
  destruct (mapM (shopping_items_for db (inventory_totals db) units) required)
    as [emitted|e] eqn:Hm; simpl; [|discriminate].
  intros H. inversion H; subst resp. simpl.
  exists plan, emitted. split; [reflexivity|].
  split; [apply required_keys_NoDup|].
  split; [reflexivity|].
  rewrite Ha. simpl fst. simpl snd.
  apply mapM_Forall2 in Hm.
  eapply Forall2_impl; [|exact Hm].
  intros row items. apply shopping_items_for_emitted.
Qed.

Lemma shopping_list_deficit_witness :
  fst (run_request (generate_shopping_list 739000) omelette_db) = Ok omelette_list
  /\ exists plan emitted,
       plans_for_week 739000 omelette_db = [plan]
       /\ NoDup (map fst (fst (aggregate omelette_db (entries_of omelette_db plan))))
       /\ slr_items omelette_list = List.concat emitted
       /\ Forall2 (emitted_for omelette_db
                     (snd (aggregate omelette_db (entries_of omelette_db plan))))
                  (fst (aggregate omelette_db (entries_of omelette_db plan))) emitted.
Proof.
  split; [vm_compute; reflexivity|].
  apply (shopping_list_deficit omelette_db 739000 omelette_list).
  vm_compute. reflexivity.
Defined.

(** The list is produced, and nothing is written, whenever the week has its
    plan and the constraints of the schema hold. *)
Lemma find_display_name_ok (db : DB) (normalized_name : string) :
  constraints_ok db = true ->
  exists display_name, find_display_name normalized_name db = Ok display_name.
Proof.
  intros Hc. destruct (constraints_ok_inventory db Hc) as [_ D].
  unfold find_display_name, items_named.
  destruct (one_or_none_distinct item_normalized_name normalized_name _ D) as [o ->].
  simpl. destruct o as [item|]; [eexists; reflexivity|].
  destruct (first _); eexists; reflexivity.
Qed.

Lemma generate_shopping_list_succeeds (db : DB) (week_start : date) (plan : MealPlan) :
  constraints_ok db = true ->
  plans_for_week week_start db = [plan] ->
  exists resp, run_request (generate_shopping_list week_start) db = (Ok resp, db).
Proof.
  intros Hc Hp. unfold run_request, generate_shopping_list.
  cbv beta iota zeta delta [bindM query lift pending committed]. rewrite Hp.
  cbv beta iota zeta delta [one_or_none].
  destruct (aggregate db (entries_of db plan)) as [required units].
  destruct (mapM_total (shopping_items_for db (inventory_totals db) units) required)
    as [items Hm].
  - intros [k needed]. unfold shopping_items_for.
    destruct (0 <? _)%float; [|eexists; reflexivity].
    destruct (find_display_name_ok db (fst k) Hc) as [name ->]. eexists. reflexivity.
  - rewrite Hm. eexists. reflexivity.
Qed.

(** * Further properties of the scraper *)

(** ** The parser's exceptions and names *)

Lemma int_true_divide_raises (n d : Z) (e : exn) :
  PyFloat.int_true_divide n d = Raise e -> e = ZeroDivisionError \/ e = OverflowError.
Proof.
  unfold PyFloat.int_true_divide.
  destruct d, n; try discriminate; try (intros H; inversion H; auto; fail);
    destruct (PyFloat.quotient _ _); intros H; inversion H; auto.
Qed.

Lemma int_raises (s : string) (e : exn) : int s = Raise e -> e = ValueError.
Proof.
  unfold int. destruct (take_sign s) as [neg body].
  destruct (span_grouped body) as [grouped rest].
  destruct (_ || _); [intros H; inversion H; reflexivity|].
  destruct (_ <? _); intros H; inversion H; reflexivity.
Qed.

Lemma Fraction_outcome (text : string) :
  match Fraction text with
  | Ok (n, d) => d <> 0
  | Raise e => e = ValueError \/ e = ZeroDivisionError
  end.
Proof.
  assert (Hend : forall (neg : bool) (numerator denominator : Z),
            match (if denominator =? 0 then Raise ZeroDivisionError
                   else Ok ((if neg then - numerator else numerator)
                              / Z.gcd (if neg then - numerator else numerator) denominator,
                            denominator
                              / Z.gcd (if neg then - numerator else numerator) denominator))
            with
            | Ok (n, d) => d <> 0
            | Raise e => e = ValueError \/ e = ZeroDivisionError
            end).
  { intros neg numerator denominator.
    destruct (denominator =? 0) eqn:E; [auto|]. apply Z.eqb_neq in E. intros Hd.
    pose proof (Z.gcd_divide_r (if neg then - numerator else numerator) denominator) as [k Hk].
    rewrite Hk in Hd at 1. rewrite Z.div_mul in Hd.
    - subst k. lia.
    - intros Hg. rewrite Hg in Hk. lia. }
  unfold Fraction. destruct (rational_format text) as [m|]; [|auto].
  repeat match goal with
         | |- context [int ?s] =>
             let E := fresh "E" in
             destruct (int s) eqn:E; [|apply int_raises in E; subst]; cbn [bind]
         | |- context [match ?x with Some _ => _ | None => _ end] => destruct x; cbn [bind]
         | |- context [if is_empty ?x then _ else _] => destruct (is_empty x); cbn [bind]
         | |- context [if 0 <=? ?x then _ else _] => destruct (0 <=? x); cbn [bind]
         end; auto; apply Hend.
Qed.

Lemma Fraction_raises (text : string) (e : exn) :
  Fraction text = Raise e -> e = ValueError \/ e = ZeroDivisionError.
Proof. intros H. pose proof (Fraction_outcome text) as Ho. rewrite H in Ho. exact Ho. Qed.

Lemma Fraction_denominator (text : string) (n d : Z) :
  Fraction text = Ok (n, d) -> d <> 0.
Proof. intros H. pose proof (Fraction_outcome text) as Ho. rewrite H in Ho. exact Ho. Qed.

Lemma float_of_Fraction_raises (text : string) (e : exn) :
  float_of_Fraction text = Raise e ->
  e = ValueError \/ e = ZeroDivisionError
  \/ (e = OverflowError /\ exists n d, Fraction text = Ok (n, d)).
Proof.
  unfold float_of_Fraction. destruct (Fraction text) as [[n d]|e'] eqn:EF; simpl.
  - intros H. pose proof (Fraction_denominator text n d EF) as Hd.
    unfold PyFloat.int_true_divide in H.
    destruct d; [congruence| |];
      (destruct n; [discriminate| |]);
      destruct (PyFloat.quotient _ _); inversion H; eauto 6.
  - intros H. inversion H. subst. destruct (Fraction_raises text e EF); auto.
Qed.

(** X1. The only exception that leaves the parser is [OverflowError], and it
    does so exactly when the first token reads as a fraction whose value is
    too large for a float.  (A first token of more than 4300 digits does not
    read as a fraction: it is kept in the name.) *)
Theorem parser_raises_only_overflow (text : string) (e : exn) :
  _split_quantity_unit text = Raise e <->
  e = OverflowError
  /\ exists first rest n d,
       split text = first :: rest
       /\ Fraction first = Ok (n, d)
       /\ PyFloat.int_true_divide n d = Raise OverflowError.
Proof.
  unfold _split_quantity_unit. split.
  - destruct (split text) as [|first rest] eqn:Hs; [discriminate|].
    rewrite (_parse_numeric_token text first rest Hs).
    destruct (float_of_Fraction first) as [f|e'] eqn:Ef; simpl.
    + destruct rest as [|t rest']; [discriminate|].
      destruct (in_units _); discriminate.
    + pose proof (float_of_Fraction_raises first e' Ef) as [->|[->|[-> [n [d Hnd]]]]];
        simpl; try discriminate.
      intros H. inversion H. split; [reflexivity|].
      exists first, rest, n, d. repeat split; auto.
      unfold float_of_Fraction in Ef. rewrite Hnd in Ef. exact Ef.
  - intros [-> (first & rest & n & d & Hs & Hf & Hd)]. rewrite Hs.
    rewrite (_parse_numeric_token text first rest Hs).
    unfold float_of_Fraction. rewrite Hf. simpl. rewrite Hd. reflexivity.
Qed.

Lemma parser_raises_only_overflow_witness :
  (OverflowError = OverflowError
   /\ exists first rest n d,
        split "1e400 g sugar" = first :: rest
        /\ Fraction first = Ok (n, d)
        /\ PyFloat.int_true_divide n d = Raise OverflowError)
  /\ _split_quantity_unit "1e309" = Raise OverflowError.
Proof.
  split.
  - apply (proj1 (parser_raises_only_overflow "1e400 g sugar" OverflowError)).
    vm_compute. reflexivity.
  - apply (proj2 (parser_raises_only_overflow "1e309" OverflowError)).
    split; [reflexivity|]. exists "1e309", [], (10 ^ 309), 1.
    repeat split; vm_compute; reflexivity.
Defined.

Lemma split_empty_text (text : string) (first : string) (rest : list string) :
  split text = first :: rest -> is_empty text = false.
Proof. destruct text; [discriminate | reflexivity]. Qed.

(** X2. A returned name is empty exactly when the line holds no token: a
    line with any content always gets a non-empty name. *)
Theorem parser_name_empty_iff (text : string) (q : float) (u : option string)
    (name : string) :
  _split_quantity_unit text = Ok (q, u, name) ->
  (name = EmptyString <-> split text = []).
Proof.
  unfold _split_quantity_unit.
  destruct (split text) as [|first rest] eqn:Hs.
  - intros H. inversion H. split; reflexivity.
  - pose proof (split_empty_text text first rest Hs) as Ht.
    destruct (_parse_numeric first) as [o|e]; simpl; [|discriminate].
    intros H.
    assert (Hn : exists x, name = or_else x text).
    { destruct o as [f|]; [destruct rest as [|t rest']; [|destruct (in_units _)]|];
        inversion H; subst; eexists; reflexivity. }
    destruct Hn as [x ->]. split; [|discriminate].
    unfold or_else. destruct (is_empty x) eqn:Ex; intros E; subst;
      simpl in *; discriminate.
Qed.

Lemma parser_name_empty_iff_witness :
  ("flour" = EmptyString <-> split "2 cups flour" = [])
  /\ (EmptyString = EmptyString <-> split "   " = []).
Proof.
  split.
  - apply (parser_name_empty_iff "2 cups flour" 2%float (Some "cups") "flour").
    vm_compute. reflexivity.
  - apply (parser_name_empty_iff "   " 1%float None EmptyString).
    vm_compute. reflexivity.
Defined.

(** X3. No token of a line matches the mixed-number pattern: on every token
    [_parse_numeric] is decided by [Fraction] alone. *)
Theorem mixed_number_pattern_matches_no_token (text token : string) :
  In token (split text) ->
  match_mixed (strip token) = None
  /\ _parse_numeric token =
       match float_of_Fraction token with
       | Ok f => Ok (Some f)
       | Raise ValueError | Raise ZeroDivisionError => Ok None
       | Raise e => Raise e
       end.
Proof.
  intros Hin.
  assert (Ht : no_space token = true).
  { pose proof (split_no_space text) as F. rewrite Forall_forall in F. exact (F token Hin). }
  rewrite (no_space_strip token Ht).
  pose proof (match_mixed_token token Ht) as Hm. split; [exact Hm|].
  unfold _parse_numeric. rewrite (no_space_strip token Ht), Hm.
  destruct (float_of_Fraction token) as [f|e]; [reflexivity|].
  destruct e; reflexivity.
Qed.

Lemma mixed_number_pattern_matches_no_token_witness :
  match_mixed (strip "1/2") = None
  /\ _parse_numeric "1/2" =
       match float_of_Fraction "1/2" with
       | Ok f => Ok (Some f)
       | Raise ValueError | Raise ZeroDivisionError => Ok None
       | Raise e => Raise e
       end.
Proof.
  apply (mixed_number_pattern_matches_no_token "2 1/2 cups flour" "1/2").
  simpl. right. left. reflexivity.
Defined.

Lemma split_nonempty (s : string) : Forall (fun t => is_empty t = false) (split s).
Proof.
  induction s as [|c s IH]; simpl; [constructor|].
  destruct (isspace c); [exact IH|].
  destruct s as [|c' s']; [repeat constructor|].
  destruct (isspace c'); [constructor; [reflexivity | exact IH]|].
  destruct (split (String c' s')) as [|t ts]; [repeat constructor|].
  inversion IH; subst. constructor; [reflexivity | assumption].
Qed.

Lemma rstrip_by_app (p : ascii -> bool) (a b : string) :
  is_empty (rstrip_by p b) = false ->
  rstrip_by p (a ++ b) = a ++ rstrip_by p b.
Proof.
  intros Hb. induction a as [|c a IH]; simpl; [reflexivity|].
  rewrite IH. destruct (a ++ rstrip_by p b) eqn:E; [|reflexivity].
  destruct a; simpl in E; [rewrite E in Hb|]; discriminate.
Qed.

Lemma join_tokens_rstrip (ts : list string) :
  Forall (fun t => no_space t = true) ts ->
  Forall (fun t => is_empty t = false) ts ->
  ts <> [] ->
  rstrip_by isspace (join " " ts) = join " " ts
  /\ is_empty (join " " ts) = false.
Proof.
  induction ts as [|t ts IH]; intros Hs He Hn; [congruence|].
  inversion Hs as [|? ? Hs1 Hs2]; inversion He as [|? ? He1 He2]; subst.
  destruct ts as [|t' ts'].
  - simpl. split; [apply no_space_rstrip, Hs1 | exact He1].
  - destruct (IH Hs2 He2 ltac:(discriminate)) as [IH1 IH2].
    change (join " " (t :: t' :: ts')) with (t ++ " " ++ join " " (t' :: ts')).
    split.
    + rewrite rstrip_by_app; rewrite rstrip_by_app; rewrite ?IH1; auto.
    + destruct t; [discriminate | reflexivity].
Qed.

Lemma join_tokens_strip (ts : list string) :
  Forall (fun t => no_space t = true) ts ->
  Forall (fun t => is_empty t = false) ts ->
  ts <> [] ->
  strip (join " " ts) = join " " ts /\ is_empty (join " " ts) = false.
Proof.
  intros Hs He Hn. destruct (join_tokens_rstrip ts Hs He Hn) as [Hr Hj].
  split; [|exact Hj]. unfold strip.
  assert (Hl : lstrip_by isspace (join " " ts) = join " " ts).
  { destruct ts as [|t ts']; [congruence|].
    inversion Hs as [|? ? Hs1 _]; inversion He as [|? ? He1 _]; subst.
    destruct t as [|c t]; [discriminate|].
    simpl in Hs1. apply andb_true_iff in Hs1 as [Hc _]. apply negb_true_iff in Hc.
    destruct ts'; simpl; rewrite Hc; reflexivity. }
  rewrite Hl. exact Hr.
Qed.

(** X4. A line whose first token is not a number comes back whole as the
    name, its tokens joined by single spaces, with quantity 1.0 and no unit
    (even when a later token is a unit word). *)
Theorem parser_keeps_unnumbered_line (text first : string) (rest : list string) :
  split text = first :: rest ->
  _parse_numeric first = Ok None ->
  _split_quantity_unit text = Ok (1%float, None, join " " (first :: rest)).
Proof.
  intros Hs Hn. rewrite (parser_default_quantity text first rest Hs Hn).
  pose proof (split_no_space text) as F1. pose proof (split_nonempty text) as F2.
  rewrite Hs in F1, F2.
  destruct (join_tokens_strip (first :: rest) F1 F2 ltac:(discriminate)) as [E1 E2].
  rewrite E1. unfold or_else. rewrite E2. reflexivity.
Qed.

Lemma parser_keeps_unnumbered_line_witness :
  _split_quantity_unit "  a   pinch of  salt " = Ok (1%float, None, "a pinch of salt").
Proof.
  apply (parser_keeps_unnumbered_line "  a   pinch of  salt " "a" ["pinch"; "of"; "salt"]);
    vm_compute; reflexivity.
Defined.

(** X5. A line whose first token is a number [q]: alone, it keeps the whole
    line as its name; followed by a unit word, that word is the unit and the
    rest the name (the whole line when nothing is left); followed by anything
    else, there is no unit and the rest is the name. *)
Theorem parser_numbered_line (text first : string) (rest : list string) (q : float) :
  split text = first :: rest ->
  _parse_numeric first = Ok (Some q) ->
  _split_quantity_unit text =
    match rest with
    | [] => Ok (q, None, text)
    | t :: more =>
        if in_units (rstrip ".," (lower t))
        then Ok (q, Some t, match more with [] => text | _ => join " " more end)
        else Ok (q, None, join " " rest)
    end.
Proof.
  intros Hs Hn.
  pose proof (split_no_space text) as F1. pose proof (split_nonempty text) as F2.
  rewrite Hs in F1, F2.
  inversion F1 as [|? ? _ G1]; inversion F2 as [|? ? _ G2]; subst.
  unfold _split_quantity_unit. rewrite Hs, Hn. simpl bind. cbv beta iota. simpl tl.
  destruct rest as [|t more]; [reflexivity|].
  destruct (in_units (rstrip ".," (lower t))).
  - destruct more as [|t' more']; [reflexivity|].
    inversion G1; inversion G2; subst.
    destruct (join_tokens_strip (t' :: more')) as [E1 E2]; auto; [discriminate|].
    rewrite E1. unfold or_else. rewrite E2. reflexivity.
  - destruct (join_tokens_strip (t :: more) G1 G2 ltac:(discriminate)) as [E1 E2].
    rewrite E1. unfold or_else. rewrite E2. reflexivity.
Qed.

Lemma parser_numbered_line_witness :
  _split_quantity_unit "1.5  Tbsp,  olive   oil" = Ok (1.5%float, Some "Tbsp,", "olive oil")
  /\ _split_quantity_unit "3 large eggs" = Ok (3%float, None, "large eggs")
  /\ _split_quantity_unit " 2 cups " = Ok (2%float, Some "cups", " 2 cups ").
Proof.
  split; [|split].
  - apply (parser_numbered_line "1.5  Tbsp,  olive   oil" "1.5" ["Tbsp,"; "olive"; "oil"]);
      vm_compute; reflexivity.
  - apply (parser_numbered_line "3 large eggs" "3" ["large"; "eggs"]);
      vm_compute; reflexivity.
  - apply (parser_numbered_line " 2 cups " "2" ["cups"]); vm_compute; reflexivity.
Defined.

(** ** The structured-data path never finds a recipe *)

Lemma locate_recipe_node_spec : forall data,
  _locate_recipe_node data = if has_dict data then Raise TypeError else Ok None.
Proof.
  fix IH 1. intros [ | b | n | f | s | items | fields]; try reflexivity.
  simpl. induction items as [|x xs IHxs]; [reflexivity|].
  rewrite (IH x). destruct (has_dict x); [reflexivity|]. simpl. exact IHxs.
Qed.


(** X6. The search for a Recipe node returns no node on any input: it raises
    [TypeError] as soon as it meets a dict (directly or through lists), and
    answers [None] on everything else. *)
Theorem locate_recipe_node_finds_nothing (data : json) :
  (forall node, _locate_recipe_node data <> Ok (Some node))
  /\ (has_dict data = true -> _locate_recipe_node data = Raise TypeError)
  /\ (has_dict data = false -> _locate_recipe_node data = Ok None).
Proof.
  rewrite locate_recipe_node_spec.
  destruct (has_dict data); repeat split; intros; try discriminate; reflexivity.
Qed.

Lemma locate_recipe_node_finds_nothing_witness :
  _locate_recipe_node (JList [JInt 1; JList [JDict [("@type", JStr "Recipe")]]])
  = Raise TypeError
  /\ _locate_recipe_node (JList [JInt 1; JList [JStr "Recipe"]]) = Ok None.
Proof.
  split.
  - apply (locate_recipe_node_finds_nothing
             (JList [JInt 1; JList [JDict [("@type", JStr "Recipe")]]])).
    reflexivity.
  - apply (locate_recipe_node_finds_nothing (JList [JInt 1; JList [JStr "Recipe"]])).
    reflexivity.
Defined.


(** ** The fallback path *)

Lemma parse_ingredient_text (py_repr : json -> string) (text : string)
    (ingredient : parsed_ingredient) :
  _parse_ingredient py_repr (JStr text) = Ok ingredient -> parsed_from text ingredient.
Proof.
  unfold _parse_ingredient, parsed_from. simpl.
  destruct (_split_quantity_unit (strip text)) as [[[q u] name]|e]; simpl; [|discriminate].
  intros H. inversion H. reflexivity.
Qed.

(** X8. The fallback gives no recipe exactly when the page has no heading or
    no ingredient node; a recipe it gives has the heading as title, the given
    URL, and one ingredient per node, in order, each the parse of the node's
    stripped text. *)
Theorem fallback_extract_spec (py_repr : json -> string) (page : soup) (url : string)
    (outcome : option scraped_recipe) :
  _fallback_extract py_repr page url = Ok outcome ->
  match outcome with
  | None => title_tag page = None \/ ingredient_nodes page = []
  | Some recipe =>
      (exists title, title_tag page = Some title /\ sr_title recipe = JStr title)
      /\ ingredient_nodes page <> []
      /\ Forall2 parsed_from (ingredient_nodes page) (sr_ingredients recipe)
      /\ sr_source_url recipe = url
  end.
Proof.
  unfold _fallback_extract.
  destruct (title_tag page) as [title|]; [|intros H; inversion H; auto].
  destruct (ingredient_nodes page) as [|node nodes] eqn:En;
    [intros H; inversion H; auto|].
  destruct (mapM _ (node :: nodes)) as [parsed|e] eqn:Em; simpl; [|discriminate].
  intros H. inversion H. simpl.
  split; [eauto|]. split; [discriminate|]. split; [|reflexivity].
  apply mapM_Forall2 in Em. eapply Forall2_impl; [|exact Em].
  intros text ingredient. apply parse_ingredient_text.
Qed.

Lemma fallback_extract_spec_witness :
  exists recipe,
    _fallback_extract (fun _ => EmptyString)
      {| ld_json_scripts := []; title_tag := Some "Pancakes";
         ingredient_nodes := ["2 cups flour"; " 3 eggs "]; instructions_nodes := [] |}
      "http://example.com" = Ok (Some recipe)
    /\ Forall2 parsed_from ["2 cups flour"; " 3 eggs "] (sr_ingredients recipe)
    /\ sr_instructions recipe = JNull.
Proof.
  eexists. split; [vm_compute; reflexivity|].
  split; [|reflexivity].
  apply (fallback_extract_spec (fun _ => EmptyString)
           {| ld_json_scripts := []; title_tag := Some "Pancakes";
              ingredient_nodes := ["2 cups flour"; " 3 eggs "]; instructions_nodes := [] |}
           "http://example.com" (Some _)).
  vm_compute. reflexivity.
Defined.

(** ** The JSON-LD path *)

Lemma instructions_steps (py_repr : json -> string) (steps : list string) :
  mapM (fun step =>
          let text :=
            match step with
            | JDict d => por (get d "text") (get d "@type")
            | _ => JStr (py_str py_repr step)
            end in
          if truthy text
          then do t <- strip_method text; Ok [t]
          else Ok []) (map JStr steps)
  = Ok (map (fun s => if is_empty s then [] else [strip s]) steps).
Proof.
  match goal with |- mapM ?f _ = _ => set (body := f) end.
  induction steps as [|s steps IH]; [reflexivity|].
  simpl map.
  change (mapM body (JStr s :: map JStr steps))
    with (do y <- body (JStr s); do ys <- mapM body (map JStr steps); Ok (y :: ys)).
  rewrite IH. unfold body. simpl. destruct (is_empty s); reflexivity.
Qed.

Lemma concat_steps (steps : list string) :
  List.concat (map (fun s => if is_empty s then [] else [strip s]) steps)
  = map strip (filter (fun s => negb (is_empty s)) steps).
Proof.
  induction steps as [|s steps IH]; simpl; [reflexivity|].
  rewrite IH. destruct (is_empty s); reflexivity.
Qed.

Lemma extract_instructions_strings (py_repr : json -> string) (steps : list string) :
  _extract_instructions py_repr (JList (map JStr steps)) = Ok (joined_steps steps).
Proof.
  unfold _extract_instructions, joined_steps.
  destruct steps as [|s steps]; [reflexivity|].
  change (truthy (JList (map JStr (s :: steps)))) with true. cbv beta iota delta [negb].
  rewrite instructions_steps. cbv beta iota delta [bind]. rewrite concat_steps.
  destruct (filter _ (s :: steps)); reflexivity.
Qed.

Lemma parse_lines (py_repr : json -> string) (lines : list string) :
  Forall parses lines ->
  exists parsed,
    mapM (_parse_ingredient py_repr) (map JStr lines) = Ok parsed
    /\ Forall2 parsed_from lines parsed.
Proof.
  induction 1 as [|line lines [[[q u] name] Hp] _ [parsed [Hm Hf]]]; simpl.
  - exists []. split; [reflexivity | constructor].
  - exists ({| pi_name := name; pi_quantity := q; pi_unit := u |} :: parsed).
    unfold _parse_ingredient at 1. simpl. rewrite Hp. simpl. rewrite Hm.
    split; [reflexivity|]. constructor; [exact Hp | exact Hf].
Qed.

(** X23. A JSON-LD recipe node whose [recipeIngredient] is a non-empty list
    of strings the parser returns on, and whose [recipeInstructions] is a
    list of strings, is converted: the title is the node's name, or
    "Untitled Recipe" when that is missing or empty; the ingredients are the
    parses of the stripped lines, in order; the instructions are the
    non-empty steps, stripped, one per line (a step of white space alone
    leaves an empty line), and [None] when no step is left. *)
Theorem convert_recipe_of_strings (py_repr : json -> string) (raw : list (string * json))
    (url : string) (lines steps : list string) :
  get raw "recipeIngredient" = JList (map JStr lines) ->
  lines <> [] ->
  get raw "recipeInstructions" = JList (map JStr steps) ->
  Forall parses lines ->
  exists recipe,
    _convert_recipe py_repr raw url = Ok recipe
    /\ sr_title recipe = por (get raw "name") (JStr "Untitled Recipe")
    /\ truthy (sr_title recipe) = true
    /\ sr_instructions recipe = joined_steps steps
    /\ Forall2 parsed_from lines (sr_ingredients recipe)
    /\ sr_source_url recipe = url.
Proof.
  intros Hi Hne Hs Hp. unfold _convert_recipe.
  rewrite Hs, extract_instructions_strings, Hi. cbv beta iota delta [bind].
  assert (Ht : truthy (JList (map JStr lines)) = true)
    by (destruct lines; [congruence | reflexivity]).
  assert (Hpor : por (por (JList (map JStr lines)) (get raw "ingredients")) (JList [])
                 = JList (map JStr lines))
    by (unfold por; rewrite Ht; rewrite Ht; reflexivity).
  rewrite Hpor. unfold iterate.
  destruct (parse_lines py_repr lines Hp) as [parsed [Hm Hf]]. rewrite Hm.
  eexists. split; [reflexivity|]. simpl.
  repeat split; try assumption.
  unfold por. destruct (truthy (get raw "name")) eqn:E; [exact E | reflexivity].
Qed.

Lemma convert_recipe_of_strings_witness :
  exists recipe,
    _convert_recipe (fun _ => EmptyString)
      [ ("recipeIngredient", JList [JStr "2 cups flour"; JStr " 3 eggs "]);
        ("recipeInstructions", JList [JStr " Mix. "; JStr ""; JStr "Bake."]) ]
      "http://example.com" = Ok recipe
    /\ sr_title recipe = JStr "Untitled Recipe"
    /\ sr_instructions recipe = JStr (join newline ["Mix."; "Bake."])
    /\ List.length (sr_ingredients recipe) = 2%nat.
Proof.
  destruct (convert_recipe_of_strings (fun _ => EmptyString)
              [ ("recipeIngredient", JList [JStr "2 cups flour"; JStr " 3 eggs "]);
                ("recipeInstructions", JList [JStr " Mix. "; JStr ""; JStr "Bake."]) ]
              "http://example.com" ["2 cups flour"; " 3 eggs "] [" Mix. "; ""; "Bake."]
              eq_refl ltac:(discriminate) eq_refl
              ltac:(repeat constructor; eexists; vm_compute; reflexivity))
    as (recipe & H & Ht & _ & Hi & Hf & _).
  exists recipe. split; [exact H|]. split; [exact Ht|]. split; [exact Hi|].
  apply Forall2_length in Hf. symmetry. exact Hf.
Defined.

(** * Further properties of the handlers *)

(** ** Atomicity *)

Lemma uncommitting_ret {A : Type} (a : A) : uncommitting (ret a).
Proof. intros s. reflexivity. Qed.

Lemma uncommitting_raise {A : Type} (e : exn) : uncommitting (@raise A e).
Proof. intros s. reflexivity. Qed.

Lemma uncommitting_lift {A : Type} (r : result A) : uncommitting (lift r).
Proof. intros s. reflexivity. Qed.

Lemma uncommitting_query {A : Type} (q : DB -> A) : uncommitting (query q).
Proof. intros s. reflexivity. Qed.

Lemma uncommitting_modify (f : DB -> DB) : uncommitting (modify f).
Proof. intros s. reflexivity. Qed.

Lemma uncommitting_flush : uncommitting flush.
Proof. intros s. unfold flush. destruct (constraints_ok (pending s)); reflexivity. Qed.

Lemma uncommitting_bind {A B : Type} (m : M A) (k : A -> M B) :
  uncommitting m -> (forall a, uncommitting (k a)) -> uncommitting (bindM m k).
Proof.
  intros Hm Hk s. unfold bindM. specialize (Hm s).
  destruct (m s) as [[a|e] s']; simpl in *; [rewrite Hk|]; exact Hm.
Qed.

Lemma uncommitting_for_each {A : Type} (l : list A) (body : A -> M unit) :
  (forall x, uncommitting (body x)) -> uncommitting (for_each l body).
Proof.
  intros Hb. induction l as [|x l IH]; simpl.
  - apply uncommitting_ret.
  - apply uncommitting_bind; [apply Hb | intros _; exact IH].
Qed.

Lemma atomic_uncommitting {A : Type} (m : M A) : uncommitting m -> atomic m.
Proof. intros H s. right. apply H. Qed.

Lemma atomic_bind {A B : Type} (m : M A) (k : A -> M B) :
  uncommitting m -> (forall a, atomic (k a)) -> atomic (bindM m k).
Proof.
  intros Hm Hk s. unfold bindM. specialize (Hm s).
  destruct (m s) as [[a|e] s']; simpl in *; [|right; exact Hm].
  destruct (Hk a s') as [H|H]; [left; exact H | right; congruence].
Qed.

Lemma pure_read_ret {A : Type} (a : A) : pure_read (ret a).
Proof. intros s. split; [eexists|]; reflexivity. Qed.

Lemma pure_read_query_ret {A B : Type} (q : DB -> A) (f : A -> B) :
  pure_read (bindM (query q) (fun x => ret (f x))).
Proof. intros s. split; [eexists|]; reflexivity. Qed.

(** A commit followed by reads only: the request returns, or nothing was
    committed. *)
Lemma atomic_commit_then {A : Type} (k : M A) : pure_read k -> atomic (bindM commit (fun _ => k)).
Proof.
  intros Hk s. unfold bindM, commit, bindM, flush.
  destruct (constraints_ok (pending s)); simpl; [|right; reflexivity].
  left. apply Hk.
Qed.

Ltac uncommitting_step :=
  match goal with
  | |- uncommitting (bindM _ _) => apply uncommitting_bind; [|intros ?]
  | |- uncommitting (for_each _ _) => apply uncommitting_for_each; intros ?
  | |- uncommitting (match ?x with _ => _ end) => destruct x
  | |- uncommitting (if ?b then _ else _) => destruct b
  | |- uncommitting (ret _) => apply uncommitting_ret
  | |- uncommitting (raise _) => apply uncommitting_raise
  | |- uncommitting (lift _) => apply uncommitting_lift
  | |- uncommitting (query _) => apply uncommitting_query
  | |- uncommitting flush => apply uncommitting_flush
  | |- uncommitting _ => apply uncommitting_modify
  end.

Ltac atomic_step :=
  match goal with
  | |- atomic (bindM commit _) =>
      apply atomic_commit_then; first [apply pure_read_ret | apply pure_read_query_ret]
  | |- atomic (bindM _ _) => apply atomic_bind; [repeat uncommitting_step | intros ?]
  | |- atomic (match ?x with _ => _ end) => destruct x
  | |- atomic (if ?b then _ else _) => destruct b
  | |- atomic (raise _) => apply atomic_uncommitting, uncommitting_raise
  end.

Lemma atomic_consume_inventory (id : string) (quantity : float) :
  atomic (consume_inventory id quantity).
Proof. unfold consume_inventory. repeat atomic_step. Qed.

Lemma atomic_consume_meal (plan_id : string) (payload : list (string * json)) :
  atomic (consume_meal plan_id payload).
Proof. unfold consume_meal, consume_inventory_by_name. repeat atomic_step. Qed.

Lemma atomic_create_meal_plan (payload : MealPlanCreate) (uuid : string) :
  atomic (create_meal_plan payload uuid).
Proof. unfold create_meal_plan. repeat atomic_step. Qed.

Lemma atomic_add_inventory_item (payload : InventoryCreate) (uuid : string) :
  atomic (add_inventory_item payload uuid).
Proof. unfold add_inventory_item. repeat atomic_step. Qed.

Lemma atomic_create_recipe (payload : RecipeCreate) (uuid : string) :
  atomic (create_recipe payload uuid).
Proof. unfold create_recipe. repeat atomic_step. Qed.

Lemma atomic_run_request {A : Type} (handler : M A) (db : DB) (e : exn) :
  atomic handler ->
  fst (run_request handler db) = Raise e -> snd (run_request handler db) = db.
Proof.
  intros Ha. unfold run_request.
  specialize (Ha {| committed := db; pending := db |}).
  destruct (handler _) as [r s]. simpl in *.
  intros Hr. destruct Ha as [[a Ha]|Ha]; [congruence | exact Ha].
Qed.

(** X9. Every writing request is all or nothing: when it ends in an error,
    of whatever kind, the stored database is the one it started from. *)
Theorem failed_request_changes_nothing (db : DB) (e : exn) :
  (forall id quantity,
     fst (run_request (consume_inventory id quantity) db) = Raise e ->
     snd (run_request (consume_inventory id quantity) db) = db)
  /\ (forall plan_id payload,
        fst (run_request (consume_meal plan_id payload) db) = Raise e ->
        snd (run_request (consume_meal plan_id payload) db) = db)
  /\ (forall payload uuid,
        fst (run_request (create_meal_plan payload uuid) db) = Raise e ->
        snd (run_request (create_meal_plan payload uuid) db) = db)
  /\ (forall payload uuid,
        fst (run_request (add_inventory_item payload uuid) db) = Raise e ->
        snd (run_request (add_inventory_item payload uuid) db) = db)
  /\ (forall payload uuid,
        fst (run_request (create_recipe payload uuid) db) = Raise e ->
        snd (run_request (create_recipe payload uuid) db) = db).
Proof.
  repeat split; intros; apply (atomic_run_request _ db e); auto.
  - apply atomic_consume_inventory.
  - apply atomic_consume_meal.
  - apply atomic_create_meal_plan.
  - apply atomic_add_inventory_item.
  - apply atomic_create_recipe.
Qed.

Lemma failed_request_changes_nothing_witness :
  snd (run_request (consume_meal "p1" [("day", JStr "sunday"); ("meal", JStr "lunch")])
         omelette_db) = omelette_db
  /\ snd (run_request (consume_inventory "i9" 1%float) omelette_db) = omelette_db.
Proof.
  destruct (failed_request_changes_nothing
              omelette_db (HTTPException 404 "Meal plan entry not found"))
    as (_ & Hm & _).
  destruct (failed_request_changes_nothing omelette_db (HTTPException 404 "Item not found"))
    as (Hi & _).
  split; [apply Hm | apply Hi]; reflexivity.
Defined.

(** ** Reading requests *)

Lemma uncommitting_run_request {A : Type} (handler : M A) (db : DB) :
  uncommitting handler -> snd (run_request handler db) = db.
Proof.
  intros H. unfold run_request. specialize (H {| committed := db; pending := db |}).
  destruct (handler _) as [r s]. exact H.
Qed.

(** X10. The reading requests (shopping list, plan lookup, inventory and
    recipe listings) never change what is stored, whatever they answer. *)
Theorem reading_requests_change_nothing (db : DB) :
  (forall week_start, snd (run_request (generate_shopping_list week_start) db) = db)
  /\ (forall week_start, snd (run_request (get_meal_plan week_start) db) = db)
  /\ snd (run_request list_inventory db) = db
  /\ snd (run_request list_recipes db) = db.
Proof.
  split; [|split; [|split]]; intros; apply uncommitting_run_request.
  - unfold generate_shopping_list. repeat uncommitting_step.
  - unfold get_meal_plan. repeat uncommitting_step.
  - unfold list_inventory. repeat uncommitting_step.
  - unfold list_recipes. repeat uncommitting_step.
Qed.

(** ** Adding to the inventory *)

Lemma filter_empty_existsb {A : Type} (g : A -> string) (n : string) (l : list A) :
  filter (fun i => String.eqb (g i) n) l = [] ->
  existsb (String.eqb n) (map g l) = false.
Proof.
  induction l as [|a l IH]; simpl; [reflexivity|].
  destruct (String.eqb (g a) n) eqn:E; [discriminate|].
  intros H. rewrite String.eqb_sym, E. exact (IH H).
Qed.

Lemma distinct_In_inj {A : Type} (g : A -> string) (l : list A) :
  distinct String.eqb (map g l) = true ->
  forall a b, In a l -> In b l -> g a = g b -> a = b.
Proof.
  induction l as [|x l IH]; simpl; [intros _ a b []|].
  intros H a b Ha Hb E. apply andb_true_iff in H as [Hx H].
  apply negb_true_iff in Hx.
  assert (Hno : forall c, In c l -> g x = g c -> False).
  { intros c Hc Ec.
    assert (K : existsb (String.eqb (g x)) (map g l) = true).
    { apply existsb_exists. exists (g c). split; [apply in_map, Hc|].
      apply String.eqb_eq, Ec. }
    congruence. }
  destruct Ha as [<-|Ha], Hb as [<-|Hb]; try reflexivity.
  - exfalso. exact (Hno b Hb E).
  - exfalso. exact (Hno a Ha (eq_sym E)).
  - exact (IH H a b Ha Hb E).
Qed.

Lemma constraints_ok_inventory_eq (f : list InventoryItem -> list InventoryItem) (db : DB) :
  constraints_ok db = true ->
  distinct String.eqb (map item_id (f (inventory_items db))) = true ->
  distinct String.eqb (map item_normalized_name (f (inventory_items db))) = true ->
  constraints_ok (with_inventory f db)
  = forallb (fun i => not_null (item_quantity i)) (f (inventory_items db)).
Proof.
  unfold constraints_ok, unique_ok, not_null_ok. intros H H1 H2. simpl.
  split_andb. rewrite_true. simpl. apply andb_true_r.
Qed.

Lemma constraints_ok_new_item (db : DB) (item : InventoryItem) :
  constraints_ok db = true ->
  items_named (item_normalized_name item) db = [] ->
  existsb (String.eqb (item_id item)) (map item_id (inventory_items db)) = false ->
  constraints_ok (with_inventory (fun l => (l ++ [item])%list) db)
  = not_null (item_quantity item).
Proof.
  intros Hc Hn Hid. destruct (constraints_ok_inventory db Hc) as [D1 D2].
  rewrite constraints_ok_inventory_eq.
  - rewrite forallb_app, (constraints_ok_quantities db Hc). simpl. apply andb_true_r.
  - exact Hc.
  - rewrite map_app. simpl. apply distinct_snoc; assumption.
  - rewrite map_app. simpl. apply distinct_snoc; [assumption|].
    apply filter_empty_existsb, Hn.
Qed.

(** A first addition: the row is written unless its quantity is [nan]. *)
Lemma add_inventory_item_new_run (db : DB) (payload : InventoryCreate) (uuid : string) :
  constraints_ok db = true ->
  items_named (normalize_name (ic_name payload)) db = [] ->
  existsb (String.eqb uuid) (map item_id (inventory_items db)) = false ->
  run_request (add_inventory_item payload uuid) db
  = if is_nan (ic_quantity payload)
    then (Raise IntegrityError, db)
    else (Ok (serialize_inventory (new_item payload uuid)),
          with_inventory (fun l => (l ++ [new_item payload uuid])%list) db).
Proof.
  intros Hc Hn Hid. unfold run_request, add_inventory_item.
  cbv beta iota zeta delta [bindM query lift pending committed]. rewrite Hn.
  cbv beta iota zeta delta [one_or_none modify commit flush bindM ret pending committed].
  fold (new_item payload uuid).
  rewrite (constraints_ok_new_item db (new_item payload uuid) Hc Hn Hid).
  unfold not_null. simpl item_quantity. destruct (is_nan (ic_quantity payload)); reflexivity.
Qed.

Lemma merge_into_ids (payload : InventoryCreate) (existing : InventoryItem)
    (l : list InventoryItem) :
  map item_id (map (merge_into payload existing) l) = map item_id l
  /\ map item_normalized_name (map (merge_into payload existing) l)
     = map item_normalized_name l.
Proof.
  rewrite !map_map. split; apply map_ext; intros i; unfold merge_into;
    destruct (String.eqb (item_id i) (item_id existing)); reflexivity.
Qed.

Lemma merge_into_others (payload : InventoryCreate) (existing : InventoryItem)
    (l : list InventoryItem) :
  existsb (String.eqb (item_id existing)) (map item_id l) = false ->
  map (merge_into payload existing) l = l.
Proof.
  induction l as [|a l IH]; simpl; [reflexivity|].
  intros H. apply orb_false_iff in H as [H1 H2]. rewrite (IH H2).
  unfold merge_into. rewrite String.eqb_sym, H1. reflexivity.
Qed.

Lemma merge_into_not_null (payload : InventoryCreate) (existing : InventoryItem)
    (l : list InventoryItem) :
  In existing l ->
  distinct String.eqb (map item_id l) = true ->
  forallb (fun i => not_null (item_quantity i)) l = true ->
  forallb (fun i => not_null (item_quantity i)) (map (merge_into payload existing) l)
  = not_null (item_quantity existing + ic_quantity payload).
Proof.
  induction l as [|a l IH]; [intros []|].
  intros Hin D Hq. pose proof (distinct_In_inj item_id (a :: l) D) as Hinj.
  simpl in D, Hq. apply andb_true_iff in D as [Da D]. apply andb_true_iff in Hq as [Ha Hq].
  apply negb_true_iff in Da. simpl.
  unfold merge_into at 1. destruct (String.eqb (item_id a) (item_id existing)) eqn:E.
  - apply String.eqb_eq in E.
    assert (a = existing) by (apply Hinj; [left; reflexivity | exact Hin | exact E]).
    subst a. rewrite (merge_into_others payload existing l Da), Hq. simpl. apply andb_true_r.
  - rewrite Ha. simpl. apply IH; [|exact D | exact Hq].
    destruct Hin as [->|Hin]; [|exact Hin].
    rewrite String.eqb_refl in E. discriminate.
Qed.

(** A merge: the row is updated unless the new quantity is [nan]. *)
Lemma add_inventory_item_merge_run (db : DB) (payload : InventoryCreate) (uuid : string)
    (existing : InventoryItem) :
  constraints_ok db = true ->
  items_named (normalize_name (ic_name payload)) db = [existing] ->
  run_request (add_inventory_item payload uuid) db
  = if is_nan (item_quantity existing + ic_quantity payload)
    then (Raise IntegrityError, db)
    else (Ok (serialize_inventory (merged payload existing)),
          with_inventory (map (merge_into payload existing)) db).
Proof.
  intros Hc Hn. destruct (constraints_ok_inventory db Hc) as [D1 D2].
  unfold run_request, add_inventory_item.
  cbv beta iota zeta delta [bindM query lift pending committed]. rewrite Hn.
  cbv beta iota zeta delta [one_or_none modify commit flush bindM ret pending committed].
  fold (merge_into payload existing).
  destruct (merge_into_ids payload existing (inventory_items db)) as [E1 E2].
  rewrite (constraints_ok_inventory_eq (map (merge_into payload existing)) db Hc)
    by (rewrite ?E1, ?E2; assumption).
  rewrite merge_into_not_null.
  - unfold not_null. destruct (is_nan _); reflexivity.
  - assert (H : In existing (items_named (normalize_name (ic_name payload)) db))
      by (rewrite Hn; left; reflexivity).
    unfold items_named in H. apply filter_In in H as [H _]. exact H.
  - exact D1.
  - apply constraints_ok_quantities, Hc.
Qed.

(** X11. Adding an item whose normalized name is already in the inventory
    merges into that row when the sum of the two quantities is a number: the
    answer carries the row's identifier and display name, the sum, the new
    unit and expiry date when given (the old ones otherwise); no row is added
    and the other rows are untouched.  When the sum is not a number the
    commit is refused with an integrity error and nothing changes. *)
Theorem add_inventory_item_merges (db : DB) (payload : InventoryCreate) (uuid : string)
    (existing : InventoryItem) :
  constraints_ok db = true ->
  items_named (normalize_name (ic_name payload)) db = [existing] ->
  let outcome := run_request (add_inventory_item payload uuid) db in
  let sum := (item_quantity existing + ic_quantity payload)%float in
  (is_nan sum = false ->
   fst outcome
   = Ok {| io_id := item_id existing;
           io_name := item_name existing;
           io_quantity := sum;
           io_unit := unit_or (ic_unit payload) (item_unit existing);
           io_expires_on := date_or (ic_expires_on payload) (item_expires_on existing) |}
   /\ inventory_items (snd outcome) = map (merge_into payload existing) (inventory_items db)
   /\ map item_id (inventory_items (snd outcome)) = map item_id (inventory_items db)
   /\ Forall2 (fun old new => item_id old <> item_id existing -> new = old)
              (inventory_items db) (inventory_items (snd outcome)))
  /\ (is_nan sum = true -> outcome = (Raise IntegrityError, db)).
Proof.
  intros Hc Hn. cbv zeta. rewrite (add_inventory_item_merge_run db payload uuid existing Hc Hn).
  split; intros ->; [|reflexivity].
  simpl. split; [reflexivity|]. split; [reflexivity|].
  split; [apply merge_into_ids|].
  apply Forall2_map_self. intros i Hi. unfold merge_into.
  destruct (String.eqb (item_id i) (item_id existing)) eqn:E; [|reflexivity].
  apply String.eqb_eq in E. contradiction.
Qed.

Lemma add_inventory_item_merges_witness :
  fst (run_request
         (add_inventory_item {| ic_name := "  EGGS "; ic_quantity := 6%float;
                                ic_unit := None; ic_expires_on := Some 739001 |} "i2")
         omelette_db)
  = Ok {| io_id := "i1"; io_name := "Eggs"; io_quantity := (4 + 6)%float;
          io_unit := Some "count"; io_expires_on := Some 739001 |}
  /\ run_request
       (add_inventory_item {| ic_name := "eggs"; ic_quantity := nan;
                              ic_unit := None; ic_expires_on := None |} "i2")
       omelette_db
     = (Raise IntegrityError, omelette_db).
Proof.
  pose (eggs := {| item_id := "i1"; item_name := "Eggs"; item_normalized_name := "eggs";
                   item_quantity := 4%float; item_unit := Some "count";
                   item_expires_on := None |}).
  split.
  - apply (proj1 (add_inventory_item_merges omelette_db
                    {| ic_name := "  EGGS "; ic_quantity := 6%float;
                       ic_unit := None; ic_expires_on := Some 739001 |} "i2" eggs
                    eq_refl eq_refl)).
    reflexivity.
  - apply (proj2 (add_inventory_item_merges omelette_db
                    {| ic_name := "eggs"; ic_quantity := nan;
                       ic_unit := None; ic_expires_on := None |} "i2" eggs
                    eq_refl eq_refl)).
    reflexivity.
Defined.





Lemma is_finite_not_nan (x : float) : is_finite x = true -> Prim2SF x <> S754_nan.
Proof.
  unfold is_finite, Prim2SF. intros H.
  apply negb_true_iff, orb_false_iff in H as [Hn Hi]. rewrite Hn, Hi.
  destruct (is_zero x); [discriminate|].
  destruct (Z.frexp x) as [r e].
  destruct (shr_fexp prec emax _ _ _) as [mrs e'].
  destruct (shr_m mrs); discriminate.
Qed.

Lemma leb_refl_finite (x : float) : is_finite x = true -> (x <=? x)%float = true.
Proof.
  intros H. rewrite leb_spec. unfold SFleb.
  rewrite (SFcompare_refl _ (is_finite_not_nan x H)). reflexivity.
Qed.

Lemma find_appended (uuid : string) (l : list InventoryItem) (item : InventoryItem) :
  existsb (String.eqb uuid) (map item_id l) = false ->
  item_id item = uuid ->
  find (fun i => String.eqb (item_id i) uuid) (l ++ [item]) = Some item
  /\ filter (other_than uuid) (l ++ [item]) = l.
Proof.
  intros Hf Hi. induction l as [|a l IH]; simpl.
  - unfold other_than. rewrite Hi, String.eqb_refl. split; reflexivity.
  - simpl in Hf. apply orb_false_iff in Hf as [H1 H2]. destruct (IH H2) as [IH1 IH2].
    unfold other_than at 1. rewrite String.eqb_sym, H1. simpl. rewrite IH2.
    split; [exact IH1 | reflexivity].
Qed.

Lemma with_inventory_same (db : DB) : with_inventory (fun _ => inventory_items db) db = db.
Proof. destruct db; reflexivity. Qed.

(** X14. Adding a new item with a finite quantity and then consuming that
    quantity of it takes the record away again: the answer says removed, and
    the stored database is the one before the addition. *)
Theorem add_then_consume_restores (db : DB) (payload : InventoryCreate) (uuid : string) :
  constraints_ok db = true ->
  items_named (normalize_name (ic_name payload)) db = [] ->
  existsb (String.eqb uuid) (map item_id (inventory_items db)) = false ->
  is_finite (ic_quantity payload) = true ->
  let db1 := snd (run_request (add_inventory_item payload uuid) db) in
  run_request (consume_inventory uuid (ic_quantity payload)) db1
  = (Ok {| icr_id := uuid; icr_name := ic_name payload; icr_quantity := None;
           icr_removed := true |}, db).
Proof.
  intros Hc Hn Hid Hq. cbv zeta.
  assert (Hnan : is_nan (ic_quantity payload) = false).
  { unfold is_finite in Hq. apply negb_true_iff, orb_false_iff in Hq as [Hq _]. exact Hq. }
  rewrite (add_inventory_item_new_run db payload uuid Hc Hn Hid), Hnan. simpl snd.
  set (db1 := with_inventory (fun l => (l ++ [new_item payload uuid])%list) db).
  assert (Hc1 : constraints_ok db1 = true).
  { unfold db1. rewrite (constraints_ok_new_item db (new_item payload uuid) Hc Hn Hid).
    unfold not_null. simpl. rewrite Hnan. reflexivity. }
  destruct (find_appended uuid (inventory_items db) (new_item payload uuid) Hid eq_refl)
    as [Hfind Hfilter].
  rewrite (consume_inventory_run db1 uuid (ic_quantity payload) (new_item payload uuid) Hc1 Hfind).
  cbv zeta. simpl item_quantity.
  rewrite (leb_sub_nonpositive _ _ (or_introl Hq) (leb_refl_finite _ Hq)).
  f_equal. unfold db1, with_inventory. simpl. rewrite Hfilter. destruct db; reflexivity.
Qed.

Lemma add_then_consume_restores_witness :
  run_request (consume_inventory "i2" 100%float)
    (snd (run_request
            (add_inventory_item {| ic_name := "Cheese"; ic_quantity := 100%float;
                                   ic_unit := Some "g"; ic_expires_on := None |} "i2")
            omelette_db))
  = (Ok {| icr_id := "i2"; icr_name := "Cheese"; icr_quantity := None;
           icr_removed := true |}, omelette_db).
Proof.
  apply (add_then_consume_restores omelette_db
           {| ic_name := "Cheese"; ic_quantity := 100%float;
              ic_unit := Some "g"; ic_expires_on := None |} "i2"); reflexivity.
Defined.

(** ** Listing the inventory *)

Lemma insert_by_name_perm (item : InventoryItem) (l : list InventoryItem) :
  Permutation (item :: l) (insert_by_name item l).
Proof.
  induction l as [|x l IH]; simpl; [apply Permutation_refl|].
  destruct (String.leb (item_name item) (item_name x)); [apply Permutation_refl|].
  eapply Permutation_trans; [apply perm_swap|]. apply perm_skip, IH.
Qed.

Lemma order_by_name_perm (l : list InventoryItem) : Permutation l (order_by_name l).
Proof.
  induction l as [|x l IH]; simpl; [constructor|].
  eapply Permutation_trans; [apply perm_skip, IH | apply insert_by_name_perm].
Qed.

Lemma insert_by_name_sorted (item : InventoryItem) (l : list InventoryItem) :
  Sorted (fun a b => String.leb (item_name a) (item_name b) = true) l ->
  Sorted (fun a b => String.leb (item_name a) (item_name b) = true) (insert_by_name item l).
Proof.
  induction 1 as [|x l Hs IH Hh]; simpl; [repeat constructor|].
  destruct (String.leb (item_name item) (item_name x)) eqn:E.
  - constructor; [constructor; assumption | constructor; exact E].
  - constructor; [exact IH|].
    assert (Hx : String.leb (item_name x) (item_name item) = true)
      by (destruct (String.leb_total (item_name x) (item_name item)); congruence).
    destruct Hh as [|y l' Hxy]; simpl; [constructor; exact Hx|].
    destruct (String.leb (item_name item) (item_name y)); constructor; assumption.
Qed.

Lemma order_by_name_sorted (l : list InventoryItem) :
  Sorted (fun a b => String.leb (item_name a) (item_name b) = true) (order_by_name l).
Proof.
  induction l as [|x l IH]; simpl; [constructor | apply insert_by_name_sorted, IH].
Qed.

Lemma Sorted_map_names (l : list InventoryItem) :
  Sorted (fun a b => String.leb (item_name a) (item_name b) = true) l ->
  Sorted (fun a b => String.leb a b = true) (map io_name (map serialize_inventory l)).
Proof.
  induction 1 as [|x l Hs IH Hh]; simpl; constructor; [exact IH|].
  destruct Hh; simpl; constructor; assumption.
Qed.

(** X15. The inventory listing answers every stored item exactly once, in
    ascending order of display name, and always succeeds. *)
Theorem list_inventory_sorted (db : DB) :
  exists answer,
    run_request list_inventory db = (Ok answer, db)
    /\ Permutation (map serialize_inventory (inventory_items db)) answer
    /\ Sorted (fun a b => String.leb a b = true) (map io_name answer).
Proof.
  exists (map serialize_inventory (order_by_name (inventory_items db))).
  split; [reflexivity|]. split.
  - apply Permutation_map, order_by_name_perm.
  - apply Sorted_map_names, order_by_name_sorted.
Qed.

(** ** Looking a week up *)

(** X16. The two handlers that look a week's plan up answer alike: 404 when
    the week has no plan, the uncaught [MultipleResultsFound] when it has
    several, and otherwise the shopping list of the week and the plan with
    its stored entries, listed by day, then by meal, whatever the order they
    were stored in; none of them writes. *)
Theorem week_lookup_outcomes (db : DB) (week_start : date) :
  constraints_ok db = true ->
  match plans_for_week week_start db with
  | [] =>
      run_request (generate_shopping_list week_start) db
      = (Raise (HTTPException 404 "Meal plan not found"), db)
      /\ run_request (get_meal_plan week_start) db
         = (Raise (HTTPException 404 "Meal plan not found"), db)
  | [plan] =>
      (exists items,
         run_request (generate_shopping_list week_start) db
         = (Ok {| slr_week_start := week_start; slr_items := items |}, db))
      /\ run_request (get_meal_plan week_start) db
         = (Ok {| mpo_id := plan_id plan;
                  mpo_week_start := plan_week_start plan;
                  mpo_entries := map (entry_out db) (entries_of db plan) |}, db)
      /\ Sorted (fun a b => slot_leb a b = true) (entries_of db plan)
      /\ Permutation (filter (in_plan plan) (meal_plan_entries db)) (entries_of db plan)
  | _ =>
      run_request (generate_shopping_list week_start) db = (Raise MultipleResultsFound, db)
      /\ run_request (get_meal_plan week_start) db = (Raise MultipleResultsFound, db)
  end.
Proof.
  intros Hc. unfold run_request, generate_shopping_list, get_meal_plan.
  cbv beta iota zeta delta [bindM query lift pending committed].
  destruct (plans_for_week week_start db) as [|plan [|plan' rows]];
    cbv beta iota zeta delta [one_or_none raise ret]; try (split; reflexivity).
  split; [|split; [reflexivity|split; [apply order_by_slot_sorted | apply order_by_slot_perm]]].
  destruct (aggregate db (entries_of db plan)) as [required units].
  destruct (mapM_total (shopping_items_for db (inventory_totals db) units) required)
    as [items Hm].
  - intros [k needed]. unfold shopping_items_for.
    destruct (0 <? _)%float; [|eexists; reflexivity].
    destruct (find_display_name_ok db (fst k) Hc) as [name ->]. eexists. reflexivity.
  - rewrite Hm. eexists. reflexivity.
Qed.

Lemma week_lookup_outcomes_witness :
  map entry_day (meal_plan_entries tuesday_first_db) = ["tuesday"; "monday"]
  /\ run_request (get_meal_plan 739000) tuesday_first_db
     = (Ok {| mpo_id := "p1"; mpo_week_start := 739000;
              mpo_entries := [ {| mpeo_day := "monday"; mpeo_meal := "dinner";
                                  mpeo_recipe_id := "r1"; mpeo_servings := 1%float;
                                  mpeo_recipe_title := "Omelette" |};
                               {| mpeo_day := "tuesday"; mpeo_meal := "lunch";
                                  mpeo_recipe_id := "r1"; mpeo_servings := 2%float;
                                  mpeo_recipe_title := "Omelette" |} ] |},
        tuesday_first_db).
Proof.
  split; [reflexivity|].
  exact (proj1 (proj2 (week_lookup_outcomes tuesday_first_db 739000 eq_refl))).
Defined.

(** ** The body of a consumed meal *)

(** X17. A consume request whose body lacks a day or a meal (absent, null,
    empty, zero) is answered 400; one whose day and meal are both truthy but
    not both strings fails with the uncaught [AttributeError] of [.lower()].
    Neither writes. *)
Theorem consume_meal_payload_errors (db : DB) (plan_id : string)
    (payload : list (string * json)) :
  let day := get payload "day" in
  let meal := get payload "meal" in
  (truthy day && truthy meal = false ->
   run_request (consume_meal plan_id payload) db
   = (Raise (HTTPException 400 "day and meal are required"), db))
  /\ (truthy day && truthy meal = true ->
      is_str day && is_str meal = false ->
      run_request (consume_meal plan_id payload) db = (Raise AttributeError, db)).
Proof.
  cbv zeta. unfold run_request, consume_meal. split.
  - intros H. apply andb_false_iff in H.
    assert (E : negb (truthy (get payload "day")) || negb (truthy (get payload "meal")) = true)
      by (destruct H as [-> | ->]; simpl; auto using orb_true_r).
    rewrite E. reflexivity.
  - intros H Hs. apply andb_true_iff in H as [-> ->]. simpl negb. simpl orb. cbv iota.
    cbv beta iota zeta delta [bindM lift].
    destruct (get payload "day"); simpl in *; try reflexivity.
    destruct (get payload "meal"); simpl in *; try reflexivity. discriminate.
Qed.

Lemma consume_meal_payload_errors_witness :
  run_request (consume_meal "p1" [("day", JStr "monday")]) omelette_db
  = (Raise (HTTPException 400 "day and meal are required"), omelette_db)
  /\ run_request (consume_meal "p1" [("day", JInt 1); ("meal", JStr "dinner")]) omelette_db
     = (Raise AttributeError, omelette_db).
Proof.
  split.
  - apply (proj1 (consume_meal_payload_errors omelette_db "p1" [("day", JStr "monday")])).
    reflexivity.
  - apply (proj2 (consume_meal_payload_errors omelette_db "p1"
                    [("day", JInt 1); ("meal", JStr "dinner")])); reflexivity.
Defined.

(** X18. The day and the meal of a consume request are matched without
    regard to case: two bodies whose days and meals agree once lowercased
    have the same answer and the same effect. *)
Theorem consume_meal_case_insensitive (db : DB) (plan_id : string)
    (body body' : list (string * json)) (day day' meal meal' : string) :
  get body "day" = JStr day -> get body "meal" = JStr meal ->
  get body' "day" = JStr day' -> get body' "meal" = JStr meal' ->
  lower day = lower day' -> lower meal = lower meal' ->
  run_request (consume_meal plan_id body) db = run_request (consume_meal plan_id body') db.
Proof.
  intros Hd Hm Hd' Hm' Ed Em. unfold run_request, consume_meal.
  rewrite Hd, Hm, Hd', Hm'. unfold truthy.
  rewrite <- (is_empty_lower day), <- (is_empty_lower meal), Ed, Em,
    (is_empty_lower day'), (is_empty_lower meal').
  destruct (negb (negb (is_empty day')) || negb (negb (is_empty meal'))); [reflexivity|].
  cbv beta iota zeta delta [bindM lift lower_method]. rewrite Ed, Em. reflexivity.
Qed.

Lemma consume_meal_case_insensitive_witness :
  run_request (consume_meal "p1" [("day", JStr "MONDAY"); ("meal", JStr "Dinner")]) omelette_db
  = run_request (consume_meal "p1" monday_dinner) omelette_db.
Proof.
  apply (consume_meal_case_insensitive omelette_db "p1" _ _ "MONDAY" "monday" "Dinner" "dinner");
    reflexivity.
Defined.

(** ** Stock on hand *)

Lemma inventory_totals_stock (db : DB) :
  inventory_totals db = fold_left add_contribution (stock db) [].
Proof.
  unfold inventory_totals, stock. generalize (@nil (key * float)).
  induction (inventory_items db) as [|i l IH]; intros d; simpl; [reflexivity | apply IH].
Qed.

Lemma summands_stock (n u : string) (l : list InventoryItem) :
  summands (n, u) (map (fun item => (item_key item, item_quantity item)) l)
  = map item_quantity
      (filter (fun i => String.eqb (unit_or_empty (item_unit i)) u)
              (filter (fun i => String.eqb (item_normalized_name i) n) l)).
Proof.
  unfold summands. induction l as [|i l IH]; simpl; [reflexivity|].
  unfold key_eqb at 1. simpl.
  destruct (String.eqb (item_normalized_name i) n); simpl; [|exact IH].
  destruct (String.eqb (unit_or_empty (item_unit i)) u); simpl; [f_equal|]; exact IH.
Qed.

(** X19. The stock the shopping list counts for a (name, unit) key is that
    of the one row with this normalized name, and only when the row's unit
    ([None] read as the empty string) is literally the key's: stock held in
    another unit counts for nothing. *)
Theorem inventory_totals_lookup (db : DB) (normalized_name unit : string) :
  constraints_ok db = true ->
  dict_get (inventory_totals db) (normalized_name, unit)
  = match items_named normalized_name db with
    | [item] =>
        if String.eqb (unit_or_empty (item_unit item)) unit
        then Some (0 + item_quantity item)%float
        else None
    | _ => None
    end.
Proof.
  intros Hc. destruct (constraints_ok_inventory db Hc) as [_ D].
  rewrite inventory_totals_stock, dict_get_contributions. unfold stock.
  rewrite summands_stock. unfold items_named.
  destruct (one_or_none_distinct item_normalized_name normalized_name _ D) as [o Ho].
  destruct (filter _ (inventory_items db)) as [|item [|item' rows]]; simpl in *;
    [reflexivity| |discriminate].
  destruct (String.eqb _ unit); reflexivity.
Qed.

Lemma inventory_totals_lookup_witness :
  dict_get (inventory_totals omelette_db) ("eggs", "count") = Some (0 + 4)%float
  /\ dict_get (inventory_totals omelette_db) ("eggs", "dozen") = None.
Proof.
  split.
  - exact (inventory_totals_lookup omelette_db "eggs" "count" eq_refl).
  - exact (inventory_totals_lookup omelette_db "eggs" "dozen" eq_refl).
Defined.

(** ** Replacing a week's plan *)

Lemma get_recipe_id (id : string) (db : DB) (recipe : Recipe) :
  get_recipe id db = Some recipe -> recipe_id recipe = id.
Proof.
  unfold get_recipe. intros H. apply find_some in H as [_ H].
  apply String.eqb_eq. exact H.
Qed.

Lemma with_entries_app (l1 l2 : list MealPlanEntry) (f : list MealPlanEntry -> list MealPlanEntry)
    (db : DB) :
  with_entries (fun l => (l ++ l2)%list) (with_entries (fun l => (f l ++ l1)%list) db)
  = with_entries (fun l => (f l ++ l1 ++ l2)%list) db.
Proof. unfold with_entries. simpl. rewrite <- app_assoc. reflexivity. Qed.

Lemma plan_entries_loop_appends (db : DB) (plan : MealPlan)
    (entries : list MealPlanEntryCreate) :
  Forall (recipe_stored db) entries ->
  forall (done : list MealPlanEntry) (f : list MealPlanEntry -> list MealPlanEntry) (s : Session),
  recipes (pending s) = recipes db ->
  for_each entries (plan_entry_step plan)
    {| committed := committed s;
       pending := with_entries (fun l => (f l ++ done)%list) (pending s) |}
  = (Ok tt, {| committed := committed s;
               pending := with_entries
                            (fun l => (f l ++ done ++ map (new_entry plan) entries)%list)
                            (pending s) |}).
Proof.
  induction 1 as [|e entries He _ IH]; intros done f s Hs; simpl.
  - rewrite app_nil_r. reflexivity.
  - unfold bindM at 1. unfold plan_entry_step at 1.
    unfold bindM at 1, query at 1. cbv beta iota.
    replace (get_recipe (mpec_recipe_id e) (pending _))
      with (get_recipe (mpec_recipe_id e) db)
      by (unfold get_recipe; simpl; rewrite Hs; reflexivity).
    unfold recipe_stored in He.
    destruct (get_recipe (mpec_recipe_id e) db) as [recipe|] eqn:Er; [|congruence].
    unfold append_entry, modify. cbv beta iota. simpl committed. simpl pending.
    rewrite (get_recipe_id _ _ _ Er), with_entries_app.
    change {| entry_meal_plan_id := plan_id plan; entry_recipe_id := mpec_recipe_id e;
              entry_day := lower (mpec_day e); entry_meal := lower (mpec_meal e);
              entry_servings := mpec_servings e |} with (new_entry plan e).
    rewrite (IH (done ++ [new_entry plan e])%list f s Hs), <- app_assoc. reflexivity.
Qed.

Lemma distinct_app {A : Type} (eqb : A -> A -> bool) (l1 l2 : list A) :
  distinct eqb (l1 ++ l2)
  = distinct eqb l1 && distinct eqb l2
    && forallb (fun x => negb (existsb (eqb x) l2)) l1.
Proof.
  induction l1 as [|a l1 IH]; simpl; [rewrite andb_true_r; reflexivity|].
  rewrite IH, existsb_app, negb_orb.
  destruct (existsb (eqb a) l1), (existsb (eqb a) l2), (distinct eqb l1),
    (distinct eqb l2), (forallb _ l1); reflexivity.
Qed.

Lemma new_slots_distinct (plan : MealPlan) (payload : MealPlanCreate) :
  distinct slot_eqb (map entry_slot (map (new_entry plan) (mpc_entries payload)))
  = distinct pair_eqb (payload_slots payload).
Proof.
  unfold payload_slots. induction (mpc_entries payload) as [|e l IH]; simpl; [reflexivity|].
  rewrite IH. f_equal. f_equal.
  clear IH. induction l as [|x l IH]; simpl; [reflexivity|].
  rewrite IH. unfold pair_eqb at 1. simpl. rewrite String.eqb_refl. reflexivity.
Qed.

Lemma other_slots_apart (plan : MealPlan) (news : list MealPlanEntryCreate)
    (l : list MealPlanEntry) :
  forallb (fun x => negb (existsb (slot_eqb x) (map entry_slot (map (new_entry plan) news))))
          (map entry_slot (filter (other_plan plan) l)) = true.
Proof.
  induction l as [|a l IH]; simpl; [reflexivity|].
  destruct (other_plan plan a) eqn:E; [|exact IH]. simpl. rewrite IH, andb_true_r.
  apply negb_true_iff. clear IH. induction news as [|n news IH]; simpl; [reflexivity|].
  rewrite IH, orb_false_r. unfold other_plan in E. apply negb_true_iff in E.
  rewrite E. reflexivity.
Qed.

Lemma filter_all {A : Type} (p : A -> bool) (l : list A) :
  forallb p l = true -> filter p l = l.
Proof.
  induction l as [|a l IH]; simpl; [reflexivity|].
  intros H. apply andb_true_iff in H as [-> H]. rewrite (IH H). reflexivity.
Qed.

Lemma filter_none {A : Type} (p : A -> bool) (l : list A) :
  forallb (fun x => negb (p x)) l = true -> filter p l = [].
Proof.
  induction l as [|a l IH]; simpl; [reflexivity|].
  intros H. apply andb_true_iff in H as [Ha H]. apply negb_true_iff in Ha.
  rewrite Ha. exact (IH H).
Qed.

Lemma no_entry_of (uuid : string) (l : list MealPlanEntry) :
  existsb (String.eqb uuid) (map entry_meal_plan_id l) = false ->
  forallb (fun e => negb (String.eqb (entry_meal_plan_id e) uuid)) l = true.
Proof.
  induction l as [|a l IH]; simpl; [reflexivity|].
  intros H. apply orb_false_iff in H as [H1 H2].
  rewrite String.eqb_sym, H1. exact (IH H2).
Qed.

Lemma constraints_ok_with_entries (f : list MealPlanEntry -> list MealPlanEntry) (db : DB) :
  constraints_ok db = true ->
  constraints_ok (with_entries f db)
  = distinct slot_eqb (map entry_slot (f (meal_plan_entries db)))
    && forallb (fun e => not_null (entry_servings e)) (f (meal_plan_entries db)).
Proof.
  unfold constraints_ok, unique_ok, not_null_ok. simpl. intros H. split_andb.
  rewrite_true. reflexivity.
Qed.

Lemma constraints_ok_servings (db : DB) :
  constraints_ok db = true ->
  forallb (fun e => not_null (entry_servings e)) (meal_plan_entries db) = true.
Proof.
  intros H. apply constraints_ok_not_null in H. unfold not_null_ok in H.
  apply andb_true_iff in H as [_ H]. exact H.
Qed.

Lemma new_servings_not_null (plan : MealPlan) (payload : MealPlanCreate) :
  forallb (fun e => not_null (entry_servings e))
          (map (new_entry plan) (mpc_entries payload))
  = servings_ok payload.
Proof.
  unfold servings_ok. induction (mpc_entries payload) as [|e l IH]; simpl; [reflexivity|].
  rewrite IH. reflexivity.
Qed.

(** The constraints on the entries once the week's are replaced: the slots of
    the payload differ and its servings are numbers. *)
Lemma constraints_ok_replaced (db : DB) (plan : MealPlan) (payload : MealPlanCreate) :
  constraints_ok db = true ->
  constraints_ok
    (with_entries
       (fun l => (filter (other_plan plan) l
                  ++ map (new_entry plan) (mpc_entries payload))%list) db)
  = distinct pair_eqb (payload_slots payload) && servings_ok payload.
Proof.
  intros Hc. rewrite (constraints_ok_with_entries _ _ Hc).
  rewrite map_app, distinct_app, new_slots_distinct, other_slots_apart, andb_true_r.
  rewrite (distinct_filter slot_eqb entry_slot) by (apply constraints_ok_entries, Hc).
  rewrite forallb_app, new_servings_not_null.
  rewrite (forallb_filter (fun e => not_null (entry_servings e)))
    by (apply constraints_ok_servings, Hc).
  reflexivity.
Qed.

(** The run of a creation request whose recipes are all stored: the loop
    appends every entry, and the commit decides. *)
Lemma create_meal_plan_run (db : DB) (payload : MealPlanCreate) (uuid : string) :
  constraints_ok db = true ->
  (List.length (plans_for_week (mpc_week_start payload) db) <= 1)%nat ->
  (plans_for_week (mpc_week_start payload) db = [] -> fresh_plan_id db uuid) ->
  Forall (recipe_stored db) (mpc_entries payload) ->
  run_request (create_meal_plan payload uuid) db
  = if distinct pair_eqb (payload_slots payload) && servings_ok payload
    then (Ok (serialize_meal_plan (replaced db payload uuid) (week_plan db payload uuid)),
          replaced db payload uuid)
    else (Raise IntegrityError, db).
Proof.
  intros Hc Hlen Hfresh Hst. unfold run_request, create_meal_plan, replaced, week_plan.
  cbv beta iota zeta delta [bindM query lift pending committed].
  destruct (plans_for_week (mpc_week_start payload) db) as [|plan [|plan' rows]] eqn:Hrows;
    cbv beta iota zeta delta [one_or_none clear_entries add_plan modify ret flush
                              pending committed];
    [| |simpl in Hlen; lia].
  - (* a new row *)
    destruct (Hfresh eq_refl) as [Hp He].
    set (plan := {| plan_id := uuid; plan_week_start := mpc_week_start payload |}).
    set (db1 := with_plans (fun l => (l ++ [plan])%list) db).
    assert (Hc1 : constraints_ok db1 = true)
      by (apply (constraints_ok_add_plan db plan Hc Hp)).
    rewrite Hc1.
    match goal with
    | |- context [for_each (mpc_entries payload) ?f _] =>
        change f with (plan_entry_step plan)
    end.
    pose proof (plan_entries_loop_appends db plan (mpc_entries payload) Hst []
                  (fun l => l) {| committed := db; pending := db1 |} eq_refl) as Hrun.
    simpl committed in Hrun. simpl pending in Hrun. cbv beta in Hrun.
    replace (with_entries (fun l => (l ++ [])%list) db1) with db1 in Hrun
      by (unfold with_entries; simpl; rewrite app_nil_r; reflexivity).
    rewrite Hrun. simpl app.
    unfold commit, flush, bindM. simpl pending.
    assert (Hf : filter (other_plan plan) (meal_plan_entries db) = meal_plan_entries db)
      by (apply filter_all, no_entry_of, He).
    assert (Heq : with_entries
                    (fun l => (l ++ map (new_entry plan) (mpc_entries payload))%list) db1
                  = with_entries
                      (fun l => (filter (other_plan plan) l
                                 ++ map (new_entry plan) (mpc_entries payload))%list) db1)
      by (unfold with_entries; simpl; rewrite Hf; reflexivity).
    rewrite Heq, (constraints_ok_replaced db1 plan payload Hc1).
    destruct (distinct pair_eqb (payload_slots payload) && servings_ok payload); reflexivity.
  - (* the stored plan, its entries cleared *)
    set (db1 := with_entries
                  (filter (fun e => negb (String.eqb (entry_meal_plan_id e) (plan_id plan))))
                  db).
    assert (Hc1 : constraints_ok db1 = true)
      by (apply (constraints_ok_clear_entries db _ Hc)).
    rewrite Hc1.
    match goal with
    | |- context [for_each (mpc_entries payload) ?f _] =>
        change f with (plan_entry_step plan)
    end.
    pose proof (plan_entries_loop_appends db plan (mpc_entries payload) Hst []
                  (filter (other_plan plan)) {| committed := db; pending := db |} eq_refl)
      as Hrun.
    simpl committed in Hrun. simpl pending in Hrun. cbv beta in Hrun.
    replace (with_entries (fun l => (filter (other_plan plan) l ++ [])%list) db) with db1 in Hrun
      by (unfold db1, with_entries; simpl; rewrite app_nil_r; reflexivity).
    rewrite Hrun. simpl app.
    unfold commit, flush, bindM. simpl pending.
    rewrite (constraints_ok_replaced db plan payload Hc).
    destruct (distinct pair_eqb (payload_slots payload) && servings_ok payload); reflexivity.
Qed.













(** X21. A creation request whose recipes are all stored but which names
    some (day, meal) slot twice, capitalisation aside, fails at the commit
    with the integrity error of the unique (plan, day, meal) constraint, and
    the stored plan is what it was. *)
Theorem create_meal_plan_duplicate_slot (db : DB) (payload : MealPlanCreate) (uuid : string) :
  constraints_ok db = true ->
  (List.length (plans_for_week (mpc_week_start payload) db) <= 1)%nat ->
  (plans_for_week (mpc_week_start payload) db = [] -> fresh_plan_id db uuid) ->
  Forall (recipe_stored db) (mpc_entries payload) ->
  distinct pair_eqb (payload_slots payload) = false ->
  run_request (create_meal_plan payload uuid) db = (Raise IntegrityError, db).
Proof.
  intros Hc Hlen Hfresh Hst Hd.
  rewrite (create_meal_plan_run db payload uuid Hc Hlen Hfresh Hst), Hd. reflexivity.
Qed.

Lemma create_meal_plan_duplicate_slot_witness :
  run_request (create_meal_plan double_booked "p2") omelette_db
  = (Raise IntegrityError, omelette_db).
Proof.
  apply (create_meal_plan_duplicate_slot omelette_db double_booked "p2");
    [reflexivity | apply le_n | intros H; discriminate H
    | repeat constructor; discriminate | reflexivity].
Defined.

(** ** Storing a recipe *)










